(** * golang-tools: profile-driven JSON / HTML to CSV extractor

    A shallow embedding of the most recent draft in [src/main.go]
    (lines 1097-1696: the goquery based one, with [tag], [keywords],
    [exact_match] and [clean_html]) and the properties of it that the
    specification states.

    Go strings are byte sequences; they are modelled by [string], whose
    characters are bytes.  A Go [map] is a finite map ([gmap]) where the code
    only looks keys up and stores, and a list of members in document order
    where JSON text is decoded.  Calls into Go's libraries whose behaviour is
    not written in this repository (regular expressions entered by the
    operator, the HTML parser, Unicode case mapping, number formatting, ...)
    are the operations of the class [GoLib]; every general theorem holds for
    all implementations of it. *)

From Stdlib Require Import ZArith Ascii String List Lia Permutation Bool.
From stdpp Require Import base gmap list strings.

Set Warnings "-register-all".

Local Open Scope Z_scope.
Local Open Scope string_scope.
Local Open Scope list_scope.

(** ** Bytes that Rocq string literals cannot spell *)

Definition byte (n : nat) : ascii := ascii_of_nat n.
Definition bytes (l : list nat) : string := string_of_list_ascii (map byte l).

Definition CRLF : string := Eval cbv in bytes [13; 10]%nat.
Definition NBSP : string := Eval cbv in bytes [194; 160]%nat.   (* U+00A0 *)
Definition DQUOTE : string := Eval cbv in bytes [34]%nat.

(** ** Package [strings] *)

Module GoStrings.

Fixpoint HasPrefix (s prefix : string) {struct prefix} : bool :=
  match prefix with
  | EmptyString => true
  | String p prefix' =>
      match s with
      | String c s' => if Ascii.eqb c p then HasPrefix s' prefix' else false
      | EmptyString => false
      end
  end.

(** [s[n:]] and [s[:n]] *)
Fixpoint drop (n : nat) (s : string) : string :=
  match n, s with
  | O, _ => s
  | S n', String _ s' => drop n' s'
  | S _, EmptyString => EmptyString
  end.

Fixpoint take (n : nat) (s : string) : string :=
  match n, s with
  | O, _ => EmptyString
  | S n', String c s' => String c (take n' s')
  | S _, EmptyString => EmptyString
  end.

Fixpoint rev_append (s acc : string) : string :=
  match s with
  | EmptyString => acc
  | String c s' => rev_append s' (String c acc)
  end.

Definition rev (s : string) : string := rev_append s EmptyString.

Definition HasSuffix (s suffix : string) : bool := HasPrefix (rev s) (rev suffix).

Definition TrimPrefix (s prefix : string) : string :=
  if HasPrefix s prefix then drop (String.length prefix) s else s.

Definition TrimSuffix (s suffix : string) : string :=
  if HasSuffix s suffix
  then take (String.length s - String.length suffix) s
  else s.

Fixpoint Contains (s substr : string) : bool :=
  HasPrefix s substr ||
  match s with
  | EmptyString => false
  | String _ s' => Contains s' substr
  end.

(** [strings.Index]: the offset of the first occurrence, [None] for Go's -1. *)
Fixpoint Index (s substr : string) : option nat :=
  if HasPrefix s substr then Some O
  else match s with
       | EmptyString => None
       | String _ s' => S <$> Index s' substr
       end.

(** [strings.Split(s, sep)] for a non-empty [sep], which is how every call
    site uses it (["."] and CR LF).  [skip] counts the bytes of a separator
    still to be passed over; [cur] is the current piece, reversed. *)
Fixpoint split_go (sep : string) (skip : nat) (cur : string) (s : string)
  : list string :=
  match s with
  | EmptyString => [rev cur]
  | String c s' =>
      match skip with
      | S k => split_go sep k cur s'
      | O =>
          if HasPrefix s sep
          then rev cur :: split_go sep (String.length sep - 1) EmptyString s'
          else split_go sep O (String c cur) s'
      end
  end.

Definition Split (s sep : string) : list string := split_go sep O EmptyString s.

Fixpoint Join (elems : list string) (sep : string) : string :=
  match elems with
  | [] => EmptyString
  | [e] => e
  | e :: rest => e +:+ sep +:+ Join rest sep
  end.

(** [strings.ReplaceAll(s, old, new)] for a non-empty [old] (CR LF and
    ["??"] at the call sites): leftmost occurrences, not overlapping. *)
Fixpoint replace_go (old new : string) (skip : nat) (s : string) : string :=
  match s with
  | EmptyString => EmptyString
  | String c s' =>
      match skip with
      | S k => replace_go old new k s'
      | O =>
          if HasPrefix s old
          then new +:+ replace_go old new (String.length old - 1) s'
          else String c (replace_go old new O s')
      end
  end.

Definition ReplaceAll (s old new : string) : string := replace_go old new O s.

(** White space as [unicode.IsSpace] has it, by UTF-8 encoding:
    U+0009..U+000D, U+0020 (one byte); U+0085, U+00A0 (two bytes);
    U+1680, U+2000..U+200A, U+2028, U+2029, U+202F, U+205F, U+3000 (three). *)
Definition isSpace1 (a : ascii) : bool :=
  let n := nat_of_ascii a in
  ((9 <=? n)%nat && (n <=? 13)%nat) || (n =? 32)%nat.

Definition isSpace2 (a b : ascii) : bool :=
  let m := nat_of_ascii a in
  let n := nat_of_ascii b in
  (m =? 194)%nat && ((n =? 133)%nat || (n =? 160)%nat).

Definition isSpace3 (a b c : ascii) : bool :=
  let l := nat_of_ascii a in
  let m := nat_of_ascii b in
  let n := nat_of_ascii c in
  ((l =? 225)%nat && (m =? 154)%nat && (n =? 128)%nat) ||
  ((l =? 226)%nat && (m =? 128)%nat &&
     (((128 <=? n)%nat && (n <=? 138)%nat) ||
      (n =? 168)%nat || (n =? 169)%nat || (n =? 175)%nat)) ||
  ((l =? 226)%nat && (m =? 129)%nat && (n =? 159)%nat) ||
  ((l =? 227)%nat && (m =? 128)%nat && (n =? 128)%nat).

Fixpoint TrimLeftSpace (s : string) : string :=
  match s with
  | EmptyString => EmptyString
  | String a s1 =>
      if isSpace1 a then TrimLeftSpace s1
      else match s1 with
           | String b s2 =>
               if isSpace2 a b then TrimLeftSpace s2
               else match s2 with
                    | String c s3 =>
                        if isSpace3 a b c then TrimLeftSpace s3 else s
                    | EmptyString => s
                    end
           | EmptyString => s
           end
  end.

(** The same scan over the reversed string: the encodings are read last
    byte first. *)
Fixpoint trimLeftSpaceRev (r : string) : string :=
  match r with
  | EmptyString => EmptyString
  | String c r1 =>
      if isSpace1 c then trimLeftSpaceRev r1
      else match r1 with
           | String b r2 =>
               if isSpace2 b c then trimLeftSpaceRev r2
               else match r2 with
                    | String a r3 =>
                        if isSpace3 a b c then trimLeftSpaceRev r3 else r
                    | EmptyString => r
                    end
           | EmptyString => r
           end
  end.

Definition TrimRightSpace (s : string) : string := rev (trimLeftSpaceRev (rev s)).

Definition TrimSpace (s : string) : string := TrimRightSpace (TrimLeftSpace s).

End GoStrings.

(** ** Errors

    One constructor per [fmt.Errorf] site of the source (the message text is
    in the comment), and one for error values that come out of a library. *)

Inductive error : Type :=
| ErrLibrary (pkg msg : string)
| ErrKeyNotFound (key : string)            (* getNestedValue: key not found *)
| ErrIndexParse (cause : error)            (* getNestedValue: array index parse *)
| ErrIndexRange (index : Z)                (* getNestedValue: index out of range *)
| ErrRegexCompile (cause : error)          (* extractValue *)
| ErrHTMLParse (cause : error)             (* extractHTMLValues *)
| ErrHTMLContent (cause : error)           (* processJSONItem, parse_body *)
| ErrHTMLValues (cause : error)            (* processJSONItem, extractHTMLValues *)
| ErrValueExtract (cause : error)          (* processJSONItem, extractValue *)
| ErrFileRead (path : string) (cause : error)   (* processJSONFile *)
| ErrJSONParse (path : string) (cause : error)  (* processJSONFile *)
| ErrJSONItem (cause : error)              (* processJSONFile *)
| ErrFile (path : string) (cause : error). (* worker *)

Inductive result (A : Type) : Type :=
| Ok (a : A)
| Err (e : error).

Arguments Ok {A} a.
Arguments Err {A} e.

Definition bind {A B : Type} (r : result A) (f : A -> result B) : result B :=
  match r with
  | Ok a => f a
  | Err e => Err e
  end.

Definition wrap {A : Type} (ctx : error -> error) (r : result A) : result A :=
  match r with
  | Ok a => Ok a
  | Err e => Err (ctx e)
  end.

Definition is_ok {A : Type} (r : result A) : bool :=
  match r with Ok _ => true | Err _ => false end.

(** ** The configuration ([config.yaml]) *)

Record Column : Type := mkColumn {
  Key : string;
  ColumnName : string;          (* Go field [Column], yaml [column] *)
  Regex : string;
  Keywords : list string;
  ExactMatch : bool;
  ExtractToEnd : bool;
  Format : string;
  CleanHTML : bool;
  Tag : string
}.

Record Profile : Type := mkProfile {
  Columns : list Column;
  OutputFile : string;
  ParseBody : string;
  ContentType : string
}.

Record Config : Type := mkConfig {
  Profiles : gmap string Profile;
  NewlineHandling : string;
  NewlineReplacement : string;
  NullValueHandling : string
}.

(** ** Decoded JSON

    What [encoding/json] reads from a text: an object keeps its members in
    document order, and the Go map made of it holds, for each key, the last
    member with that key.  A number keeps its literal; it is a [float64] in
    Go and only ever printed. *)

Inductive JSON : Type :=
| JNull
| JBool (b : bool)
| JNumber (literal : string)
| JString (s : string)
| JArray (items : list JSON)
| JObject (members : list (string * JSON)).

(** [v[key]] on the Go map of an object. *)
Fixpoint map_lookup (key : string) (members : list (string * JSON))
  : option JSON :=
  match members with
  | [] => None
  | (k, v) :: rest =>
      match map_lookup key rest with
      | Some later => Some later
      | None => if String.eqb k key then Some v else None
      end
  end.

(** ** Parsed HTML ([golang.org/x/net/html]) *)

Inductive NodeType : Type :=
| ErrorNode | TextNode | DocumentNode | ElementNode
| CommentNode | DoctypeNode | RawNode.

Record Attribute : Type := mkAttribute {
  Namespace : string;
  AttrKey : string;
  Val : string
}.

(** A node with its children in sibling order ([FirstChild], [NextSibling]). *)
Inductive Node : Type :=
| mkNode (type : NodeType) (data : string) (attr : list Attribute)
         (children : list Node).

Definition Node_Type (n : Node) : NodeType := let 'mkNode t _ _ _ := n in t.
Definition Node_Data (n : Node) : string := let 'mkNode _ d _ _ := n in d.
Definition Node_Children (n : Node) : list Node := let 'mkNode _ _ _ c := n in c.

Definition NodeType_eqb (a b : NodeType) : bool :=
  match a, b with
  | ErrorNode, ErrorNode | TextNode, TextNode | DocumentNode, DocumentNode
  | ElementNode, ElementNode | CommentNode, CommentNode
  | DoctypeNode, DoctypeNode | RawNode, RawNode => true
  | _, _ => false
  end.

(** ** What the log receives *)

Inductive LogEntry : Type :=
| LogWarningNested (e : error)                    (* "Warning: ..." in processJSONItem *)
| LogDebugColumn (column value : string)          (* "Debug: Column %s, Value: %s" *)
| LogDebugHTMLValues (results : gmap string string). (* "Debug: Extracted HTML Values" *)

(** ** Library calls

    The behaviour of Go's libraries that the source relies on and that is not
    written in the repository. *)

Class GoLib : Type := {
  (** [regexp]: compiled expressions, [Compile], and two methods *)
  Regexp : Type;
  regexp_Compile : string -> result Regexp;
  Regexp_MatchString : Regexp -> string -> bool;
  Regexp_FindStringSubmatch : Regexp -> string -> list string;
  (** [strings.ToLower] (Unicode case mapping) *)
  strings_ToLower : string -> string;
  (** [fmt.Sscanf(key, "[%d]", &index)]: the index scanned, or the error *)
  fmt_Sscanf_index : string -> result Z;
  (** [fmt.Sprintf("%v", f)] for the [float64] a number literal decodes to *)
  fmt_float64 : string -> string;
  (** [html.Parse] (and [goquery.NewDocumentFromReader], which calls it) *)
  html_Parse : string -> result Node;
  html_UnescapeString : string -> string;
  (** [doc.Find(selector)]: the matching nodes, in document order *)
  goquery_Find : Node -> string -> list Node;
  (** the order in which one [range] over a map visits its entries; the
      first argument tells the loops apart *)
  range_order : nat -> list (string * string) -> list (string * string);
  range_order_perm : forall i l, Permutation (range_order i l) l;
  (** [unicode/utf8], [x/text] UTF-16 decoding, and the JSON reader *)
  utf8_Valid : string -> bool;
  utf16_Decode : string -> result string;
  json_Parse : string -> result JSON
}.

(** ** The regular expressions written in the source

    Each [regexp.MustCompile] of a constant pattern, with the replacement the
    source asks for, as a scan over the bytes.  [\s] is [[\t\n\f\r ]] and
    [\d] is [[0-9]] in Go's syntax; [.] is any character but a line feed.
    Matches are leftmost and do not overlap. *)

Module GoRegexp.
Import GoStrings.

Definition is_s (c : ascii) : bool :=
  let n := nat_of_ascii c in
  (n =? 9)%nat || (n =? 10)%nat || (n =? 12)%nat || (n =? 13)%nat || (n =? 32)%nat.

Definition is_d (c : ascii) : bool :=
  let n := nat_of_ascii c in (48 <=? n)%nat && (n <=? 57)%nat.

(** The length of the longest prefix of [s] whose bytes satisfy [p]. *)
Fixpoint span (p : ascii -> bool) (s : string) : nat :=
  match s with
  | EmptyString => O
  | String c s' => if p c then S (span p s') else O
  end.

(** [\s+] replaced by one space. *)
Fixpoint collapse_go (in_run : bool) (s : string) : string :=
  match s with
  | EmptyString => EmptyString
  | String c s' =>
      if is_s c
      then if in_run then collapse_go true s'
           else String " " (collapse_go true s')
      else String c (collapse_go false s')
  end.

Definition replace_spaces (s : string) : string := collapse_go false s.

(** [\s{2,}] replaced by one space: a lone white space byte stays as it is. *)
Fixpoint collapse2_go (in_run : bool) (s : string) : string :=
  match s with
  | EmptyString => EmptyString
  | String c s' =>
      if is_s c
      then if in_run then collapse2_go true s'
           else match s' with
                | String d _ =>
                    if is_s d then String " " (collapse2_go true s')
                    else String c (collapse2_go false s')
                | EmptyString => String c EmptyString
                end
      else String c (collapse2_go false s')
  end.

Definition replace_spaces2 (s : string) : string := collapse2_go false s.

(** [:\S] with [ReplaceAllStringFunc(.., s[:1] + " " + s[1:])]: a space goes
    in after a colon that a non-space character follows; that character
    belongs to the match, so a colon it may be is not looked at again. *)
Fixpoint space_after_colon (s : string) : string :=
  match s with
  | EmptyString => EmptyString
  | String c s1 =>
      if Ascii.eqb c ":"
      then match s1 with
           | String d s2 =>
               if is_s d then String c (space_after_colon s1)
               else String c (String " " (String d (space_after_colon s2)))
           | EmptyString => String c EmptyString
           end
      else String c (space_after_colon s1)
  end.

(** The length of a match of [<at id="\d+">[^<]+</at>] at the start of [s]. *)
Definition match_at (s : string) : option nat :=
  let open := "<at id=" +:+ DQUOTE in
  if HasPrefix s open then
    let s1 := drop (String.length open) s in
    let nd := span is_d s1 in
    let s2 := drop nd s1 in
    if (0 <? nd)%nat && HasPrefix s2 (DQUOTE +:+ ">") then
      let s3 := drop 2 s2 in
      let nt := span (fun c => negb (Ascii.eqb c "<")) s3 in
      if (0 <? nt)%nat && HasPrefix (drop nt s3) "</at>"
      then Some (String.length open + nd + 2 + nt + 5)%nat
      else None
    else None
  else None.

(** The length of a match of [@\{contentType=html; content=.*?\}] at the
    start of [s]: up to the first closing brace, if no line feed comes first. *)
Fixpoint lazy_to_brace (s : string) : option nat :=
  match s with
  | EmptyString => None
  | String c s' =>
      if Ascii.eqb c "}" then Some 1%nat
      else if (nat_of_ascii c =? 10)%nat then None
      else S <$> lazy_to_brace s'
  end.

Definition contentTypePrefix : string := "@{contentType=html; content=".

Definition match_contentType (s : string) : option nat :=
  if HasPrefix s contentTypePrefix
  then Nat.add (String.length contentTypePrefix)
         <$> lazy_to_brace (drop (String.length contentTypePrefix) s)
  else None.

(** [ReplaceAllString(s, "")] for a pattern given by its matches. *)
Fixpoint remove_go (m : string -> option nat) (skip : nat) (s : string) : string :=
  match s with
  | EmptyString => EmptyString
  | String c s' =>
      match skip with
      | S k => remove_go m k s'
      | O =>
          match m s with
          | Some (S n) => remove_go m n s'
          | _ => String c (remove_go m O s')
          end
      end
  end.

Definition remove_at_mentions (s : string) : string := remove_go match_at O s.
Definition remove_contentType (s : string) : string := remove_go match_contentType O s.

(** [regexp.QuoteMeta]: a backslash before each of [\.+*?()|[]{}^$]. *)
Definition special (c : ascii) : bool :=
  existsb (Ascii.eqb c)
    (list_ascii_of_string "\.+*?()|[]{}^$").

Fixpoint QuoteMeta (s : string) : string :=
  match s with
  | EmptyString => EmptyString
  | String c s' =>
      if special c then String "\" (String c (QuoteMeta s'))
      else String c (QuoteMeta s')
  end.

End GoRegexp.

(** ** The program

    The package-level variables [config] and [profileName] are set once by
    [init] and read by the functions below; the file system is the state
    [processJSONFile] reads. *)

Section Program.
Import GoStrings GoRegexp.

Context {L : GoLib}.
Variable config : Config.
Variable profileName : string.

(** *** [fmt.Sprintf("%v", data)] for a decoded JSON value

    [nil] prints as [<nil>]; a slice as [[a b]]; a map as [map[k:v ...]] with
    its keys sorted. *)

Fixpoint upsert (k v : string) (l : list (string * string))
  : list (string * string) :=
  match l with
  | [] => [(k, v)]
  | (k', v') :: rest =>
      match String.compare k k' with
      | Lt => (k, v) :: l
      | Eq => (k, v) :: rest
      | Gt => (k', v') :: upsert k v rest
      end
  end.

Fixpoint Sprint_v (data : JSON) : string :=
  match data with
  | JNull => "<nil>"
  | JBool b => if b then "true" else "false"
  | JNumber literal => fmt_float64 literal
  | JString s => s
  | JArray items =>
      "[" +:+ Join ((fix each (l : list JSON) : list string :=
                       match l with
                       | [] => []
                       | x :: r => Sprint_v x :: each r
                       end) items) " " +:+ "]"
  | JObject members =>
      let printed :=
        (fix each (l : list (string * JSON)) : list (string * string) :=
           match l with
           | [] => []
           | (k, x) :: r => (k, Sprint_v x) :: each r
           end) members in
      let entries := fold_left (fun acc kv => upsert (fst kv) (snd kv) acc) printed [] in
      "map[" +:+ Join (map (fun kv => fst kv +:+ ":" +:+ snd kv) entries) " " +:+ "]"
  end.

(** *** [getNestedValue] (lines 1581-1606) *)

Fixpoint getNestedValue (data : JSON) (keys : list string) : result string :=
  match keys with
  | [] => Ok (Sprint_v data)
  | key :: rest =>
      match data with
      | JObject v =>
          match map_lookup key v with
          | Some data' => getNestedValue data' rest
          | None => Err (ErrKeyNotFound key)
          end
      | JArray v =>
          match fmt_Sscanf_index key with
          | Err err => Err (ErrIndexParse err)
          | Ok index =>
              if (0 <=? index)%Z && (index <? Z.of_nat (length v))%Z
              then getNestedValue (nth (Z.to_nat index) v JNull) rest
              else Err (ErrIndexRange index)
          end
      | _ => Ok (Sprint_v data)
      end
  end.

(** *** [handleNewlines], [handleNullValue], [isEmptyOrAllNull] *)

Definition handleNewlines (input : string) : string :=
  if NewlineHandling config =? "keep" then input
  else if NewlineHandling config =? "remove" then ReplaceAll input CRLF ""
  else if NewlineHandling config =? "replace"
       then ReplaceAll input CRLF (NewlineReplacement config)
  else input.

Definition handleNullValue (value : string) : string :=
  if (value =? "") || (value =? "<nil>") then
    if NullValueHandling config =? "null" then "null"
    else if NullValueHandling config =? "nil" then "nil"
    else if NullValueHandling config =? "empty" then ""
    else ""
  else value.

Fixpoint isEmptyOrAllNull (row : list string) : bool :=
  match row with
  | [] => true
  | value :: rest =>
      if negb (value =? "") && negb (value =? handleNullValue "")
      then false
      else isEmptyOrAllNull rest
  end.

(** *** [cleanContent] (lines 1426-1448) and [cleanHTMLContent] (1264-1306) *)

Definition cleanContent (input : string) : string :=
  if input =? "" then ""
  else
    let input := TrimPrefix input contentTypePrefix in
    let input := TrimSuffix input "}" in
    let input := TrimSpace input in
    let input := replace_spaces2 input in
    let input := html_UnescapeString input in
    remove_contentType input.

(** The closure [f] of [cleanHTMLContent]: what it writes to [buf]. *)
Fixpoint cleanHTMLContent_f (n : Node) : string :=
  match n with
  | mkNode type data _ children =>
      (if NodeType_eqb type TextNode then data
       else if NodeType_eqb type ElementNode && (data =? "br") then "<br>"
       else "")
      +:+ (fix each (l : list Node) : string :=
             match l with
             | [] => ""
             | c :: r => cleanHTMLContent_f c +:+ each r
             end) children
  end.

Definition isChatProfile : bool :=
  (profileName =? "teams") || (profileName =? "replies").

Definition cleanHTMLContent (content : string) : string :=
  let content := if isChatProfile then remove_at_mentions content else content in
  match html_Parse content with
  | Err _ => content
  | Ok doc =>
      let buf := cleanHTMLContent_f doc in
      let result := replace_spaces buf in
      let result := space_after_colon result in
      let result := ReplaceAll result "??" ": " in
      let result := if isChatProfile then cleanContent result else result in
      TrimSpace result
  end.

Definition getHeaders (profile : Profile) : list string :=
  map ColumnName (Columns profile).

(** [cleanValue] (lines 1575-1579): defined in this draft and called by none
    of its functions. *)
Definition cleanValue (value : string) : string :=
  let value := ReplaceAll value NBSP " " in
  let value := replace_spaces value in
  TrimSpace value.

(** *** [matchColumn] and [containsExact] (lines 1544-1573) *)

Fixpoint containsExact (slice : list string) (item : string) : bool :=
  match slice with
  | [] => false
  | s :: rest => if s =? item then true else containsExact rest item
  end.

(** [regexp.MatchString(pattern, s)], as the library writes it over
    [Compile]: no match is reported with the error of a pattern that does
    not compile. *)
Definition regexp_MatchString (pattern s : string) : bool * option error :=
  match regexp_Compile pattern with
  | Err err => (false, Some err)
  | Ok re => (Regexp_MatchString re s, None)
  end.

Fixpoint matchKeywords (key : string) (keywords : list string) : bool :=
  match keywords with
  | [] => false
  | keyword :: rest =>
      if Contains (strings_ToLower key) (strings_ToLower keyword) then true
      else matchKeywords key rest
  end.

Definition matchColumn (key : string) (column : Column) : bool :=
  if ExactMatch column then
    (key =? Regex column) || containsExact (Keywords column) key
  else
    if negb (Regex column =? "")
       && fst (regexp_MatchString ("^" +:+ Regex column +:+ "$") key)
    then true
    else matchKeywords key (Keywords column).

(** *** [extractValue] (lines 1449-1485) *)

Fixpoint extractValue_lines (re : Regexp) (key : string) (extractToEnd : bool)
    (lines : list string) : string :=
  match lines with
  | [] => ""
  | line :: rest =>
      let matches := Regexp_FindStringSubmatch re line in
      if (1 <? length matches)%nat then
        if extractToEnd then
          match Index line key with
          | Some keywordIndex =>
              let restOfLine := drop (keywordIndex + String.length key) line in
              TrimSpace (Join (restOfLine :: rest) CRLF)
          | None => extractValue_lines re key extractToEnd rest
          end
        else
          let value := TrimSpace (nth 1 matches "") in
          let value := match Index value "<br" with
                       | Some brIndex => take brIndex value
                       | None => value
                       end in
          TrimSpace value
      else extractValue_lines re key extractToEnd rest
  end.

Definition extractValue (content key : string) (extractToEnd : bool)
  : result string :=
  let lines := Split content CRLF in
  let pattern := QuoteMeta key +:+ "(.+)" in
  match regexp_Compile pattern with
  | Err err => Err (ErrRegexCompile err)
  | Ok re => Ok (extractValue_lines re key extractToEnd lines)
  end.

(** *** [extractHTMLValues] and [extractTagContent] (lines 1486-1542)

    goquery's [Text] and [NodeName], over the parsed nodes. *)

Fixpoint getNodeText (node : Node) : string :=
  match node with
  | mkNode type data _ children =>
      if NodeType_eqb type TextNode then data
      else (fix each (l : list Node) : string :=
              match l with
              | [] => ""
              | c :: r => getNodeText c +:+ each r
              end) children
  end.

Definition NodeName (node : Node) : string :=
  match Node_Type node with
  | ElementNode | DoctypeNode => Node_Data node
  | ErrorNode => "#error"
  | TextNode => "#text"
  | DocumentNode => "#document"
  | CommentNode => "#comment"
  | RawNode => ""
  end.

(** The inner [Each] over the contents of one [<p>]: [currentKey],
    [currentValue] and the pairs stored so far. *)
Fixpoint scanContents (nodes : list Node) (currentKey currentValue : string)
    (keyValuePairs : gmap string string)
  : string * string * gmap string string :=
  match nodes with
  | [] => (currentKey, currentValue, keyValuePairs)
  | node :: rest =>
      if NodeName node =? "strong" then
        let '(currentValue, keyValuePairs) :=
          if negb (currentKey =? "")
          then ("", <[currentKey := TrimSpace currentValue]> keyValuePairs)
          else (currentValue, keyValuePairs) in
        scanContents rest (TrimSuffix (TrimSpace (getNodeText node)) ":")
                     currentValue keyValuePairs
      else
        scanContents rest currentKey (currentValue +:+ getNodeText node)
                     keyValuePairs
  end.

Definition scanParagraph (keyValuePairs : gmap string string) (s : Node)
  : gmap string string :=
  let '(currentKey, currentValue, keyValuePairs) :=
    scanContents (Node_Children s) "" "" keyValuePairs in
  if negb (currentKey =? "")
  then <[currentKey := TrimSpace currentValue]> keyValuePairs
  else keyValuePairs.

Definition harvest (doc : Node) : gmap string string :=
  fold_left scanParagraph (goquery_Find doc "p") ∅.

Definition extractTagContent (doc : Node) (tagName : string) : string :=
  TrimSpace (fold_left (fun content s => content +:+ getNodeText s +:+ " ")
                       (goquery_Find doc tagName) "").

(** The loop over the columns; [i] numbers the [range] over the pairs. *)
Fixpoint assignColumns (doc : Node) (keyValuePairs : gmap string string)
    (i : nat) (columns : list Column) (results : gmap string string)
  : gmap string string :=
  match columns with
  | [] => results
  | column :: rest =>
      let results :=
        if negb (Tag column =? "")
        then <[ColumnName column := extractTagContent doc (Tag column)]> results
        else match find (fun kv => matchColumn (fst kv) column)
                        (range_order i (map_to_list keyValuePairs)) with
             | Some kv => <[ColumnName column := snd kv]> results
             | None => results
             end in
      assignColumns doc keyValuePairs (S i) rest results
  end.

Definition extractHTMLValues (content : string) (columns : list Column)
  : result (gmap string string) * list LogEntry :=
  match html_Parse content with
  | Err err => (Err (ErrHTMLParse err), [])
  | Ok doc =>
      let results := assignColumns doc (harvest doc) O columns ∅ in
      (Ok results, [LogDebugHTMLValues results])
  end.

(** *** [processJSONItem] (lines 1357-1416)

    In three parts: the body ([parse_body], lines 1362-1375), the loop over
    the columns (1377-1404) and the blank-row check (1411-1415). *)

Definition resolveBody (item : list (string * JSON)) (profile : Profile)
  : result (string * gmap string string) * list LogEntry :=
  if negb (ParseBody profile =? "") then
    match getNestedValue (JObject item) (Split (ParseBody profile) ".") with
    | Err err => (Err (ErrHTMLContent err), [])
    | Ok content =>
        if ContentType profile =? "html" then
          match extractHTMLValues content (Columns profile) with
          | (Err err, lg) => (Err (ErrHTMLValues err), lg)
          | (Ok htmlValues, lg) => (Ok (content, htmlValues), lg)
          end
        else (Ok (content, ∅), [])
    end
  else (Ok ("", ∅), []).

(** The [if / else if / else if] that picks a column's value. *)
Definition columnSource (item : list (string * JSON)) (profile : Profile)
    (parseContent : string) (htmlValues : gmap string string) (column : Column)
  : result string * list LogEntry :=
  if (ContentType profile =? "html")
     && (negb (Regex column =? "") || (0 <? length (Keywords column))%nat)
  then (Ok (default "" (htmlValues !! ColumnName column)), [])
  else if negb (Regex column =? "") && negb (ParseBody profile =? "")
  then (wrap ErrValueExtract
          (extractValue parseContent (Regex column) (ExtractToEnd column)), [])
  else if negb (Key column =? "")
  then match getNestedValue (JObject item) (Split (Key column) ".") with
       | Ok value => (Ok value, [])
       | Err err => (Ok "", [LogWarningNested err])
       end
  else (Ok "", []).

(** What the loop stores in [row[i]] for the value picked. *)
Definition finishValue (column : Column) (value : string) : string :=
  let value := if CleanHTML column then cleanHTMLContent value else value in
  handleNullValue (handleNewlines value).

Fixpoint buildRow (item : list (string * JSON)) (profile : Profile)
    (parseContent : string) (htmlValues : gmap string string)
    (columns : list Column) : result (list string) * list LogEntry :=
  match columns with
  | [] => (Ok [], [])
  | column :: rest =>
      match columnSource item profile parseContent htmlValues column with
      | (Err err, lg) => (Err err, lg)
      | (Ok value, lg) =>
          let '(r, lg') := buildRow item profile parseContent htmlValues rest in
          (match r with
           | Ok row => Ok (finishValue column value :: row)
           | Err err => Err err
           end, lg ++ lg')
      end
  end.

Definition debugColumns (profile : Profile) (row : list string) : list LogEntry :=
  map (fun cv => LogDebugColumn (ColumnName (fst cv)) (snd cv))
      (combine (Columns profile) row).

(** [None] is the [nil] row the source returns for a blank row. *)
Definition processJSONItem (item : list (string * JSON)) (profile : Profile)
  : result (option (list string)) * list LogEntry :=
  match resolveBody item profile with
  | (Err err, lg) => (Err err, lg)
  | (Ok (parseContent, htmlValues), lg) =>
      match buildRow item profile parseContent htmlValues (Columns profile) with
      | (Err err, lg') => (Err err, lg ++ lg')
      | (Ok row, lg') =>
          (Ok (if isEmptyOrAllNull row then None else Some row),
           lg ++ lg' ++ debugColumns profile row)
      end
  end.

(** *** [decodeFileContent] and [processJSONFile] (lines 1330-1355, 1608-1636) *)

Definition decodeFileContent (fs : gmap string string) (filePath : string)
  : result string :=
  match fs !! filePath with
  | None => Err (ErrLibrary "os" "open")
  | Some content =>
      if utf8_Valid content then Ok content else utf16_Decode content
  end.

(** [json.Unmarshal] into [struct { Value []map[string]interface{} `json:"value"` }].
    encoding/json matches an object key to a field "preferring an exact match
    but also accepting a case-insensitive match"; [null] leaves a nil slice
    or map; a value of another kind is a type error.  Members that match are
    decoded in document order.  Where several members match, the library
    decodes a later array into the slice already there; here the later member
    replaces the field, which is the same for every document with at most one
    such member, and those are the documents the properties below are about. *)

Definition upper_byte (c : ascii) : ascii :=
  let n := nat_of_ascii c in
  if (97 <=? n)%nat && (n <=? 122)%nat then ascii_of_nat (n - 32) else c.

Fixpoint foldName (s : string) : string :=
  match s with
  | EmptyString => EmptyString
  | String c s' => String (upper_byte c) (foldName s')
  end.

Definition fieldMatches (key field : string) : bool :=
  (key =? field) || (foldName key =? foldName field).

Definition jsonTypeError : error := ErrLibrary "json" "cannot unmarshal".

Fixpoint decodeItems (items : list JSON) : result (list (list (string * JSON))) :=
  match items with
  | [] => Ok []
  | x :: rest =>
      match x with
      | JObject m => bind (decodeItems rest) (fun l => Ok (m :: l))
      | JNull => bind (decodeItems rest) (fun l => Ok ([] :: l))
      | _ => Err jsonTypeError
      end
  end.

Definition decodeValueField (v : JSON) : result (list (list (string * JSON))) :=
  match v with
  | JNull => Ok []
  | JArray items => decodeItems items
  | _ => Err jsonTypeError
  end.

Fixpoint decodeMembers (members : list (string * JSON))
    (Value : list (list (string * JSON)))
  : result (list (list (string * JSON))) :=
  match members with
  | [] => Ok Value
  | (k, v) :: rest =>
      if fieldMatches k "value"
      then bind (decodeValueField v) (decodeMembers rest)
      else decodeMembers rest Value
  end.

Definition json_Unmarshal (data : string) : result (list (list (string * JSON))) :=
  bind (json_Parse data) (fun doc =>
    match doc with
    | JNull => Ok []
    | JObject members => decodeMembers members []
    | _ => Err jsonTypeError
    end).

Fixpoint processItems (items : list (list (string * JSON))) (profile : Profile)
  : result (list (list string)) * list LogEntry :=
  match items with
  | [] => (Ok [], [])
  | item :: rest =>
      match processJSONItem item profile with
      | (Err err, lg) => (Err (ErrJSONItem err), lg)
      | (Ok row, lg) =>
          let '(r, lg') := processItems rest profile in
          (match r with
           | Ok rows =>
               Ok (match row with
                   | Some (cell :: cells) => (cell :: cells) :: rows
                   | _ => rows
                   end)
           | Err err => Err err
           end, lg ++ lg')
      end
  end.

Definition processJSONFile (fs : gmap string string) (filePath : string)
    (profile : Profile) : result (list (list string)) * list LogEntry :=
  match decodeFileContent fs filePath with
  | Err err => (Err (ErrFileRead filePath err), [])
  | Ok data =>
      match json_Unmarshal data with
      | Err err => (Err (ErrJSONParse filePath err), [])
      | Ok Value => processItems Value profile
      end
  end.

(** *** [worker] (lines 1316-1328)

    One worker over the jobs it receives: what it sends on [results] and on
    [errorChan], in order, and what it logs. *)

Fixpoint worker (fs : gmap string string) (jobs : list string) (profile : Profile)
  : list (list string) * list error * list LogEntry :=
  match jobs with
  | [] => ([], [], [])
  | filePath :: rest =>
      let '(results, errors, lg') := worker fs rest profile in
      match processJSONFile fs filePath profile with
      | (Err err, lg) => (results, ErrFile filePath err :: errors, lg ++ lg')
      | (Ok rows, lg) => (rows ++ results, errors, lg ++ lg')
      end
  end.

End Program.

(** ** A reference library

    An implementation of [GoLib] to run the program on concrete inputs.  It
    follows Go on the part of each library described below and answers
    [outside] (or leaves a string as it is) elsewhere:
    - [regexp]: literals, escaped punctuation, [.], [^], [$], [|], groups,
      and the greedy [*], [+], [?]; leftmost-first matching by backtracking;
    - [strings.ToLower] and [html.UnescapeString]: ASCII text without [&];
    - [fmt.Sscanf] with ["[%d]"]: ASCII input; [%v] of a number: an integer
      of at most six digits, printed as it is written;
    - [html.Parse]: text and a few elements, without entities; the text of
      a document without markup is one text node under [html/body], after
      the leading white space, which the parser drops;
    - [Find]: a tag name as the selector;
    - the JSON reader: [null], [true], [false], integers, strings without
      escapes, arrays and objects. *)

Module RefLib.
Import GoStrings GoRegexp.

Definition outside (pkg : string) : error := ErrLibrary pkg "outside the reference fragment".

(** *** regexp *)

Inductive re : Type :=
| REmpty
| RLit (rune : string)
| RAny
| RBegin
| REnd
| RCat (a b : re)
| RAlt (a b : re)
| RStar (a : re)
| RGroup (i : nat) (a : re).

Record frame : Type := mkFrame {
  f_alts : list re;       (* finished alternatives, last first *)
  f_cat : list re;        (* the current concatenation, last first *)
  f_group : nat
}.

Record pstate : Type := mkPstate {
  p_stack : list frame;   (* innermost group first *)
  p_top : frame;
  p_groups : nat;
  p_esc : bool;           (* a backslash was read *)
  p_rep : bool;           (* a repetition operator was read *)
  p_open : bool           (* an opening parenthesis was read *)
}.

Definition concat_of (atoms : list re) : re :=
  fold_left (fun acc a => match acc with REmpty => a | _ => RCat a acc end) atoms REmpty.

Definition alt_of (f : frame) : re :=
  fold_left (fun acc a => RAlt a acc) (f_alts f) (concat_of (f_cat f)).

Definition push_atom (st : pstate) (a : re) : pstate :=
  let f := p_top st in
  mkPstate (p_stack st) (mkFrame (f_alts f) (a :: f_cat f) (f_group f))
           (p_groups st) false false false.

Definition is_cont (c : ascii) : bool :=
  let n := nat_of_ascii c in (128 <=? n)%nat && (n <? 192)%nat.

Definition is_alnum (c : ascii) : bool :=
  let n := nat_of_ascii c in
  ((48 <=? n)%nat && (n <=? 57)%nat) || ((65 <=? n)%nat && (n <=? 90)%nat)
  || ((97 <=? n)%nat && (n <=? 122)%nat).

Definition syntaxError (msg : string) : error := ErrLibrary "regexp" msg.

Definition step (st : pstate) (c : ascii) : result pstate :=
  let f := p_top st in
  if p_esc st then
    if (nat_of_ascii c <? 128)%nat && negb (is_alnum c)
    then Ok (push_atom st (RLit (String c "")))
    else Err (outside "regexp")
  else if Ascii.eqb c "\" then
    Ok (mkPstate (p_stack st) f (p_groups st) true false false)
  else if Ascii.eqb c "(" then
    Ok (mkPstate (f :: p_stack st) (mkFrame [] [] (S (p_groups st)))
                 (S (p_groups st)) false false true)
  else if Ascii.eqb c ")" then
    match p_stack st with
    | [] => Err (syntaxError "unexpected )")
    | parent :: rest =>
        Ok (mkPstate rest
              (mkFrame (f_alts parent) (RGroup (f_group f) (alt_of f) :: f_cat parent)
                       (f_group parent))
              (p_groups st) false false false)
    end
  else if Ascii.eqb c "|" then
    Ok (mkPstate (p_stack st) (mkFrame (concat_of (f_cat f) :: f_alts f) [] (f_group f))
                 (p_groups st) false false false)
  else if Ascii.eqb c "*" || Ascii.eqb c "+" || Ascii.eqb c "?" then
    if p_open st && Ascii.eqb c "?" then Err (outside "regexp")
    else if p_rep st then
      if Ascii.eqb c "?" then Err (outside "regexp")
      else Err (syntaxError "invalid nested repetition operator")
    else match f_cat f with
         | [] => Err (syntaxError "missing argument to repetition operator")
         | a :: atoms =>
             let a' := if Ascii.eqb c "*" then RStar a
                       else if Ascii.eqb c "+" then RCat a (RStar a)
                       else RAlt a REmpty in
             Ok (mkPstate (p_stack st) (mkFrame (f_alts f) (a' :: atoms) (f_group f))
                          (p_groups st) false true false)
         end
  else if Ascii.eqb c "." then Ok (push_atom st RAny)
  else if Ascii.eqb c "^" then Ok (push_atom st RBegin)
  else if Ascii.eqb c "$" then Ok (push_atom st REnd)
  else if Ascii.eqb c "[" || Ascii.eqb c "{" then Err (outside "regexp")
  else if is_cont c then
    match f_cat f with
    | RLit r :: atoms =>
        if p_rep st then Err (outside "regexp")
        else Ok (mkPstate (p_stack st)
                   (mkFrame (f_alts f) (RLit (r +:+ String c "") :: atoms) (f_group f))
                   (p_groups st) false false false)
    | _ => Err (outside "regexp")
    end
  else Ok (push_atom st (RLit (String c ""))).

Fixpoint steps (st : pstate) (pattern : string) : result pstate :=
  match pattern with
  | EmptyString => Ok st
  | String c rest => bind (step st c) (fun st' => steps st' rest)
  end.

Definition Compile (pattern : string) : result (re * nat) :=
  bind (steps (mkPstate [] (mkFrame [] [] O) O false false false) pattern)
       (fun st =>
          if p_esc st then Err (syntaxError "trailing backslash at end of expression")
          else match p_stack st with
               | [] => Ok (alt_of (p_top st), p_groups st)
               | _ :: _ => Err (syntaxError "missing closing )")
               end).

Definition caps : Type := list (nat * (nat * nat)).

(** Backtracking, first alternative first and longest repetition first:
    [pos] is the offset of [s] in the text, [k] continues after a match. *)
Fixpoint exec (r : re) (pos : nat) (s : string) (c : caps)
    (k : nat -> string -> caps -> option caps) {struct r} : option caps :=
  match r with
  | REmpty => k pos s c
  | RLit lit =>
      if HasPrefix s lit
      then k (pos + String.length lit)%nat (drop (String.length lit) s) c
      else None
  | RAny =>
      match s with
      | String a s' =>
          if (nat_of_ascii a =? 10)%nat then None
          else let n := if (192 <=? nat_of_ascii a)%nat
                        then Nat.min 3 (span is_cont s') else O in
               k (S pos + n)%nat (drop n s') c
      | EmptyString => None
      end
  | RBegin => if (pos =? 0)%nat then k pos s c else None
  | REnd => match s with EmptyString => k pos s c | _ => None end
  | RCat a b => exec a pos s c (fun p s' c' => exec b p s' c' k)
  | RAlt a b =>
      match exec a pos s c k with
      | Some x => Some x
      | None => exec b pos s c k
      end
  | RStar a =>
      (fix loop (n : nat) (pos : nat) (s : string) (c : caps) : option caps :=
         match match n with
               | O => None
               | S n' =>
                   exec a pos s c
                     (fun p s' c' => if (pos <? p)%nat then loop n' p s' c' else None)
               end with
         | Some x => Some x
         | None => k pos s c
         end) (S (String.length s)) pos s c
  | RGroup i a => exec a pos s c (fun p s' c' => k p s' ((i, (pos, p)) :: c'))
  end.

(** The leftmost match: every offset where a character starts is tried. *)
Fixpoint search (r : re) (pos : nat) (s : string) : option caps :=
  match (if (0 <? span is_cont (take 1 s))%nat then None
         else exec r pos s [] (fun p _ c => Some ((O, (pos, p)) :: c))) with
  | Some c => Some c
  | None =>
      match s with
      | EmptyString => None
      | String _ s' => search r (S pos) s'
      end
  end.

Definition MatchString (re : re * nat) (s : string) : bool :=
  match search (fst re) O s with Some _ => true | None => false end.

Definition group_text (s : string) (c : caps) (i : nat) : string :=
  match find (fun e => (fst e =? i)%nat) c with
  | Some (_, (from, to)) => take (to - from) (drop from s)
  | None => ""
  end.

Definition FindStringSubmatch (re : re * nat) (s : string) : list string :=
  match search (fst re) O s with
  | Some c => map (group_text s c) (seq O (S (snd re)))
  | None => []
  end.

(** *** strings, fmt *)

Definition lower_byte (c : ascii) : ascii :=
  let n := nat_of_ascii c in
  if (65 <=? n)%nat && (n <=? 90)%nat then ascii_of_nat (n + 32) else c.

Fixpoint ToLower (s : string) : string :=
  match s with
  | EmptyString => EmptyString
  | String c s' => String (lower_byte c) (ToLower s')
  end.

Definition scanError (msg : string) : error := ErrLibrary "fmt" msg.

(** [SkipSpace] of a [Sscanf]: a line feed is not passed over. *)
Fixpoint skip_space (s : string) : result string :=
  match s with
  | EmptyString => Ok EmptyString
  | String c s' =>
      let n := nat_of_ascii c in
      if (n =? 10)%nat then Err (scanError "unexpected newline")
      else if (n =? 9)%nat || (n =? 11)%nat || (n =? 12)%nat || (n =? 13)%nat
              || (n =? 32)%nat
      then skip_space s'
      else Ok s
  end.

Definition digits_value (s : string) : Z :=
  fold_left (fun acc c => 10 * acc + Z.of_nat (nat_of_ascii c - 48))
            (list_ascii_of_string s) 0%Z.

(** The format ["[%d]"]: the bracket, blanks, a sign, decimal digits that fit
    an [int], the closing bracket; what follows it is not read. *)
Definition Sscanf_index (key : string) : result Z :=
  match key with
  | EmptyString => Err (scanError "unexpected EOF")
  | String c s =>
      if negb (Ascii.eqb c "[") then Err (scanError "input does not match format")
      else
        bind (skip_space s) (fun s1 =>
          match s1 with
          | EmptyString => Err (scanError "unexpected EOF")
          | String sign s2 =>
              let digits := if Ascii.eqb sign "-" || Ascii.eqb sign "+" then s2 else s1 in
              let nd := span is_d digits in
              let n := digits_value (take nd digits) in
              let v := if Ascii.eqb sign "-" then (- n)%Z else n in
              if (nd =? 0)%nat then Err (scanError "expected integer")
              else if negb ((- 2 ^ 63 <=? v)%Z && (v <? 2 ^ 63)%Z)
              then Err (ErrLibrary "strconv" "value out of range")
              else match drop nd digits with
                   | EmptyString => Err (scanError "unexpected EOF")
                   | String close _ =>
                       if Ascii.eqb close "]" then Ok v
                       else Err (scanError "input does not match format")
                   end
          end)
  end.

(** *** html, goquery *)

Definition html_space (c : ascii) : bool :=
  let n := nat_of_ascii c in
  (n =? 32)%nat || (n =? 9)%nat || (n =? 10)%nat || (n =? 12)%nat || (n =? 13)%nat.

Definition plain_byte (c : ascii) : bool :=
  let n := nat_of_ascii c in
  negb ((n =? 60)%nat || (n =? 38)%nat || (n =? 13)%nat || (n =? 0)%nat).

Definition in_lower_alnum (c : ascii) : bool :=
  let n := nat_of_ascii c in
  ((48 <=? n)%nat && (n <=? 57)%nat) || ((97 <=? n)%nat && (n <=? 122)%nat).

Fixpoint all_bytes (p : ascii -> bool) (s : string) : bool :=
  match s with
  | EmptyString => true
  | String c s' => p c && all_bytes p s'
  end.

Definition element (tag : string) (children : list Node) : Node :=
  mkNode ElementNode tag [] children.

(** The tree of a document whose body holds [children]. *)
Definition document (children : list Node) : Node :=
  mkNode DocumentNode "" []
         [element "html" [element "head" []; element "body" children]].

Definition text (data : string) : Node := mkNode TextNode data [] [].

(** The fragment: text, [<br>], the blocks [p], [div], [h1]..[h6] at the
    top, and the inline elements [strong], [b], [em], [i], [span] with
    nothing nested in them but text and [<br>]; tags without attributes,
    every element closed by its end tag.  The tree builder inserts these
    where they stand. *)
Record hstate : Type := mkH {
  h_open : list (string * list Node);  (* open elements, innermost first,
                                          with their children, last first *)
  h_body : list Node;                  (* the children of body, last first *)
  h_text : string;                     (* the text read, reversed *)
  h_tag : option (bool * string)       (* in a tag: an end tag?, its name reversed *)
}.

Definition is_block (tag : string) : bool :=
  existsb (String.eqb tag) ["p"; "div"; "h1"; "h2"; "h3"; "h4"; "h5"; "h6"].

Definition is_inline (tag : string) : bool :=
  existsb (String.eqb tag) ["strong"; "b"; "em"; "i"; "span"].

Definition add_child (st : hstate) (n : Node) : hstate :=
  match h_open st with
  | (t, kids) :: rest => mkH ((t, n :: kids) :: rest) (h_body st) (h_text st) (h_tag st)
  | [] => mkH [] (n :: h_body st) (h_text st) (h_tag st)
  end.

Definition flush (st : hstate) : hstate :=
  if h_text st =? "" then st
  else add_child (mkH (h_open st) (h_body st) "" (h_tag st)) (text (rev (h_text st))).

Definition close_tag (st : hstate) (closing : bool) (tag : string) : result hstate :=
  let st := mkH (h_open st) (h_body st) (h_text st) None in
  if closing then
    match h_open st with
    | (t, kids) :: rest =>
        if t =? tag
        then Ok (add_child (mkH rest (h_body st) "" None) (element t (List.rev kids)))
        else Err (outside "html")
    | [] => Err (outside "html")
    end
  else if tag =? "br" then Ok (add_child st (element "br" []))
  else
    let fits :=
      match h_open st with
      | [] => is_block tag || is_inline tag
      | [(b, _)] => is_block b && is_inline tag
      | _ => false
      end in
    if fits then Ok (mkH ((tag, []) :: h_open st) (h_body st) "" None)
    else Err (outside "html").

Definition hstep (st : hstate) (c : ascii) : result hstate :=
  match h_tag st with
  | Some (closing, name) =>
      if Ascii.eqb c ">" then close_tag st closing (rev name)
      else if Ascii.eqb c "/" && (name =? "") && negb closing
      then Ok (mkH (h_open st) (h_body st) (h_text st) (Some (true, "")))
      else if in_lower_alnum c
      then Ok (mkH (h_open st) (h_body st) (h_text st) (Some (closing, String c name)))
      else Err (outside "html")
  | None =>
      if Ascii.eqb c "<"
      then let st := flush st in
           Ok (mkH (h_open st) (h_body st) "" (Some (false, "")))
      else if plain_byte c
      then Ok (mkH (h_open st) (h_body st) (String c (h_text st)) None)
      else Err (outside "html")
  end.

Fixpoint hsteps (st : hstate) (s : string) : result hstate :=
  match s with
  | EmptyString => Ok st
  | String c rest => bind (hstep st c) (fun st' => hsteps st' rest)
  end.

Definition Parse (content : string) : result Node :=
  bind (hsteps (mkH [] [] "" None) (drop (span html_space content) content))
       (fun st =>
          match h_tag st, h_open st with
          | None, [] => Ok (document (List.rev (h_body (flush st))))
          | _, _ => Err (outside "html")
          end).

Fixpoint descendants (n : Node) : list Node :=
  match n with
  | mkNode _ _ _ children =>
      (fix each (l : list Node) : list Node :=
         match l with
         | [] => []
         | c :: r => c :: descendants c ++ each r
         end) children
  end.

Definition Find (doc : Node) (selector : string) : list Node :=
  if negb (selector =? "") && all_bytes is_alnum selector
  then filter (fun n => NodeType_eqb (Node_Type n) ElementNode
                        && (Node_Data n =? selector)) (descendants doc)
  else [].

(** *** unicode/utf8 *)

Definition in_range (lo hi : nat) (c : ascii) : bool :=
  let n := nat_of_ascii c in (lo <=? n)%nat && (n <=? hi)%nat.

Fixpoint Valid (s : string) : bool :=
  match s with
  | EmptyString => true
  | String a s1 =>
      if in_range 0 127 a then Valid s1
      else match s1 with
           | EmptyString => false
           | String b s2 =>
               if in_range 194 223 a then in_range 128 191 b && Valid s2
               else match s2 with
                    | EmptyString => false
                    | String c s3 =>
                        if in_range 224 239 a then
                          in_range (if in_range 224 224 a then 160 else 128)
                                   (if in_range 237 237 a then 159 else 191) b
                          && in_range 128 191 c && Valid s3
                        else match s3 with
                             | EmptyString => false
                             | String d s4 =>
                                 in_range 240 244 a
                                 && in_range (if in_range 240 240 a then 144 else 128)
                                             (if in_range 244 244 a then 143 else 191) b
                                 && in_range 128 191 c && in_range 128 191 d
                                 && Valid s4
                             end
                    end
           end
  end.

(** *** encoding/json *)

Definition json_space (c : ascii) : bool :=
  let n := nat_of_ascii c in
  (n =? 32)%nat || (n =? 9)%nat || (n =? 10)%nat || (n =? 13)%nat.

Definition skip_ws (s : string) : string := drop (span json_space s) s.

Definition string_byte (c : ascii) : bool :=
  let n := nat_of_ascii c in
  negb ((n =? 34)%nat || (n =? 92)%nat || (n <? 32)%nat).

Definition jsonSyntax : error := ErrLibrary "json" "invalid character".

(** A string literal after its opening quote. *)
Definition parse_string (s : string) : result (string * string) :=
  let n := span string_byte s in
  match drop n s with
  | String c rest =>
      if (nat_of_ascii c =? 34)%nat then Ok (take n s, rest)
      else if (nat_of_ascii c =? 92)%nat then Err (outside "json")
      else Err jsonSyntax
  | EmptyString => Err jsonSyntax
  end.

Fixpoint parse_value (fuel : nat) (s : string) {struct fuel}
  : result (JSON * string) :=
  match fuel with
  | O => Err (outside "json")
  | S n =>
      let s := skip_ws s in
      if HasPrefix s "null" then Ok (JNull, drop 4 s)
      else if HasPrefix s "true" then Ok (JBool true, drop 4 s)
      else if HasPrefix s "false" then Ok (JBool false, drop 5 s)
      else match s with
           | EmptyString => Err jsonSyntax
           | String c r =>
               if (nat_of_ascii c =? 34)%nat then
                 bind (parse_string r) (fun p => Ok (JString (fst p), snd p))
               else if Ascii.eqb c "[" then
                 match skip_ws r with
                 | String c' rest =>
                     if Ascii.eqb c' "]" then Ok (JArray [], rest)
                     else bind (parse_elems n r) (fun p => Ok (JArray (fst p), snd p))
                 | EmptyString => Err jsonSyntax
                 end
               else if Ascii.eqb c "{" then
                 match skip_ws r with
                 | String c' rest =>
                     if Ascii.eqb c' "}" then Ok (JObject [], rest)
                     else bind (parse_members n r) (fun p => Ok (JObject (fst p), snd p))
                 | EmptyString => Err jsonSyntax
                 end
               else
                 let digits := if Ascii.eqb c "-" then r else s in
                 let nd := span is_d digits in
                 if (nd =? 0)%nat then Err jsonSyntax
                 else if (1 <? nd)%nat && HasPrefix digits "0" then Err jsonSyntax
                 else match drop nd digits with
                      | String e _ =>
                          if Ascii.eqb e "." || Ascii.eqb e "e" || Ascii.eqb e "E"
                          then Err (outside "json")
                          else Ok (JNumber (take (String.length s - String.length (drop nd digits)) s),
                                   drop nd digits)
                      | EmptyString => Ok (JNumber s, EmptyString)
                      end
           end
  end
with parse_elems (fuel : nat) (s : string) {struct fuel}
  : result (list JSON * string) :=
  match fuel with
  | O => Err (outside "json")
  | S n =>
      bind (parse_value n s) (fun p =>
        match skip_ws (snd p) with
        | String c rest =>
            if Ascii.eqb c "]" then Ok ([fst p], rest)
            else if Ascii.eqb c ","
            then bind (parse_elems n rest) (fun q => Ok (fst p :: fst q, snd q))
            else Err jsonSyntax
        | EmptyString => Err jsonSyntax
        end)
  end
with parse_members (fuel : nat) (s : string) {struct fuel}
  : result (list (string * JSON) * string) :=
  match fuel with
  | O => Err (outside "json")
  | S n =>
      match skip_ws s with
      | String q r =>
          if negb (nat_of_ascii q =? 34)%nat then Err jsonSyntax
          else
            bind (parse_string r) (fun k =>
              match skip_ws (snd k) with
              | String c r' =>
                  if negb (Ascii.eqb c ":") then Err jsonSyntax
                  else
                    bind (parse_value n r') (fun p =>
                      match skip_ws (snd p) with
                      | String c' rest =>
                          if Ascii.eqb c' "}" then Ok ([(fst k, fst p)], rest)
                          else if Ascii.eqb c' ","
                          then bind (parse_members n rest)
                                    (fun m => Ok ((fst k, fst p) :: fst m, snd m))
                          else Err jsonSyntax
                      | EmptyString => Err jsonSyntax
                      end)
              | EmptyString => Err jsonSyntax
              end)
      | EmptyString => Err jsonSyntax
      end
  end.

Definition json_parse (data : string) : result JSON :=
  bind (parse_value (2 * String.length data + 2) data) (fun p =>
    match skip_ws (snd p) with
    | EmptyString => Ok (fst p)
    | String _ _ => Err jsonSyntax
    end).

Definition lib : GoLib := {|
  Regexp := (re * nat)%type;
  regexp_Compile := Compile;
  Regexp_MatchString := MatchString;
  Regexp_FindStringSubmatch := FindStringSubmatch;
  strings_ToLower := ToLower;
  fmt_Sscanf_index := Sscanf_index;
  fmt_float64 := fun literal => literal;
  html_Parse := Parse;
  html_UnescapeString := fun s => s;
  goquery_Find := Find;
  range_order := fun _ l => l;
  range_order_perm := fun _ l => Permutation_refl l;
  utf8_Valid := Valid;
  utf16_Decode := fun _ => Err (outside "utf16");
  json_Parse := json_parse
|}.

End RefLib.

(** ** The specification's words

    What the specification says about the resolver (4.B), the matcher (4.D),
    the normalization (4.C) and the null policy (4.E), stated next to the
    program and compared with it below. *)

Section Specification.
Import GoStrings GoRegexp.

Context {L : GoLib}.

Definition is_scalar (data : JSON) : Prop :=
  match data with
  | JObject _ | JArray _ => False
  | _ => True
  end.

(** 4.B, segment by segment.  The index of an array step is what
    [fmt.Sscanf] reads from the segment under the format ["[%d]"]. *)
Inductive resolves : JSON -> list string -> result string -> Prop :=
| resolves_end data :
    resolves data [] (Ok (Sprint_v data))
| resolves_key members key rest data r :
    map_lookup key members = Some data ->
    resolves data rest r ->
    resolves (JObject members) (key :: rest) r
| resolves_key_not_found members key rest :
    map_lookup key members = None ->
    resolves (JObject members) (key :: rest) (Err (ErrKeyNotFound key))
| resolves_index items key rest n data r :
    fmt_Sscanf_index key = Ok n ->
    (0 <= n < Z.of_nat (length items))%Z ->
    items !! Z.to_nat n = Some data ->
    resolves data rest r ->
    resolves (JArray items) (key :: rest) r
| resolves_index_parse items key rest err :
    fmt_Sscanf_index key = Err err ->
    resolves (JArray items) (key :: rest) (Err (ErrIndexParse err))
| resolves_index_range items key rest n :
    fmt_Sscanf_index key = Ok n ->
    ~ (0 <= n < Z.of_nat (length items))%Z ->
    resolves (JArray items) (key :: rest) (Err (ErrIndexRange n))
| resolves_scalar data key rest :
    is_scalar data ->
    resolves data (key :: rest) (Ok (Sprint_v data)).

(** A segment of the form [[n]]: a bracket, decimal digits, a bracket. *)
Definition bracketed_index (segment : string) : bool :=
  match segment with
  | String open rest =>
      let nd := span is_d rest in
      Ascii.eqb open "[" && (0 <? nd)%nat && (drop nd rest =? "]")
  | EmptyString => false
  end.

(** 4.D: the label against the pattern between [^] and [$]. *)
Definition anchoredMatch (key : string) (column : Column) : bool :=
  fst (regexp_MatchString ("^" +:+ Regex column +:+ "$") key).

Definition keywordMatch (key : string) (column : Column) : Prop :=
  exists keyword,
    keyword ∈ Keywords column /\
    Contains (strings_ToLower key) (strings_ToLower keyword) = true.

(** 4.C: the nodes of a document in document order, and what the
    normalization keeps of each: the text, and [<br>] for a line break. *)
Fixpoint preorder (n : Node) : list Node :=
  match n with
  | mkNode _ _ _ children =>
      n :: (fix each (l : list Node) : list Node :=
              match l with
              | [] => []
              | c :: r => preorder c ++ each r
              end) children
  end.

Definition kept (n : Node) : string :=
  match Node_Type n with
  | TextNode => Node_Data n
  | ElementNode => if Node_Data n =? "br" then "<br>" else ""
  | _ => ""
  end.

Definition strip_tags (doc : Node) : string :=
  fold_right String.append "" (map kept (preorder doc)).

(** White space is normal in [s] when each white space byte of [\s] is a
    space with no white space byte after it. *)
Fixpoint ws_normal (s : string) : bool :=
  match s with
  | EmptyString => true
  | String c s' =>
      (if is_s c
       then Ascii.eqb c " "
            && match s' with
               | String d _ => negb (is_s d)
               | EmptyString => true
               end
       else true)
      && ws_normal s'
  end.

(** Every colon is the last byte or has a white space byte after it. *)
Fixpoint colon_spaced (s : string) : bool :=
  match s with
  | EmptyString => true
  | String c s' =>
      (if Ascii.eqb c ":"
       then match s' with
            | String d _ => is_s d
            | EmptyString => true
            end
       else true)
      && colon_spaced s'
  end.



(** White space, as [strings.TrimSpace] has it, at the start and at the
    end of [s]. *)
Definition starts_with_space (s : string) : bool :=
  match s with
  | String a s1 =>
      isSpace1 a
      || match s1 with
         | String b s2 =>
             isSpace2 a b
             || match s2 with
                | String c _ => isSpace3 a b c
                | EmptyString => false
                end
         | EmptyString => false
         end
  | EmptyString => false
  end.

Definition rev_starts_with_space (r : string) : bool :=
  match r with
  | String c r1 =>
      isSpace1 c
      || match r1 with
         | String b r2 =>
             isSpace2 b c
             || match r2 with
                | String a _ => isSpace3 a b c
                | EmptyString => false
                end
         | EmptyString => false
         end
  | EmptyString => false
  end.

Definition ends_with_space (s : string) : bool := rev_starts_with_space (rev s).

(** 4.E, step 2: the column takes the JSON path when neither the HTML map
    nor the line-oriented extraction comes before it and it has a key. *)
Definition from_html_map (profile : Profile) (column : Column) : bool :=
  (ContentType profile =? "html")
  && (negb (Regex column =? "") || (0 <? length (Keywords column))%nat).

Definition from_regex_line (profile : Profile) (column : Column) : bool :=
  negb (Regex column =? "") && negb (ParseBody profile =? "").

Definition from_json_path (profile : Profile) (column : Column) : bool :=
  negb (from_html_map profile column)
  && negb (from_regex_line profile column)
  && negb (Key column =? "").

(** 4.E: a field that does not count for a row. *)
Definition blank (config : Config) (value : string) : Prop :=
  value = "" \/ value = handleNullValue config "".

End Specification.

(** ** Examples: the end-to-end scenarios of the specification *)

Module Examples.
Import GoStrings.

Definition quoted (s : string) : string := DQUOTE +:+ s +:+ DQUOTE.

Definition config_empty : Config := mkConfig ∅ "keep" "" "empty".
Definition config_null : Config := mkConfig ∅ "replace" " | " "null".

Definition json_column (name key : string) : Column :=
  mkColumn key name "" [] false false "" false "".

Definition label_column (name regex : string) (keywords : list string)
    (exact : bool) : Column :=
  mkColumn "" name regex keywords exact false "" false "".

Definition tag_column (name tag : string) : Column :=
  mkColumn "" name "" [] false false "" false tag.

(** Scenario 1 and 5: JSON paths. *)
Definition profile_json : Profile :=
  mkProfile [json_column "ID" "id"; json_column "Author" "author.name"] "out.csv" "" "".

(** Scenario 2: labels in HTML. *)
Definition profile_html : Profile :=
  mkProfile [label_column "Name" "Name" [] true; label_column "Role" "Role" [] true]
            "out.csv" "body" "html".

Definition record_html : list (string * JSON) :=
  [("body", JString "<p><strong>Name:</strong> Alice</p><p><strong>Role:</strong> Eng</p>")].

(** A column that names a tag only. *)
Definition profile_tag : Profile :=
  mkProfile [tag_column "Title" "h1"] "out.csv" "body" "html".

Definition record_tag : list (string * JSON) := [("body", JString "<h1>Hi</h1>")].

(** A file whose only member is spelled [Value]. *)
Definition file_Value : string :=
  "{" +:+ quoted "Value" +:+ ":[{" +:+ quoted "id" +:+ ":" +:+ quoted "X1" +:+ "}]}".

Definition file_other : string :=
  "{" +:+ quoted "count" +:+ ":0}".

End Examples.

(** ** A run of the program: [main], the workers, [showProgress] and
    [monitorErrors] (lines 1189-1262, 1316-1328, 1668-1696)

    [main] writes the header, starts [workerCount] workers, [showProgress]
    and [monitorErrors], sends the files on [jobs], closes it, starts the
    goroutine that waits for the workers and closes [results] and
    [errorChan], writes the rows it receives from [results], closes
    [progressChan], sleeps and returns, which ends the process.

    A run is a sequence of steps of these goroutines; a step is one channel
    operation of one of them with the statements that lead to it.  The four
    channels are made with the capacity [totalFiles], the number of files: a
    send needs room in the buffer and a receive an element in it, and with no
    file nothing is ever sent.  A channel is closed from the moment the
    statement that closes it has been executed, which the position of the
    goroutine that executes it tells.

    The state has what the csv writer is given, record by record, the
    [processed] count of each progress line and the errors that
    [monitorErrors] logs.  The run starts where the output file has been
    created; the writes to it succeed.  What a worker logs while it reads a
    file, the times in the progress line and the last message of [main] are
    not followed. *)

(** Where a worker is (lines 1316-1328). *)
Inductive WorkerState : Type :=
| Receiving                                (* [for filePath := range jobs] *)
| SendingError (err : error)               (* [errorChan <- fmt.Errorf(...)] *)
| SendingRows (rows : list (list string))  (* [for _, row := range rows { results <- row }] *)
| Returned.                                (* the loop is over: [wg.Done()] *)

(** Where [main] is (lines 1231-1261). *)
Inductive MainState : Type :=
| SendingJobs (files : list string)  (* [for _, file := range jsonFiles { jobs <- file }] *)
| Collecting                         (* [for row := range results] *)
| Selecting                          (* the [select] after [writer.Write(row)] *)
| Sleeping                           (* [time.Sleep], after [close(progressChan)] *)
| Exited.                            (* [main] has returned *)

(** Where the goroutine of lines 1238-1242 is. *)
Inductive CloserState : Type :=
| NotStarted
| Waiting                            (* [wg.Wait()] *)
| ClosedResults                      (* after [close(results)] *)
| Finished.                          (* after [close(errorChan)] *)

Record Run : Type := mkRun {
  at_main : MainState;
  workers : list WorkerState;
  closer : CloserState;
  showing : bool;                    (* [showProgress] is in its loop *)
  monitoring : bool;                 (* [monitorErrors] is in its loop *)
  jobs : list string;                (* the buffers of the channels, oldest first *)
  results : list (list string);
  progressChan : nat;                (* every element is a 1 *)
  errorChan : list error;
  processed : nat;                   (* the variable of [showProgress] *)
  written : list (list string);      (* the records given to the csv writer *)
  shown : list nat;                  (* [processed] in each progress line *)
  logged : list error                (* the errors logged by [monitorErrors] *)
}.

Definition jobs_closed (m : MainState) : bool :=
  match m with SendingJobs _ => false | _ => true end.

Definition progress_closed (m : MainState) : bool :=
  match m with Sleeping | Exited => true | _ => false end.

Definition results_closed (c : CloserState) : bool :=
  match c with ClosedResults | Finished => true | _ => false end.

Definition errors_closed (c : CloserState) : bool :=
  match c with Finished => true | _ => false end.

Definition alive (m : MainState) : Prop := m <> Exited.

Section Goroutines.

Context {L : GoLib}.
Variable config : Config.
Variable profileName : string.
Variable fs : gmap string string.
Variable profile : Profile.
Variable jsonFiles : list string.
Variable workerCount : Z.

Definition totalFiles : nat := length jsonFiles.

(** One turn of the loop of a worker on the file it received, up to its
    first send (lines 1319-1324). *)
Definition outcome (filePath : string) : WorkerState :=
  match fst (processJSONFile config profileName fs filePath profile) with
  | Ok rows => SendingRows rows
  | Err err => SendingError (ErrFile filePath err)
  end.

(** [processed++; if processed > totalFiles { processed = totalFiles }] *)
Definition next_processed (processed : nat) : nat :=
  if (totalFiles <? processed + 1)%nat then totalFiles else (processed + 1)%nat.

Inductive step : Run -> Run -> Prop :=
(* main, lines 1232-1234: [jobs <- file] *)
| main_sends_job file files ws c sh mo j r p e pr w shn lg :
    (length j < totalFiles)%nat ->
    step (mkRun (SendingJobs (file :: files)) ws c sh mo j r p e pr w shn lg)
         (mkRun (SendingJobs files) ws c sh mo (j ++ [file]) r p e pr w shn lg)
(* main, lines 1235-1242: [close(jobs)] and the [go] statement *)
| main_closes_jobs ws sh mo j r p e pr w shn lg :
    step (mkRun (SendingJobs []) ws NotStarted sh mo j r p e pr w shn lg)
         (mkRun Collecting ws Waiting sh mo j r p e pr w shn lg)
(* main, lines 1245-1248: a row is received and written *)
| main_writes_row row ws c sh mo j r p e pr w shn lg :
    step (mkRun Collecting ws c sh mo j (row :: r) p e pr w shn lg)
         (mkRun Selecting ws c sh mo j r p e pr (w ++ [row]) shn lg)
(* main, lines 1249-1250: [case progressChan <- 1] *)
| main_reports ws c sh mo j r p e pr w shn lg :
    (p < totalFiles)%nat ->
    step (mkRun Selecting ws c sh mo j r p e pr w shn lg)
         (mkRun Collecting ws c sh mo j r (S p) e pr w shn lg)
(* main, lines 1251-1253: [default], the channel is full *)
| main_skips_report ws c sh mo j r p e pr w shn lg :
    (totalFiles <= p)%nat ->
    step (mkRun Selecting ws c sh mo j r p e pr w shn lg)
         (mkRun Collecting ws c sh mo j r p e pr w shn lg)
(* main, lines 1245 and 1256: [results] is closed and empty; [close(progressChan)] *)
| main_closes_progress ws c sh mo j p e pr w shn lg :
    results_closed c = true ->
    step (mkRun Collecting ws c sh mo j [] p e pr w shn lg)
         (mkRun Sleeping ws c sh mo j [] p e pr w shn lg)
(* main, lines 1259-1262: the sleep is over and [main] returns *)
| main_returns ws c sh mo j r p e pr w shn lg :
    step (mkRun Sleeping ws c sh mo j r p e pr w shn lg)
         (mkRun Exited ws c sh mo j r p e pr w shn lg)
(* worker, lines 1318-1323: a file is received and read *)
| worker_takes_job before after file m c sh mo j r p e pr w shn lg :
    alive m ->
    step (mkRun m (before ++ Receiving :: after) c sh mo (file :: j) r p e pr w shn lg)
         (mkRun m (before ++ outcome file :: after) c sh mo j r p e pr w shn lg)
(* worker, line 1321: [errorChan <- ...; continue] *)
| worker_sends_error before after err m c sh mo j r p e pr w shn lg :
    alive m ->
    (length e < totalFiles)%nat ->
    step (mkRun m (before ++ SendingError err :: after) c sh mo j r p e pr w shn lg)
         (mkRun m (before ++ Receiving :: after) c sh mo j r p (e ++ [err]) pr w shn lg)
(* worker, lines 1324-1326: [results <- row] *)
| worker_sends_row before after row rows m c sh mo j r p e pr w shn lg :
    alive m ->
    (length r < totalFiles)%nat ->
    step (mkRun m (before ++ SendingRows (row :: rows) :: after) c sh mo j r p e pr w shn lg)
         (mkRun m (before ++ SendingRows rows :: after) c sh mo j (r ++ [row]) p e pr w shn lg)
(* worker, line 1324: the rows of the file are all sent *)
| worker_is_through before after m c sh mo j r p e pr w shn lg :
    alive m ->
    step (mkRun m (before ++ SendingRows [] :: after) c sh mo j r p e pr w shn lg)
         (mkRun m (before ++ Receiving :: after) c sh mo j r p e pr w shn lg)
(* worker, lines 1317-1318: [jobs] is closed and empty; [wg.Done()] *)
| worker_returns before after m c sh mo r p e pr w shn lg :
    alive m ->
    jobs_closed m = true ->
    step (mkRun m (before ++ Receiving :: after) c sh mo [] r p e pr w shn lg)
         (mkRun m (before ++ Returned :: after) c sh mo [] r p e pr w shn lg)
(* lines 1239-1240: every worker has returned; [close(results)] *)
| closer_closes_results m ws sh mo j r p e pr w shn lg :
    alive m ->
    Forall (eq Returned) ws ->
    step (mkRun m ws Waiting sh mo j r p e pr w shn lg)
         (mkRun m ws ClosedResults sh mo j r p e pr w shn lg)
(* line 1241: [close(errorChan)] *)
| closer_closes_errors m ws sh mo j r p e pr w shn lg :
    alive m ->
    step (mkRun m ws ClosedResults sh mo j r p e pr w shn lg)
         (mkRun m ws Finished sh mo j r p e pr w shn lg)
(* monitorErrors, lines 1693-1694: an error is received and logged *)
| monitor_logs err m ws c sh j r p e pr w shn lg :
    alive m ->
    step (mkRun m ws c sh true j r p (err :: e) pr w shn lg)
         (mkRun m ws c sh true j r p e pr w shn (lg ++ [err]))
(* monitorErrors, line 1693: [errorChan] is closed and empty *)
| monitor_returns m ws c sh j r p pr w shn lg :
    alive m ->
    errors_closed c = true ->
    step (mkRun m ws c sh true j r p [] pr w shn lg)
         (mkRun m ws c sh false j r p [] pr w shn lg)
(* showProgress, lines 1671-1687: an element is received, a line printed *)
| progress_prints m ws c mo j r p e pr w shn lg :
    alive m ->
    step (mkRun m ws c true mo j r (S p) e pr w shn lg)
         (mkRun m ws c true mo j r p e (next_processed pr) w
                (shn ++ [next_processed pr]) lg)
(* showProgress, lines 1671 and 1689: [progressChan] is closed and empty *)
| progress_returns m ws c mo j r e pr w shn lg :
    alive m ->
    progress_closed m = true ->
    step (mkRun m ws c true mo j r 0%nat e pr w shn lg)
         (mkRun m ws c false mo j r 0%nat e pr w shn lg).

(** The state in which [main] has written the header (line 1208) and
    started the goroutines (lines 1220-1229). *)
Definition start : Run :=
  mkRun (SendingJobs jsonFiles) (replicate (Z.to_nat workerCount) Receiving)
        NotStarted true true [] [] 0%nat [] 0%nat [getHeaders profile] [] [].

(** What a worker has still to send. *)
Definition pending_rows (w : WorkerState) : list (list string) :=
  match w with SendingRows rows => rows | _ => [] end.

Definition pending_errors (w : WorkerState) : list error :=
  match w with SendingError err => [err] | _ => [] end.

(** The files that [main] has not sent yet. *)
Definition unsent (m : MainState) : list string :=
  match m with SendingJobs files => files | _ => [] end.

Definition rows_of (filePath : string) : list (list string) :=
  pending_rows (outcome filePath).

Definition errors_of (filePath : string) : list error :=
  pending_errors (outcome filePath).

(** What holds of every state of a run: the files are those taken by the
    workers, those in the channel and those to be sent, in this order; the
    header is written first; the rows and the errors of the files taken are
    written or logged, in a channel, or with the worker that sends them; the
    channels are closed in the order of the source; and the progress count
    stays within the number of files. *)
Definition consistent (s : Run) : Prop :=
  exists taken rows,
    jsonFiles = taken ++ jobs s ++ unsent (at_main s)
    /\ written s = getHeaders profile :: rows
    /\ rows ++ results s ++ concat (map pending_rows (workers s))
       ≡ₚ flat_map rows_of taken
    /\ logged s ++ errorChan s ++ concat (map pending_errors (workers s))
       ≡ₚ flat_map errors_of taken
    /\ (closer s = NotStarted <-> jobs_closed (at_main s) = false)
    /\ (results_closed (closer s) = true -> Forall (eq Returned) (workers s))
    /\ (Returned ∈ workers s -> jobs s = [] /\ jobs_closed (at_main s) = true)
    /\ (progress_closed (at_main s) = true ->
        results s = [] /\ results_closed (closer s) = true)
    /\ ((0 < totalFiles)%nat
        \/ Forall (fun w => w = Receiving \/ w = Returned) (workers s))
    /\ (processed s <= totalFiles)%nat
    /\ Forall (fun n => (n <= totalFiles)%nat) (shown s)
    /\ length (workers s) = Z.to_nat workerCount
    /\ (workers s = [] -> taken = []).

(** With one worker, the rows keep the order of the files. *)
Definition in_order (s : Run) : Prop :=
  exists taken rows w,
    workers s = [w]
    /\ jsonFiles = taken ++ jobs s ++ unsent (at_main s)
    /\ written s = getHeaders profile :: rows
    /\ rows ++ results s ++ pending_rows w = flat_map rows_of taken.

(** The number of steps that a state can still be followed by, at most. *)
Definition worker_steps (w : WorkerState) : nat :=
  match w with
  | Receiving => 1
  | SendingError _ => 3
  | SendingRows rows => 2 + 4 * length rows
  | Returned => 0
  end.

Definition main_steps (m : MainState) : nat :=
  match m with
  | SendingJobs files =>
      3 + list_sum (map (fun file => S (worker_steps (outcome file))) files)
  | Collecting => 2
  | Selecting => 4
  | Sleeping => 1
  | Exited => 0
  end.

Definition closer_steps (c : CloserState) : nat :=
  match c with
  | NotStarted | Waiting => 2
  | ClosedResults => 1
  | Finished => 0
  end.

Definition steps_left (s : Run) : nat :=
  main_steps (at_main s)
  + list_sum (map worker_steps (workers s))
  + closer_steps (closer s)
  + (if showing s then 1 else 0)
  + (if monitoring s then 1 else 0)
  + list_sum (map (fun file => worker_steps (outcome file)) (jobs s))
  + 3 * length (results s)
  + progressChan s
  + length (errorChan s).

End Goroutines.

(** A run of one worker on one file, from the start to the return of
    [main]: the file gives one row. *)
Module RunExample.

Definition files : gmap string string := {["in.json" := Examples.file_Value]}.

Definition finished : Run :=
  mkRun Exited [Returned] ClosedResults true true [] [] 1%nat [] 0%nat
        [["ID"; "Author"]; ["X1"; ""]] [] [].

End RunExample.

(** ** The earlier drafts

    [src/main.go] holds two earlier drafts of the program before the one
    embedded above: lines 1-637 and lines 640-1094.  Here are their functions
    that are written differently; [getNestedValue], [handleNewlines],
    [decodeFileContent], [getHeaders] and [worker] are the same in the three
    drafts and [cleanValue] and [processJSONFile] in the last two. *)

Module Draft1.
Section Draft1.
Import GoStrings GoRegexp.

Context {L : GoLib}.
Variable config : Config.

(** [handleNullValue] (lines 351-365, and again 583-597): the empty string
    only. *)
Definition handleNullValue (value : string) : string :=
  if value =? "" then
    if NullValueHandling config =? "null" then "null"
    else if NullValueHandling config =? "nil" then "nil"
    else if NullValueHandling config =? "empty" then ""
    else ""
  else value.

(** [isEmptyOrAllNull] (lines 367-375, and again 599-607) *)
Definition isEmptyOrAllNull (row : list string) : bool :=
  let nullValue := handleNullValue "" in
  (fix loop (row : list string) : bool :=
     match row with
     | [] => true
     | value :: rest =>
         if negb (value =? "") && negb (value =? nullValue) then false
         else loop rest
     end) row.

(** [extractValue] (lines 439-469): without [extract_to_end] the value of
    a line is given up when a colon stands in the line after it. *)
Fixpoint extractValue_lines (re : Regexp) (key : string) (extractToEnd : bool)
    (lines : list string) : string :=
  match lines with
  | [] => ""
  | line :: rest =>
      let matches := Regexp_FindStringSubmatch re line in
      if (1 <? length matches)%nat then
        if extractToEnd then
          match Index line key with
          | Some keywordIndex =>
              let restOfLine := drop (keywordIndex + String.length key) line in
              TrimSpace (Join (restOfLine :: rest) CRLF)
          | None => extractValue_lines re key extractToEnd rest
          end
        else
          let value := TrimSpace (nth 1 matches "") in
          match rest with
          | next :: _ => if Contains next ":" then "" else value
          | [] => value
          end
      else extractValue_lines re key extractToEnd rest
  end.

Definition extractValue (content key : string) (extractToEnd : bool)
  : result string :=
  let lines := Split content CRLF in
  let pattern := QuoteMeta key +:+ "(.+)" in
  match regexp_Compile pattern with
  | Err err => Err (ErrRegexCompile err)
  | Ok re => Ok (extractValue_lines re key extractToEnd lines)
  end.

End Draft1.
End Draft1.

Module Draft2.
Section Draft2.
Import GoStrings GoRegexp.

Context {L : GoLib}.
Variable config : Config.

(** [handleNullValue] (lines 1050-1064), as in the first draft. *)
Definition handleNullValue (value : string) : string :=
  if value =? "" then
    if NullValueHandling config =? "null" then "null"
    else if NullValueHandling config =? "nil" then "nil"
    else if NullValueHandling config =? "empty" then ""
    else ""
  else value.

(** [cleanHTMLContent] (lines 804-828): the tags go, white space is
    collapsed and trimmed. *)
Definition cleanHTMLContent (content : string) : string :=
  match html_Parse content with
  | Err _ => content
  | Ok doc =>
      let buf := cleanHTMLContent_f doc in
      let result := replace_spaces buf in
      TrimSpace result
  end.

(** [extractHTMLValues] (lines 928-972): the value of a label goes to the
    first column whose regex is a substring of the label. *)
Definition store (columns : list Column) (currentKey value : string)
    (results : gmap string string) : gmap string string :=
  match find (fun column => negb (Regex column =? "")
                            && Contains currentKey (Regex column)) columns with
  | Some column => <[ColumnName column := value]> results
  | None => results
  end.

Fixpoint scanContents (columns : list Column) (nodes : list Node)
    (currentKey currentValue : string) (results : gmap string string)
  : string * string * gmap string string :=
  match nodes with
  | [] => (currentKey, currentValue, results)
  | node :: rest =>
      if NodeName node =? "strong" then
        let '(currentValue, results) :=
          if negb (currentKey =? "")
          then ("", store columns currentKey (TrimSpace currentValue) results)
          else (currentValue, results) in
        scanContents columns rest (TrimSuffix (TrimSpace (getNodeText node)) ":")
                     currentValue results
      else
        scanContents columns rest currentKey (currentValue +:+ getNodeText node)
                     results
  end.

Definition scanParagraph (columns : list Column) (results : gmap string string)
    (s : Node) : gmap string string :=
  let '(currentKey, currentValue, results) :=
    scanContents columns (Node_Children s) "" "" results in
  if negb (currentKey =? "")
  then store columns currentKey (TrimSpace currentValue) results
  else results.

Definition extractHTMLValues (content : string) (columns : list Column)
  : result (gmap string string) * list LogEntry :=
  match html_Parse content with
  | Err err => (Err (ErrHTMLParse err), [])
  | Ok doc =>
      let results := fold_left (scanParagraph columns) (goquery_Find doc "p") ∅ in
      (Ok results, [LogDebugHTMLValues results])
  end.

(** [processJSONItem] (lines 879-926): the row is returned as it is, blank
    or not. *)
Definition columnSource (item : list (string * JSON))
    (htmlValues : gmap string string) (column : Column)
  : string * list LogEntry :=
  if negb (Regex column =? "")
  then (default "" (htmlValues !! ColumnName column), [])
  else if negb (Key column =? "")
  then match getNestedValue (JObject item) (Split (Key column) ".") with
       | Ok value => (value, [])
       | Err err => ("", [LogWarningNested err])
       end
  else ("", []).

Definition finishValue (column : Column) (value : string) : string :=
  let value := if CleanHTML column then cleanHTMLContent value else value in
  handleNullValue (handleNewlines config value).

Fixpoint buildRow (item : list (string * JSON)) (htmlValues : gmap string string)
    (columns : list Column) : list string * list LogEntry :=
  match columns with
  | [] => ([], [])
  | column :: rest =>
      let '(value, lg) := columnSource item htmlValues column in
      let '(row, lg') := buildRow item htmlValues rest in
      (finishValue column value :: row, lg ++ lg')
  end.

Definition processJSONItem (item : list (string * JSON)) (profile : Profile)
  : result (list string) * list LogEntry :=
  let body :=
    if negb (ParseBody profile =? "")
    then wrap ErrHTMLContent
           (getNestedValue (JObject item) (Split (ParseBody profile) "."))
    else Ok "" in
  match body with
  | Err err => (Err err, [])
  | Ok htmlContent =>
      match extractHTMLValues htmlContent (Columns profile) with
      | (Err err, lg) => (Err (ErrHTMLValues err), lg)
      | (Ok htmlValues, lg) =>
          let '(row, lg') := buildRow item htmlValues (Columns profile) in
          (Ok row, lg ++ lg' ++ debugColumns profile row)
      end
  end.

(** [processJSONFile] (lines 852-877) *)
Fixpoint processItems (items : list (list (string * JSON))) (profile : Profile)
  : result (list (list string)) * list LogEntry :=
  match items with
  | [] => (Ok [], [])
  | item :: rest =>
      match processJSONItem item profile with
      | (Err err, lg) => (Err (ErrJSONItem err), lg)
      | (Ok row, lg) =>
          let '(r, lg') := processItems rest profile in
          (match r with
           | Ok rows =>
               Ok (match row with
                   | cell :: cells => (cell :: cells) :: rows
                   | [] => rows
                   end)
           | Err err => Err err
           end, lg ++ lg')
      end
  end.

Definition processJSONFile (fs : gmap string string) (filePath : string)
    (profile : Profile) : result (list (list string)) * list LogEntry :=
  match decodeFileContent fs filePath with
  | Err err => (Err (ErrFileRead filePath err), [])
  | Ok data =>
      match json_Unmarshal data with
      | Err err => (Err (ErrJSONParse filePath err), [])
      | Ok Value => processItems Value profile
      end
  end.

End Draft2.
End Draft2.

(** ** The order of a [range] over a map

    Go chooses the order in which a [range] visits the entries of a map anew
    at every execution of the loop.  [range_order] stands for the choices
    made during one call of [extractHTMLValues], one per column; the choices
    of two calls are not related.  [with_range_order L order] is the library
    [L] with other choices and nothing else changed.  What is said of
    several records at once, as of the rows of a file or of a run, is said
    of the program only where the rows do not depend on these choices. *)

Definition with_range_order (L : GoLib)
    (order : nat -> list (string * string) -> list (string * string))
    (Hperm : forall i l, Permutation (order i l) l) : GoLib :=
  {| Regexp := @Regexp L;
     regexp_Compile := @regexp_Compile L;
     Regexp_MatchString := @Regexp_MatchString L;
     Regexp_FindStringSubmatch := @Regexp_FindStringSubmatch L;
     strings_ToLower := @strings_ToLower L;
     fmt_Sscanf_index := @fmt_Sscanf_index L;
     fmt_float64 := @fmt_float64 L;
     html_Parse := @html_Parse L;
     html_UnescapeString := @html_UnescapeString L;
     goquery_Find := @goquery_Find L;
     range_order := order;
     range_order_perm := Hperm;
     utf8_Valid := @utf8_Valid L;
     utf16_Decode := @utf16_Decode L;
     json_Parse := @json_Parse L |}.

(** ** Where a path leads

    [leads_to data keys target]: the steps of [getNestedValue] along [keys],
    a key of an object or an index of an array at each, go from [data] to
    [target]. *)

Inductive leads_to {L : GoLib} : JSON -> list string -> JSON -> Prop :=
| leads_here data :
    leads_to data [] data
| leads_key members key rest data target :
    map_lookup key members = Some data ->
    leads_to data rest target ->
    leads_to (JObject members) (key :: rest) target
| leads_index items key rest index target :
    fmt_Sscanf_index key = Ok index ->
    (0 <= index < Z.of_nat (length items))%Z ->
    leads_to (nth (Z.to_nat index) items JNull) rest target ->
    leads_to (JArray items) (key :: rest) target.

(** ** Records for the null policy *)

Module NullExample.
Import GoStrings.

Definition config_remove : Config := mkConfig ∅ "remove" "" "null".

Definition profile_note : Profile :=
  mkProfile [Examples.json_column "ID" "id"; Examples.json_column "Note" "note.text"]
            "out.csv" "" "".

(** The note is a line break and nothing else. *)
Definition record_break : list (string * JSON) :=
  [("id", JString "X1"); ("note", JObject [("text", JString CRLF)])].

(** The note is [null]. *)
Definition record_null : list (string * JSON) :=
  [("id", JString "X1"); ("note", JObject [("text", JNull)])].

End NullExample.

(** * Properties *)

(** ** The end-to-end scenarios of the specification (section 8)

    Run on the reference library: the program gives the rows that the
    specification lists. *)

Section Scenarios.
Import GoStrings Examples.

(** 1. A JSON-only profile, one record. *)
Example scenario_json_only :
  fst (processJSONItem (L := RefLib.lib) config_empty "default"
         [("id", JString "X1"); ("author", JObject [("name", JString "A")])]
         profile_json)
  = Ok (Some ["X1"; "A"]).
Proof. reflexivity. Qed.

(** 2. Labels in an HTML body. *)
Example scenario_html_labels :
  fst (processJSONItem (L := RefLib.lib) config_empty "default"
         record_html profile_html)
  = Ok (Some ["Alice"; "Eng"]).
Proof. reflexivity. Qed.

(** 3. A record whose JSON path misses and whose HTML has no label. *)
Example scenario_blank_row :
  fst (processJSONItem (L := RefLib.lib) config_null "default"
         [("body", JString "<p>nothing here</p>")]
         (mkProfile [json_column "ID" "id"; label_column "Name" "Name" [] true]
                    "out.csv" "body" "html"))
  = Ok None.
Proof. reflexivity. Qed.

(** 4. The newline policy [replace]. *)
Example scenario_newline_replace :
  handleNewlines config_null ("line1" +:+ CRLF +:+ "line2") = "line1 | line2".
Proof. reflexivity. Qed.

(** 5. An array step. *)
Example scenario_array_index :
  getNestedValue (L := RefLib.lib)
    (JObject [("items", JArray [JObject [("sku", JString "A")];
                                JObject [("sku", JString "B")]])])
    (Split "items.[1].sku" ".")
  = Ok "B".
Proof. reflexivity. Qed.

(** 6. A chat message under the profile [teams]. *)
Example scenario_chat_cleanup :
  cleanHTMLContent (L := RefLib.lib) "teams"
    ("@{contentType=html; content=<p>hello <at id=" +:+ quoted "1"
     +:+ ">Bob</at>!</p>}")
  = "hello !".
Proof. reflexivity. Qed.

(** [cleanValue] is where a no-break space becomes a space. *)
Example cleanValue_nbsp :
  cleanValue ("a" +:+ NBSP +:+ " b") = "a b".
Proof. reflexivity. Qed.

End Scenarios.

(** ** The null policy and the resolver (4.B, 4.E) *)

Section Resolver.
Import GoStrings GoRegexp.

Context {L : GoLib}.
Variable config : Config.

Lemma handleNullValue_empty (value : string) :
  value = "" \/ value = "<nil>" ->
  handleNullValue config value = handleNullValue config "".
Proof.
  intros [-> | ->]; reflexivity.
Qed.

Lemma handleNullValue_other (value : string) :
  value <> "" -> value <> "<nil>" -> handleNullValue config value = value.
Proof.
  intros H1 H2. unfold handleNullValue.
  apply String.eqb_neq in H1, H2. rewrite H1, H2. reflexivity.
Qed.

Lemma getNestedValue_scalar (data : JSON) (keys : list string) :
  is_scalar data -> getNestedValue data keys = Ok (Sprint_v data).
Proof.
  destruct keys; destruct data; simpl; intros Hs; try reflexivity; destruct Hs.
Qed.

(** What the null policy puts in place of the empty string and of [<nil>],
    by the setting. *)
Lemma handleNullValue_sentinel (value : string) :
  value = "" \/ value = "<nil>" ->
  (NullValueHandling config = "null" -> handleNullValue config value = "null")
  /\ (NullValueHandling config = "nil" -> handleNullValue config value = "nil")
  /\ (NullValueHandling config = "empty" -> handleNullValue config value = "").
Proof.
  intros Hv. rewrite (handleNullValue_empty _ Hv). unfold handleNullValue. simpl.
  repeat split; intros ->; reflexivity.
Qed.

Lemma getNestedValue_resolves (keys : list string) :
  forall data, resolves data keys (getNestedValue data keys).
Proof.
  induction keys as [| key rest IH]; intros data.
  - constructor.
  - destruct data; simpl; try (constructor; exact I).
    + destruct (fmt_Sscanf_index key) as [index | err] eqn:Hscan.
      2: { now constructor. }
      destruct (0 <=? index)%Z eqn:Hlo; simpl.
      * destruct (index <? Z.of_nat (length items))%Z eqn:Hhi.
        -- apply Z.leb_le in Hlo. apply Z.ltb_lt in Hhi.
           assert (Hlt : (Z.to_nat index < length items)%nat) by lia.
           destruct (lookup_lt_is_Some_2 items _ Hlt) as [d Hd].
           rewrite (nth_lookup_Some _ _ JNull _ Hd).
           eapply resolves_index; eauto.
        -- apply Z.ltb_ge in Hhi. apply resolves_index_range; [assumption | lia].
      * apply Z.leb_gt in Hlo. apply resolves_index_range; [assumption | lia].
    + destruct (map_lookup key members) as [d |] eqn:Hk.
      * eapply resolves_key; eauto.
      * now constructor.
Qed.

Lemma resolves_functional data keys r :
  resolves data keys r -> getNestedValue data keys = r.
Proof.
  induction 1 as [data | members key rest data r Hk _ IH | members key rest Hk
                 | items key rest n data r Hscan Hn Hd _ IH
                 | items key rest err Hscan | items key rest n Hscan Hn
                 | data key rest Hs]; simpl.
  - reflexivity.
  - now rewrite Hk.
  - now rewrite Hk.
  - rewrite Hscan.
    destruct (Z.leb_spec 0 n); [| lia].
    destruct (Z.ltb_spec n (Z.of_nat (length items))); [| lia]. simpl.
    now rewrite (nth_lookup_Some _ _ JNull _ Hd).
  - now rewrite Hscan.
  - rewrite Hscan.
    destruct (Z.leb_spec 0 n); simpl; [| reflexivity].
    destruct (Z.ltb_spec n (Z.of_nat (length items))); [lia | reflexivity].
  - destruct data; try reflexivity; destruct Hs.
Qed.

(** C5, as amended: the resolver walks the segments as 4.B says, where an
    array step is the index that [fmt.Sscanf] reads from the segment under
    the format ["[%d]"]: a key that is absent fails with the key-not-found
    error, a segment that does not scan with the parse error, an index that
    is negative or not below the length with the range error, and a scalar
    ends the walk with its default string form. *)
Theorem getNestedValue_spec (data : JSON) (keys : list string) (r : result string) :
  getNestedValue data keys = r <-> resolves data keys r.
Proof.
  split.
  - intros <-. apply getNestedValue_resolves.
  - apply resolves_functional.
Qed.

End Resolver.

(** C5, as stated, fails: a segment with text after the closing bracket is
    not of the form [[n]], and the resolver reads it as the index before the
    bracket. *)
Lemma getNestedValue_trailing_text :
  bracketed_index "[1]x" = false
  /\ getNestedValue (L := RefLib.lib) (JArray [JString "A"; JString "B"]) ["[1]x"]
     = Ok "B".
Proof.
  split; reflexivity.
Qed.

(** ** The reference scanner on segments that begin with [[n]] *)

Section ReferenceScanner.
Import GoStrings GoRegexp.

Lemma span_app_stop (p : ascii -> bool) (x : string) (c : ascii) (y : string) :
  RefLib.all_bytes p x = true -> p c = false ->
  span p (x +:+ String c y) = String.length x
  /\ take (String.length x) (x +:+ String c y) = x
  /\ drop (String.length x) (x +:+ String c y) = String c y.
Proof.
  intros Hx Hc. induction x as [| a x IH]; simpl.
  - now rewrite Hc.
  - simpl in Hx. apply andb_prop in Hx as [Ha Hx].
    destruct (IH Hx) as (IH1 & IH2 & IH3).
    change (String a x +:+ String c y) with (String a (x +:+ String c y)).
    simpl. now rewrite Ha, IH1, IH2, IH3.
Qed.

Lemma digits_fold_nonneg (l : list ascii) :
  forall acc, (0 <= acc)%Z ->
    (0 <= fold_left (fun acc c => 10 * acc + Z.of_nat (nat_of_ascii c - 48)) l acc)%Z.
Proof.
  induction l as [| c l IH]; intros acc Hacc; simpl; [assumption |].
  apply IH. lia.
Qed.

Lemma is_d_not_blank (d : ascii) :
  is_d d = true ->
  (forall rest, RefLib.skip_space (String d rest) = Ok (String d rest))
  /\ Ascii.eqb d "-" = false /\ Ascii.eqb d "+" = false /\ Ascii.eqb d "[" = false.
Proof.
  unfold is_d. intros Hd. apply andb_prop in Hd as [Hlo Hhi].
  apply Nat.leb_le in Hlo, Hhi.
  assert (Hneq : forall n, (n < 256)%nat -> (n < 48)%nat \/ (57 < n)%nat ->
                 Ascii.eqb d (ascii_of_nat n) = false).
  { intros n Hb Hn. apply Ascii.eqb_neq. intros ->.
    rewrite nat_ascii_embedding in Hlo, Hhi by assumption. lia. }
  repeat split.
  - intros rest. simpl.
    destruct (Nat.eqb_spec (nat_of_ascii d) 10); [lia |].
    destruct (Nat.eqb_spec (nat_of_ascii d) 9); [lia |].
    destruct (Nat.eqb_spec (nat_of_ascii d) 11); [lia |].
    destruct (Nat.eqb_spec (nat_of_ascii d) 12); [lia |].
    destruct (Nat.eqb_spec (nat_of_ascii d) 13); [lia |].
    destruct (Nat.eqb_spec (nat_of_ascii d) 32); [lia |]. reflexivity.
  - apply (Hneq 45%nat); lia.
  - apply (Hneq 43%nat); lia.
  - apply (Hneq 91%nat); lia.
Qed.

(** A segment that begins with a bracketed run of decimal digits scans as the
    number the digits spell, whatever text follows the closing bracket. *)
Lemma Sscanf_index_bracketed (digits tail : string) :
  digits <> "" -> RefLib.all_bytes is_d digits = true ->
  (RefLib.digits_value digits < 2 ^ 63)%Z ->
  RefLib.Sscanf_index ("[" +:+ digits +:+ "]" +:+ tail)
  = Ok (RefLib.digits_value digits).
Proof.
  intros Hne Hall Hfit.
  destruct digits as [| d ds]; [congruence |].
  pose proof Hall as Hall'. simpl in Hall'. apply andb_prop in Hall' as [Hd _].
  destruct (is_d_not_blank d Hd) as (Hskip & Hminus & Hplus & _).
  destruct (span_app_stop is_d (String d ds) "]" tail Hall eq_refl) as (Hspan & Htake & Hdrop).
  change ("[" +:+ String d ds +:+ "]" +:+ tail)
    with (String "[" (String d (ds +:+ String "]" tail))).
  change (String d ds +:+ String "]" tail)
    with (String d (ds +:+ String "]" tail)) in Hspan, Htake, Hdrop.
  unfold RefLib.Sscanf_index.
  replace (negb (Ascii.eqb "[" "[")) with false by reflexivity.
  rewrite Hskip. unfold bind. rewrite Hminus, Hplus.
  cbv zeta. replace (false || false) with false by reflexivity. cbv iota.
  rewrite Hspan, Htake, Hdrop.
  replace (String.length (String d ds) =? 0)%nat with false by reflexivity.
  assert (Hpos : (0 <= RefLib.digits_value (String d ds))%Z).
  { unfold RefLib.digits_value. apply digits_fold_nonneg. lia. }
  destruct (Z.leb_spec (- 2 ^ 63) (RefLib.digits_value (String d ds))); [| lia].
  destruct (Z.ltb_spec (RefLib.digits_value (String d ds)) (2 ^ 63)); [| lia].
  reflexivity.
Qed.

End ReferenceScanner.

(** ** The column matcher (4.D) *)

Section Matcher.
Import GoStrings GoRegexp.

Context {L : GoLib}.

Lemma matchKeywords_spec (key : string) (keywords : list string) :
  matchKeywords key keywords = true <->
  exists keyword,
    keyword ∈ keywords /\
    Contains (strings_ToLower key) (strings_ToLower keyword) = true.
Proof.
  induction keywords as [| keyword rest IH]; simpl.
  - split; [discriminate |]. intros (k & Hin & _). inversion Hin.
  - destruct (Contains (strings_ToLower key) (strings_ToLower keyword)) eqn:Hc.
    + split; [| reflexivity]. intros _. exists keyword. split; [left | assumption].
    + rewrite IH. split.
      * intros (k & Hin & Hk). exists k. split; [now right | assumption].
      * intros (k & Hin & Hk). apply elem_of_cons in Hin as [-> | Hin].
        -- congruence.
        -- now exists k.
Qed.

Lemma matchColumn_inexact (key : string) (column : Column) :
  ExactMatch column = false ->
  matchColumn key column =
  (negb (Regex column =? "") && anchoredMatch key column)
  || matchKeywords key (Keywords column).
Proof.
  intros Hex. unfold matchColumn, anchoredMatch. rewrite Hex.
  destruct (negb (Regex column =? "") && _); reflexivity.
Qed.

(** C1, as amended: with [exact_match] false and a regex, the matcher
    matches the label exactly when the label matches the pattern between [^]
    and [$], or some keyword of the column is a substring of the label, case
    apart; the keywords are consulted when the regex does not match. *)
Theorem matchColumn_regex_or_keywords (key : string) (column : Column) :
  ExactMatch column = false ->
  Regex column <> "" ->
  matchColumn key column = true <->
  anchoredMatch key column = true \/ keywordMatch key column.
Proof.
  intros Hex Hre. rewrite (matchColumn_inexact _ _ Hex).
  apply String.eqb_neq in Hre. rewrite Hre. simpl.
  rewrite orb_true_iff, matchKeywords_spec. reflexivity.
Qed.

(** C9, as amended: with [exact_match] false, when the pattern that the
    matcher compiles, the regex between [^] and [$], does not compile, the
    matcher answers what the keyword test answers: the error is dropped. *)
Theorem matchColumn_compile_error (key : string) (column : Column) :
  ExactMatch column = false ->
  is_ok (regexp_Compile ("^" +:+ Regex column +:+ "$")) = false ->
  snd (regexp_MatchString ("^" +:+ Regex column +:+ "$") key) <> None
  /\ (matchColumn key column = true <-> keywordMatch key column).
Proof.
  intros Hex Hc. rewrite (matchColumn_inexact _ _ Hex).
  unfold anchoredMatch, regexp_MatchString.
  destruct (regexp_Compile _); [discriminate |]. simpl.
  rewrite andb_false_r. simpl. split; [discriminate |].
  apply matchKeywords_spec.
Qed.

End Matcher.

Lemma matchColumn_regex_or_keywords_witness :
  matchColumn (L := RefLib.lib) "foobar"
              (Examples.label_column "Name" "Name" ["foo"] false) = true <->
  anchoredMatch (L := RefLib.lib) "foobar"
                (Examples.label_column "Name" "Name" ["foo"] false) = true
  \/ keywordMatch (L := RefLib.lib) "foobar"
                  (Examples.label_column "Name" "Name" ["foo"] false).
Proof.
  apply (@matchColumn_regex_or_keywords RefLib.lib);
    [reflexivity | discriminate].
Defined.

(** C1, as stated, fails: the regex [Name] does not match the label
    [foobar], and the column matches it through its keyword [foo]. *)
Lemma matchColumn_keyword_after_regex :
  anchoredMatch (L := RefLib.lib) "foobar"
                (Examples.label_column "Name" "Name" ["foo"] false) = false
  /\ matchColumn (L := RefLib.lib) "foobar"
                 (Examples.label_column "Name" "Name" ["foo"] false) = true.
Proof.
  split; reflexivity.
Qed.

Lemma matchColumn_compile_error_witness :
  snd (regexp_MatchString (L := RefLib.lib) "^($" "xFOOx") <> None
  /\ (matchColumn (L := RefLib.lib) "xFOOx"
                  (Examples.label_column "Name" "(" ["foo"] false) = true <->
      keywordMatch (L := RefLib.lib) "xFOOx"
                   (Examples.label_column "Name" "(" ["foo"] false)).
Proof.
  apply (@matchColumn_compile_error RefLib.lib "xFOOx"
           (Examples.label_column "Name" "(" ["foo"] false));
    reflexivity.
Defined.

(** C9, as stated, fails: a lone backslash does not compile, the pattern
    made of it between [^] and [$] does, and it matches the label [$], which
    no keyword does. *)
Lemma matchColumn_backslash_regex :
  is_ok (@regexp_Compile RefLib.lib "\") = false
  /\ matchKeywords (L := RefLib.lib) "$" [] = false
  /\ matchColumn (L := RefLib.lib) "$" (Examples.label_column "Name" "\" [] false)
     = true.
Proof.
  repeat split; reflexivity.
Qed.

(** ** The row builder (4.E) *)

Section RowBuilder.
Import GoStrings GoRegexp.

Context {L : GoLib}.
Variable config : Config.
Variable profileName : string.

Lemma isEmptyOrAllNull_spec (row : list string) :
  isEmptyOrAllNull config row = true <-> Forall (blank config) row.
Proof.
  induction row as [| value rest IH]; simpl.
  - split; [constructor | reflexivity].
  - destruct (value =? "") eqn:He; simpl.
    + apply String.eqb_eq in He. rewrite IH. split.
      * intros Hr. constructor; [now left | assumption].
      * intros Hr. now inversion Hr.
    + destruct (value =? handleNullValue config "") eqn:Hn; simpl.
      * apply String.eqb_eq in Hn. rewrite IH. split.
        -- intros Hr. constructor; [now right | assumption].
        -- intros Hr. now inversion Hr.
      * apply String.eqb_neq in He, Hn. split; [discriminate |].
        intros Hr. inversion Hr as [| ? ? [Hb | Hb] _]; contradiction.
Qed.

Lemma isEmptyOrAllNull_false (row : list string) :
  isEmptyOrAllNull config row = false <->
  exists value, value ∈ row /\ value <> "" /\ value <> handleNullValue config "".
Proof.
  induction row as [| value rest IH]; simpl.
  - split; [discriminate |]. intros (v & Hin & _). inversion Hin.
  - destruct (value =? "") eqn:He; simpl.
    + apply String.eqb_eq in He. rewrite IH. split.
      * intros (v & Hin & Hv). exists v. split; [now right | assumption].
      * intros (v & Hin & Hv1 & Hv2). apply elem_of_cons in Hin as [-> | Hin];
          [contradiction |]. now exists v.
    + destruct (value =? handleNullValue config "") eqn:Hn; simpl.
      * apply String.eqb_eq in Hn. rewrite IH. split.
        -- intros (v & Hin & Hv). exists v. split; [now right | assumption].
        -- intros (v & Hin & Hv1 & Hv2). apply elem_of_cons in Hin as [-> | Hin];
             [contradiction |]. now exists v.
      * apply String.eqb_neq in He, Hn. split; [| reflexivity].
        intros _. exists value. split; [left | split; assumption].
Qed.

(** Every field of a row went through the newline and the null policy. *)
Lemma buildRow_fields item profile parseContent htmlValues columns :
  forall row lg,
    buildRow config profileName item profile parseContent htmlValues columns
    = (Ok row, lg) ->
    Forall2 (fun column cell => exists value,
                 cell = finishValue config profileName column value)
            columns row.
Proof.
  induction columns as [| column rest IH]; simpl; intros row lg Hb.
  - injection Hb as <- _. constructor.
  - destruct (columnSource item profile parseContent htmlValues column)
      as [[value | err] lg1]; [| discriminate].
    destruct (buildRow config profileName item profile parseContent htmlValues rest)
      as [[row' | err] lg2]; [| discriminate].
    injection Hb as <- _. constructor; [now exists value | now apply (IH _ lg2)].
Qed.

(** C4: once the fields of a record are built, the row is returned exactly
    when one of them, after the newline and the null policy, is neither
    empty nor the configured null sentinel, and dropped exactly when each is
    one or the other. *)
Theorem row_returned_iff_not_blank item profile parseContent htmlValues lg row lg' :
  resolveBody item profile = (Ok (parseContent, htmlValues), lg) ->
  buildRow config profileName item profile parseContent htmlValues (Columns profile)
  = (Ok row, lg') ->
  Forall2 (fun column cell => exists value,
               cell = handleNullValue config (handleNewlines config value))
          (Columns profile) row
  /\ (fst (processJSONItem config profileName item profile) = Ok (Some row) <->
      exists value, value ∈ row /\ value <> "" /\ value <> handleNullValue config "")
  /\ (fst (processJSONItem config profileName item profile) = Ok None <->
      Forall (blank config) row).
Proof.
  intros Hbody Hrow. split; [| split].
  - eapply Forall2_impl; [eapply buildRow_fields; eassumption |].
    intros column cell (value & ->). unfold finishValue. eauto.
  - unfold processJSONItem. rewrite Hbody, Hrow. simpl.
    rewrite <- isEmptyOrAllNull_false.
    destruct (isEmptyOrAllNull config row); split; congruence.
  - unfold processJSONItem. rewrite Hbody, Hrow. simpl.
    rewrite <- isEmptyOrAllNull_spec.
    destruct (isEmptyOrAllNull config row); split; congruence.
Qed.

Lemma columnSource_json_path item profile parseContent htmlValues column :
  from_json_path profile column = true ->
  columnSource item profile parseContent htmlValues column =
  match getNestedValue (JObject item) (Split (Key column) ".") with
  | Ok value => (Ok value, [])
  | Err err => (Ok "", [LogWarningNested err])
  end.
Proof.
  unfold from_json_path, from_html_map, from_regex_line, columnSource.
  intros Hj. apply andb_prop in Hj as [Hj Hk]. apply andb_prop in Hj as [Hh Hr].
  apply negb_true_iff in Hh, Hr. rewrite Hh, Hr, Hk. reflexivity.
Qed.

Lemma buildRow_json_paths item profile parseContent htmlValues columns :
  Forall (fun column => from_json_path profile column = true) columns ->
  is_ok (fst (buildRow config profileName item profile parseContent htmlValues
                       columns)) = true.
Proof.
  induction 1 as [| column rest Hc _ IH]; simpl; [reflexivity |].
  rewrite (columnSource_json_path _ _ _ _ _ Hc).
  destruct (getNestedValue _ _);
    destruct (buildRow config profileName item profile parseContent htmlValues rest)
      as [[row | err] lg]; simpl in *; congruence.
Qed.

Lemma processItems_json_paths profile items :
  ParseBody profile = "" ->
  Forall (fun column => from_json_path profile column = true) (Columns profile) ->
  is_ok (fst (processItems config profileName items profile)) = true.
Proof.
  intros Hb Hc. induction items as [| item rest IH]; simpl; [reflexivity |].
  unfold processJSONItem, resolveBody. rewrite Hb. simpl.
  pose proof (buildRow_json_paths item profile "" ∅ _ Hc) as Hrow.
  destruct (buildRow config profileName item profile "" ∅ (Columns profile))
    as [[row | err] lg]; [| discriminate].
  destruct (processItems config profileName rest profile) as [[rows | err] lg'];
    simpl in *; congruence.
Qed.

(** The value of each column and what the loop makes of it, with the log of
    its source inside the log of the row. *)
Lemma buildRow_lookup item profile parseContent htmlValues columns :
  forall row lg i column,
    buildRow config profileName item profile parseContent htmlValues columns
    = (Ok row, lg) ->
    columns !! i = Some column ->
    exists value lg',
      columnSource item profile parseContent htmlValues column = (Ok value, lg')
      /\ row !! i = Some (finishValue config profileName column value)
      /\ (forall entry, entry ∈ lg' -> entry ∈ lg).
Proof.
  induction columns as [| c rest IH]; intros row lg i column Hb Hi;
    [destruct i; discriminate |].
  simpl in Hb.
  destruct (columnSource item profile parseContent htmlValues c)
    as [[value | err] lg1] eqn:Hsrc; [| discriminate].
  destruct (buildRow config profileName item profile parseContent htmlValues rest)
    as [[row' | err] lg2] eqn:Hrest; [| discriminate].
  injection Hb as <- <-.
  destruct i as [| i]; simpl in Hi.
  - injection Hi as <-. exists value, lg1. rewrite Hsrc.
    split; [reflexivity | split; [reflexivity |]].
    intros entry Hin. apply elem_of_app. now left.
  - destruct (IH row' lg2 i column eq_refl Hi) as (v & lg' & Hv & Hcell & Hlog).
    exists v, lg'. split; [exact Hv | split; [exact Hcell |]].
    intros entry Hin. apply elem_of_app. right. now apply Hlog.
Qed.

Lemma buildRow_sources_ok item profile parseContent htmlValues columns :
  Forall (fun c => is_ok (fst (columnSource item profile parseContent htmlValues c))
                   = true) columns ->
  exists row lg,
    buildRow config profileName item profile parseContent htmlValues columns
    = (Ok row, lg)
    /\ length row = length columns.
Proof.
  induction 1 as [| c rest Hc _ (row & lg & IH & Hlen)]; simpl.
  - now exists [], [].
  - destruct (columnSource item profile parseContent htmlValues c)
      as [[value | err] lg1]; [| discriminate].
    rewrite IH. eexists _, _. split; [reflexivity |]. simpl. now rewrite Hlen.
Qed.

(** The records of a file, one part after the other. *)
Lemma processItems_app items1 items2 profile rows1 lg1 :
  processItems config profileName items1 profile = (Ok rows1, lg1) ->
  fst (processItems config profileName (items1 ++ items2) profile)
  = match fst (processItems config profileName items2 profile) with
    | Ok rows2 => Ok (rows1 ++ rows2)
    | Err err => Err err
    end.
Proof.
  revert rows1 lg1.
  induction items1 as [| item rest IH]; intros rows1 lg1 H1; simpl in *.
  - injection H1 as <- _.
    now destruct (processItems config profileName items2 profile) as [[rows | err] lg].
  - destruct (processJSONItem config profileName item profile)
      as [[row | err] lg]; [| discriminate].
    destruct (processItems config profileName rest profile)
      as [[rows | err] lg'] eqn:Hrest; [| discriminate].
    specialize (IH rows lg' eq_refl).
    destruct (processItems config profileName (rest ++ items2) profile)
      as [r12 lg12].
    simpl in IH. subst r12. injection H1 as <- _.
    destruct (processItems config profileName items2 profile) as [[rows2 | err] lg2];
      simpl; [| reflexivity].
    now destruct row as [[| cell cells] |].
Qed.

(** C6: where a column takes the JSON path and the resolver fails, the
    value of the column is the empty string and the failure is one warning
    in the log.  The failure is no error of the row builder: when the body
    of the record resolves and the other columns give no error,
    [processJSONItem] returns without error: it returns the row that
    [buildRow] gives, which has the policy value of the empty string in that
    column, and drops it under the rule for blank rows only, so that a
    record with a field that is not blank gives its row; the warning is in
    its log.  Nor
    does the failure abort the file: [processJSONFile] goes on with the
    records after this one, and gives the rows before it, its row and the
    rows after it unless a later record fails; a file read under a profile
    of such columns without [parse_body] is never aborted. *)
Theorem json_path_failure_is_a_warning item profile before column after err :
  Columns profile = before ++ column :: after ->
  from_json_path profile column = true ->
  getNestedValue (JObject item) (Split (Key column) ".") = Err err ->
  (forall parseContent htmlValues,
      columnSource item profile parseContent htmlValues column
      = (Ok "", [LogWarningNested err]))
  /\ (forall parseContent htmlValues lg,
        resolveBody item profile = (Ok (parseContent, htmlValues), lg) ->
        Forall (fun c => is_ok (fst (columnSource item profile parseContent
                                       htmlValues c)) = true)
               (before ++ after) ->
        exists row,
          fst (buildRow config profileName item profile parseContent htmlValues
                        (Columns profile)) = Ok row
          /\ length row = length (Columns profile)
          /\ row !! length before = Some (finishValue config profileName column "")
          /\ fst (processJSONItem config profileName item profile)
             = Ok (if isEmptyOrAllNull config row then None else Some row)
          /\ ((exists value, value ∈ row /\ value <> ""
                             /\ value <> handleNullValue config "") ->
              fst (processJSONItem config profileName item profile) = Ok (Some row))
          /\ LogWarningNested err ∈ snd (processJSONItem config profileName item profile)
          /\ (forall fs filePath data items1 items2 rows1 lg1,
                decodeFileContent fs filePath = Ok data ->
                json_Unmarshal data = Ok (items1 ++ item :: items2) ->
                processItems config profileName items1 profile = (Ok rows1, lg1) ->
                fst (processJSONFile config profileName fs filePath profile)
                = match fst (processItems config profileName items2 profile) with
                  | Ok rows2 =>
                      Ok (rows1
                            ++ (if isEmptyOrAllNull config row then [] else [row])
                            ++ rows2)
                  | Err e => Err e
                  end))
  /\ (ParseBody profile = "" ->
      Forall (fun c => from_json_path profile c = true) (Columns profile) ->
      forall items, is_ok (fst (processItems config profileName items profile)) = true).
Proof.
  intros Hcolumns Hj Herr.
  assert (Hsrc : forall parseContent htmlValues,
             columnSource item profile parseContent htmlValues column
             = (Ok "", [LogWarningNested err])).
  { intros. rewrite (columnSource_json_path _ _ _ _ _ Hj), Herr. reflexivity. }
  split; [exact Hsrc | split].
  - intros parseContent htmlValues lg Hbody Hothers.
    assert (Hall : Forall (fun c => is_ok (fst (columnSource item profile parseContent
                                                  htmlValues c)) = true)
                          (Columns profile)).
    { rewrite Hcolumns. apply Forall_app in Hothers as [Hb Ha].
      apply Forall_app. split; [exact Hb |]. constructor; [| exact Ha].
      now rewrite Hsrc. }
    destruct (buildRow_sources_ok _ _ _ _ _ Hall) as (row & lg' & Hrow & Hlen).
    assert (Hat : Columns profile !! length before = Some column).
    { rewrite Hcolumns. now apply list_lookup_middle. }
    destruct (buildRow_lookup _ _ _ _ _ _ _ _ _ Hrow Hat)
      as (value & lgc & Hvalue & Hcell & Hlog).
    rewrite Hsrc in Hvalue. injection Hvalue as <- <-.
    assert (Hitem : processJSONItem config profileName item profile
                    = (Ok (if isEmptyOrAllNull config row then None else Some row),
                       lg ++ lg' ++ debugColumns profile row)).
    { unfold processJSONItem. now rewrite Hbody, Hrow. }
    exists row.
    split_and!; [now rewrite Hrow | exact Hlen | exact Hcell | now rewrite Hitem | | |].
    + intros Hfield. apply isEmptyOrAllNull_false in Hfield.
      now rewrite Hitem, Hfield.
    + rewrite Hitem. simpl. apply elem_of_app. right. apply elem_of_app. left.
      apply Hlog. now left.
    + intros fs filePath data items1 items2 rows1 lg1 Hdecode Hjson H1.
      unfold processJSONFile. rewrite Hdecode, Hjson.
      rewrite (processItems_app _ _ _ _ _ H1). simpl. rewrite Hitem.
      destruct (processItems config profileName items2 profile)
        as [[rows2 | e] lg2]; simpl; [| reflexivity].
      destruct (isEmptyOrAllNull config row) eqn:Hblank; [reflexivity |].
      destruct row as [| cell cells]; [discriminate | reflexivity].
  - intros Hb Hc items. now apply processItems_json_paths.
Qed.

Lemma handleNewlines_nil : handleNewlines config "<nil>" = "<nil>".
Proof.
  unfold handleNewlines.
  destruct (NewlineHandling config =? "keep"); [reflexivity |].
  destruct (NewlineHandling config =? "remove"); [reflexivity |].
  destruct (NewlineHandling config =? "replace"); reflexivity.
Qed.

(** A path that leads to a scalar gives that scalar as it is printed, also
    when the path has more segments than the document has levels. *)
Lemma getNestedValue_leads_to data keys target :
  leads_to data keys target ->
  is_scalar target ->
  forall more, getNestedValue data (keys ++ more) = Ok (Sprint_v target).
Proof.
  induction 1 as [data | members key rest data target Hkey _ IH
                  | items key rest index target Hscan Hrange _ IH];
    intros Hscalar more.
  - now apply getNestedValue_scalar.
  - simpl. rewrite Hkey. now apply IH.
  - simpl. rewrite Hscan.
    replace (0 <=? index)%Z with true by (symmetry; apply Z.leb_le; lia).
    replace (index <? Z.of_nat (length items))%Z with true
      by (symmetry; apply Z.ltb_lt; lia).
    simpl. now apply IH.
Qed.

(** C3, as amended: the null policy works on the value of a column after
    its source, the cleaning and the newline policy.  For every column of a
    row that is built, with [v] the value at that point, the cell is the
    configured sentinel (["null"], ["nil"] or the empty string) when [v] is
    the empty string or [<nil>], and [v] itself otherwise.  [<nil>] is how
    the resolver prints a JSON null: a column that takes a JSON path which
    leads to [null] in the record has the value [<nil>], and its cell is
    the sentinel. *)
Theorem null_policy_on_cells item profile parseContent htmlValues columns row lg :
  buildRow config profileName item profile parseContent htmlValues columns
  = (Ok row, lg) ->
  Forall2 (fun column cell =>
             exists value lg',
               columnSource item profile parseContent htmlValues column
               = (Ok value, lg')
               /\ let cleaned := if CleanHTML column
                                 then cleanHTMLContent profileName value
                                 else value in
                  let v := handleNewlines config cleaned in
                  ((v = "" \/ v = "<nil>") ->
                   (NullValueHandling config = "null" -> cell = "null")
                   /\ (NullValueHandling config = "nil" -> cell = "nil")
                   /\ (NullValueHandling config = "empty" -> cell = ""))
                  /\ (v <> "" -> v <> "<nil>" -> cell = v))
          columns row
  /\ (forall i column keys more,
        columns !! i = Some column ->
        from_json_path profile column = true ->
        Split (Key column) "." = keys ++ more ->
        leads_to (JObject item) keys JNull ->
        columnSource item profile parseContent htmlValues column = (Ok "<nil>", [])
        /\ (CleanHTML column = false ->
            exists cell,
              row !! i = Some cell
              /\ (NullValueHandling config = "null" -> cell = "null")
              /\ (NullValueHandling config = "nil" -> cell = "nil")
              /\ (NullValueHandling config = "empty" -> cell = ""))).
Proof.
  intros Hrow. split.
  - apply Forall2_same_length_lookup. split.
    + destruct (Forall2_length _ _ _ (buildRow_fields _ _ _ _ _ _ _ Hrow)).
      reflexivity.
    + intros i column cell Hi Hcell.
      destruct (buildRow_lookup _ _ _ _ _ _ _ _ _ Hrow Hi)
        as (value & lg' & Hvalue & Hcell' & _).
      rewrite Hcell in Hcell'. injection Hcell' as ->.
      exists value, lg'. split; [exact Hvalue |]. unfold finishValue. split.
      * apply handleNullValue_sentinel.
      * apply handleNullValue_other.
  - intros i column keys more Hi Hj Hkeys Hnull.
    assert (Hsrc : columnSource item profile parseContent htmlValues column
                   = (Ok "<nil>", [])).
    { rewrite (columnSource_json_path _ _ _ _ _ Hj), Hkeys.
      now rewrite (getNestedValue_leads_to _ _ _ Hnull I more). }
    split; [exact Hsrc |]. intros Hclean.
    destruct (buildRow_lookup _ _ _ _ _ _ _ _ _ Hrow Hi)
      as (value & lg' & Hvalue & Hcell & _).
    rewrite Hsrc in Hvalue. injection Hvalue as <- <-.
    eexists. split; [exact Hcell |].
    unfold finishValue. rewrite Hclean, handleNewlines_nil.
    apply handleNullValue_sentinel. now right.
Qed.

(** A column with a tag and neither regex, keywords nor key gets the empty
    string, whatever the HTML map holds for it. *)
Lemma columnSource_tag_only item profile parseContent htmlValues column :
  Regex column = "" -> Keywords column = [] -> Key column = "" ->
  columnSource item profile parseContent htmlValues column = (Ok "", []).
Proof.
  intros Hr Hk Hkey. unfold columnSource. rewrite Hr, Hk, Hkey. simpl.
  rewrite andb_false_r. reflexivity.
Qed.

End RowBuilder.

Lemma row_returned_iff_not_blank_witness :
  Forall2 (fun column cell => exists value,
               cell = handleNullValue Examples.config_empty
                        (handleNewlines Examples.config_empty value))
          (Columns Examples.profile_json) ["X1"; ""]
  /\ (fst (processJSONItem (L := RefLib.lib) Examples.config_empty "default"
             [("id", JString "X1")] Examples.profile_json) = Ok (Some ["X1"; ""]) <->
      exists value, value ∈ ["X1"; ""] /\ value <> ""
                    /\ value <> handleNullValue Examples.config_empty "")
  /\ (fst (processJSONItem (L := RefLib.lib) Examples.config_empty "default"
             [("id", JString "X1")] Examples.profile_json) = Ok None <->
      Forall (blank Examples.config_empty) ["X1"; ""]).
Proof.
  apply (@row_returned_iff_not_blank RefLib.lib Examples.config_empty "default"
           [("id", JString "X1")] Examples.profile_json "" ∅ []
           ["X1"; ""] [LogWarningNested (ErrKeyNotFound "author")]);
    reflexivity.
Defined.

Lemma json_path_failure_is_a_warning_witness :
  fst (processJSONItem (L := RefLib.lib) Examples.config_empty "default"
         [("id", JString "X1")] Examples.profile_json) = Ok (Some ["X1"; ""])
  /\ (forall parseContent htmlValues,
      columnSource (L := RefLib.lib) [("id", JString "X1")] Examples.profile_json
                   parseContent htmlValues
                   (Examples.json_column "Author" "author.name")
      = (Ok "", [LogWarningNested (ErrKeyNotFound "author")]))
  /\ (forall parseContent htmlValues lg,
        resolveBody (L := RefLib.lib) [("id", JString "X1")] Examples.profile_json
        = (Ok (parseContent, htmlValues), lg) ->
        Forall (fun c => is_ok (fst (columnSource (L := RefLib.lib)
                                       [("id", JString "X1")] Examples.profile_json
                                       parseContent htmlValues c)) = true)
               ([Examples.json_column "ID" "id"] ++ []) ->
        exists row,
          fst (buildRow (L := RefLib.lib) Examples.config_empty "default"
                        [("id", JString "X1")] Examples.profile_json
                        parseContent htmlValues (Columns Examples.profile_json))
          = Ok row
          /\ length row = length (Columns Examples.profile_json)
          /\ row !! length [Examples.json_column "ID" "id"]
             = Some (finishValue (L := RefLib.lib) Examples.config_empty "default"
                       (Examples.json_column "Author" "author.name") "")
          /\ fst (processJSONItem (L := RefLib.lib) Examples.config_empty "default"
                    [("id", JString "X1")] Examples.profile_json)
             = Ok (if isEmptyOrAllNull Examples.config_empty row
                   then None else Some row)
          /\ ((exists value, value ∈ row /\ value <> ""
                             /\ value <> handleNullValue Examples.config_empty "") ->
              fst (processJSONItem (L := RefLib.lib) Examples.config_empty "default"
                     [("id", JString "X1")] Examples.profile_json) = Ok (Some row))
          /\ LogWarningNested (ErrKeyNotFound "author")
             ∈ snd (processJSONItem (L := RefLib.lib) Examples.config_empty "default"
                      [("id", JString "X1")] Examples.profile_json)
          /\ (forall fs filePath data items1 items2 rows1 lg1,
                decodeFileContent (L := RefLib.lib) fs filePath = Ok data ->
                json_Unmarshal (L := RefLib.lib) data
                = Ok (items1 ++ [("id", JString "X1")] :: items2) ->
                processItems (L := RefLib.lib) Examples.config_empty "default"
                             items1 Examples.profile_json = (Ok rows1, lg1) ->
                fst (processJSONFile (L := RefLib.lib) Examples.config_empty "default"
                       fs filePath Examples.profile_json)
                = match fst (processItems (L := RefLib.lib) Examples.config_empty
                               "default" items2 Examples.profile_json) with
                  | Ok rows2 =>
                      Ok (rows1
                            ++ (if isEmptyOrAllNull Examples.config_empty row
                                then [] else [row])
                            ++ rows2)
                  | Err e => Err e
                  end))
  /\ (ParseBody Examples.profile_json = "" ->
      Forall (fun c => from_json_path Examples.profile_json c = true)
             (Columns Examples.profile_json) ->
      forall items,
        is_ok (fst (processItems (L := RefLib.lib) Examples.config_empty "default"
                      items Examples.profile_json)) = true).
Proof.
  split; [reflexivity |].
  apply (@json_path_failure_is_a_warning RefLib.lib Examples.config_empty "default"
           [("id", JString "X1")] Examples.profile_json
           [Examples.json_column "ID" "id"]
           (Examples.json_column "Author" "author.name") []
           (ErrKeyNotFound "author"));
    reflexivity.
Defined.

Lemma null_policy_on_cells_witness :
  leads_to (L := RefLib.lib) (JObject NullExample.record_null)
           ["note"; "text"] JNull
  /\ Forall2 (fun column cell =>
             exists value lg',
               columnSource (L := RefLib.lib) NullExample.record_null
                            NullExample.profile_note "" ∅ column
               = (Ok value, lg')
               /\ let cleaned := if CleanHTML column
                                 then cleanHTMLContent (L := RefLib.lib) "default" value
                                 else value in
                  let v := handleNewlines NullExample.config_remove cleaned in
                  ((v = "" \/ v = "<nil>") ->
                   (NullValueHandling NullExample.config_remove = "null" ->
                    cell = "null")
                   /\ (NullValueHandling NullExample.config_remove = "nil" ->
                       cell = "nil")
                   /\ (NullValueHandling NullExample.config_remove = "empty" ->
                       cell = ""))
                  /\ (v <> "" -> v <> "<nil>" -> cell = v))
          (Columns NullExample.profile_note) ["X1"; "null"]
  /\ (forall i column keys more,
        Columns NullExample.profile_note !! i = Some column ->
        from_json_path NullExample.profile_note column = true ->
        GoStrings.Split (Key column) "." = keys ++ more ->
        leads_to (L := RefLib.lib) (JObject NullExample.record_null) keys JNull ->
        columnSource (L := RefLib.lib) NullExample.record_null
                     NullExample.profile_note "" ∅ column = (Ok "<nil>", [])
        /\ (CleanHTML column = false ->
            exists cell,
              ["X1"; "null"] !! i = Some cell
              /\ (NullValueHandling NullExample.config_remove = "null" ->
                  cell = "null")
              /\ (NullValueHandling NullExample.config_remove = "nil" ->
                  cell = "nil")
              /\ (NullValueHandling NullExample.config_remove = "empty" ->
                  cell = ""))).
Proof.
  split.
  - eapply leads_key; [reflexivity |].
    eapply leads_key; [reflexivity |]. apply leads_here.
  - apply (@null_policy_on_cells RefLib.lib NullExample.config_remove "default"
             NullExample.record_null NullExample.profile_note "" ∅
             (Columns NullExample.profile_note) ["X1"; "null"] []).
    reflexivity.
Defined.

(** C3, as stated, fails: the value of the column after its source and the
    cleaning is a line break, which is neither empty nor [<nil>]; the
    newline policy [remove] empties it, and the cell is the sentinel and
    not the value. *)
Lemma null_policy_after_newlines :
  columnSource (L := RefLib.lib) NullExample.record_break NullExample.profile_note
               "" ∅ (Examples.json_column "Note" "note.text")
  = (Ok CRLF, [])
  /\ CleanHTML (Examples.json_column "Note" "note.text") = false
  /\ CRLF <> "" /\ CRLF <> "<nil>"
  /\ fst (buildRow (L := RefLib.lib) NullExample.config_remove "default"
            NullExample.record_break NullExample.profile_note "" ∅
            (Columns NullExample.profile_note)) = Ok ["X1"; "null"]
  /\ fst (processJSONItem (L := RefLib.lib) NullExample.config_remove "default"
            NullExample.record_break NullExample.profile_note)
     = Ok (Some ["X1"; "null"]).
Proof.
  split_and!; [reflexivity | reflexivity | discriminate | discriminate
               | reflexivity | reflexivity].
Qed.

(** C2, where the code departs from it: under an HTML profile the harvest
    stores the text of [h1] for a column that names that tag and nothing
    else, and the row builder does not read it: the column stays empty and
    the record gives no row. *)
Theorem tag_only_column_is_not_read :
  (exists htmlValues,
      fst (extractHTMLValues (L := RefLib.lib) "<h1>Hi</h1>"
             (Columns Examples.profile_tag)) = Ok htmlValues
      /\ htmlValues !! "Title" = Some "Hi")
  /\ fst (buildRow (L := RefLib.lib) Examples.config_empty "default"
            Examples.record_tag Examples.profile_tag "<h1>Hi</h1>"
            {["Title" := "Hi"]} (Columns Examples.profile_tag)) = Ok [""]
  /\ fst (processJSONItem (L := RefLib.lib) Examples.config_empty "default"
            Examples.record_tag Examples.profile_tag) = Ok None.
Proof.
  split; [| split].
  - eexists. split; reflexivity.
  - reflexivity.
  - reflexivity.
Qed.

(** ** The normalization of [clean_html] (4.C) *)

Section Normalization.
Import GoStrings GoRegexp.

(** Induction over a node with its children. *)
Lemma Node_ind_children (P : Node -> Prop) :
  (forall type data attr children,
      Forall P children -> P (mkNode type data attr children)) ->
  forall n, P n.
Proof.
  intros Hnode. fix IH 1. intros [type data attr children].
  apply Hnode. induction children as [| c r IHr]; constructor; [apply IH | exact IHr].
Qed.

(** Induction over a string two bytes at a time. *)
Lemma string_ind2 (P : string -> Prop) :
  P "" ->
  (forall c, P (String c "")) ->
  (forall c d s, P s -> P (String d s) -> P (String c (String d s))) ->
  forall s, P s.
Proof.
  intros H0 H1 H2 s.
  assert (Hboth : P s /\ forall c, P (String c s)).
  { induction s as [| d s [IHs IHc]]; split; auto. }
  exact (proj1 Hboth).
Qed.

Lemma append_cons (x : ascii) (a b : string) :
  String x a +:+ b = String x (a +:+ b).
Proof. reflexivity. Qed.

Lemma append_nil (b : string) : "" +:+ b = b.
Proof. reflexivity. Qed.

Lemma append_nil_r (a : string) : a +:+ "" = a.
Proof.
  induction a as [| x a IH]; [reflexivity | now rewrite append_cons, IH].
Qed.

Lemma append_assoc (a b c : string) : (a +:+ b) +:+ c = a +:+ (b +:+ c).
Proof.
  induction a as [| x a IH]; [reflexivity |].
  now rewrite !append_cons, IH.
Qed.

Lemma rev_append_spec (s acc : string) : rev_append s acc = rev s +:+ acc.
Proof.
  unfold rev. revert acc.
  induction s as [| c s IH]; intros acc; simpl; [reflexivity |].
  rewrite (IH (String c acc)), (IH (String c "")), append_assoc. reflexivity.
Qed.

Lemma rev_cons (c : ascii) (s : string) : rev (String c s) = rev s +:+ String c "".
Proof. unfold rev at 1. simpl. apply rev_append_spec. Qed.

Lemma rev_app (a b : string) : rev (a +:+ b) = rev b +:+ rev a.
Proof.
  induction a as [| x a IH].
  - now rewrite append_nil, append_nil_r.
  - now rewrite append_cons, !rev_cons, IH, append_assoc.
Qed.

Lemma rev_involutive (s : string) : rev (rev s) = s.
Proof.
  induction s as [| c s IH]; [reflexivity |].
  now rewrite rev_cons, rev_app, IH.
Qed.

(** Induction over a string three bytes at a time. *)
Lemma string_ind3 (P : string -> Prop) :
  P "" ->
  (forall a, P "" -> P (String a "")) ->
  (forall a b, P "" -> P (String b "") -> P (String a (String b ""))) ->
  (forall a b c s, P s -> P (String c s) -> P (String b (String c s)) ->
                   P (String a (String b (String c s)))) ->
  forall s, P s.
Proof.
  intros H0 H1 H2 H3 s.
  assert (Hall : P s /\ (forall c, P (String c s))
                 /\ (forall b c, P (String b (String c s)))).
  { induction s as [| d s (IHs & IHc & IHb)].
    - repeat split; auto.
    - repeat split; auto. }
  exact (proj1 Hall).
Qed.

Lemma TrimLeftSpace_no_space (s : string) :
  starts_with_space (TrimLeftSpace s) = false.
Proof.
  induction s as [| a IH0 | a b IH0 IH1 | a b c s IHs IHc IHb] using string_ind3.
  - reflexivity.
  - simpl. destruct (isSpace1 a) eqn:Ha; simpl; [reflexivity | now rewrite Ha].
  - simpl. destruct (isSpace1 a) eqn:Ha; [exact IH1 |].
    destruct (isSpace2 a b) eqn:Hab; [reflexivity |].
    simpl. now rewrite Ha, Hab.
  - simpl. destruct (isSpace1 a) eqn:Ha; [exact IHb |].
    destruct (isSpace2 a b) eqn:Hab; [exact IHc |].
    destruct (isSpace3 a b c) eqn:Habc; [exact IHs |].
    simpl. now rewrite Ha, Hab, Habc.
Qed.

Lemma trimLeftSpaceRev_no_space (r : string) :
  rev_starts_with_space (trimLeftSpaceRev r) = false.
Proof.
  induction r as [| a IH0 | a b IH0 IH1 | a b c s IHs IHc IHb] using string_ind3.
  - reflexivity.
  - simpl. destruct (isSpace1 a) eqn:Ha; simpl; [reflexivity | now rewrite Ha].
  - simpl. destruct (isSpace1 a) eqn:Ha; [exact IH1 |].
    destruct (isSpace2 b a) eqn:Hab; [reflexivity |].
    simpl. now rewrite Ha, Hab.
  - simpl. destruct (isSpace1 a) eqn:Ha; [exact IHb |].
    destruct (isSpace2 b a) eqn:Hab; [exact IHc |].
    destruct (isSpace3 c b a) eqn:Habc; [exact IHs |].
    simpl. now rewrite Ha, Hab, Habc.
Qed.

Lemma trimLeftSpaceRev_suffix (r : string) :
  exists pre, r = pre +:+ trimLeftSpaceRev r.
Proof.
  induction r as [| a IH0 | a b IH0 IH1 | a b c s IHs IHc IHb] using string_ind3.
  - now exists "".
  - simpl. destruct (isSpace1 a); [now exists (String a "") | now exists ""].
  - destruct IH1 as [pre Hpre]. simpl in *. destruct (isSpace1 a).
    + exists (String a pre). now rewrite append_cons, <- Hpre.
    + destruct (isSpace2 b a); [now exists (String a (String b "")) | now exists ""].
  - destruct IHs as [pre1 Hpre1], IHc as [pre2 Hpre2], IHb as [pre3 Hpre3].
    simpl in *. destruct (isSpace1 a).
    + exists (String a pre3). now rewrite append_cons, <- Hpre3.
    + destruct (isSpace2 b a).
      * exists (String a (String b pre2)). now rewrite !append_cons, <- Hpre2.
      * destruct (isSpace3 c b a).
        -- exists (String a (String b (String c pre1))).
           now rewrite !append_cons, <- Hpre1.
        -- now exists "".
Qed.

Lemma TrimRightSpace_prefix (s : string) :
  exists post, s = TrimRightSpace s +:+ post.
Proof.
  destruct (trimLeftSpaceRev_suffix (rev s)) as [pre Hpre].
  exists (rev pre). unfold TrimRightSpace.
  rewrite <- rev_app, <- Hpre. symmetry. apply rev_involutive.
Qed.

Lemma TrimLeftSpace_suffix (s : string) :
  exists pre, s = pre +:+ TrimLeftSpace s.
Proof.
  induction s as [| a IH0 | a b IH0 IH1 | a b c s IHs IHc IHb] using string_ind3.
  - now exists "".
  - simpl. destruct (isSpace1 a); [now exists (String a "") | now exists ""].
  - destruct IH1 as [pre Hpre]. simpl in *. destruct (isSpace1 a).
    + exists (String a pre). now rewrite append_cons, <- Hpre.
    + destruct (isSpace2 a b); [now exists (String a (String b "")) | now exists ""].
  - destruct IHs as [pre1 Hpre1], IHc as [pre2 Hpre2], IHb as [pre3 Hpre3].
    simpl in *. destruct (isSpace1 a).
    + exists (String a pre3). now rewrite append_cons, <- Hpre3.
    + destruct (isSpace2 a b).
      * exists (String a (String b pre2)). now rewrite !append_cons, <- Hpre2.
      * destruct (isSpace3 a b c).
        -- exists (String a (String b (String c pre1))).
           now rewrite !append_cons, <- Hpre1.
        -- now exists "".
Qed.

(** Trimming takes bytes away at the two ends only. *)
Lemma TrimSpace_infix (s : string) :
  exists pre post, s = pre +:+ TrimSpace s +:+ post.
Proof.
  destruct (TrimLeftSpace_suffix s) as [pre Hpre].
  destruct (TrimRightSpace_prefix (TrimLeftSpace s)) as [post Hpost].
  exists pre, post. unfold TrimSpace. now rewrite <- Hpost.
Qed.

Lemma starts_with_space_app (p z : string) :
  starts_with_space p = true -> starts_with_space (p +:+ z) = true.
Proof.
  destruct p as [| a [| b [| c p]]]; try discriminate;
    rewrite ?append_cons, ?append_nil; simpl.
  - rewrite orb_false_r. now intros ->.
  - rewrite orb_false_r. intros Hp.
    apply orb_prop in Hp as [-> | ->]; [reflexivity |].
    rewrite orb_true_r. now destruct z; rewrite ?orb_true_r.
  - now intros ->.
Qed.

Lemma TrimSpace_trimmed (s : string) :
  starts_with_space (TrimSpace s) = false /\ ends_with_space (TrimSpace s) = false.
Proof.
  unfold TrimSpace. split.
  - destruct (TrimRightSpace_prefix (TrimLeftSpace s)) as [post Hpost].
    destruct (starts_with_space (TrimRightSpace (TrimLeftSpace s))) eqn:Hs;
      [| reflexivity].
    apply (starts_with_space_app _ post) in Hs. rewrite <- Hpost in Hs.
    now rewrite TrimLeftSpace_no_space in Hs.
  - unfold ends_with_space, TrimRightSpace. rewrite rev_involutive.
    apply trimLeftSpaceRev_no_space.
Qed.

Lemma TrimLeftSpace_fixed (s : string) :
  starts_with_space s = false -> TrimLeftSpace s = s.
Proof.
  destruct s as [| a [| b [| c s]]]; simpl; try reflexivity.
  - rewrite orb_false_r. now intros ->.
  - rewrite orb_false_r. intros Hs. apply orb_false_elim in Hs as [-> ->]. reflexivity.
  - intros Hs. apply orb_false_elim in Hs as [-> Hs].
    apply orb_false_elim in Hs as [-> ->]. reflexivity.
Qed.

Lemma trimLeftSpaceRev_fixed (r : string) :
  rev_starts_with_space r = false -> trimLeftSpaceRev r = r.
Proof.
  destruct r as [| a [| b [| c s]]]; simpl; try reflexivity.
  - rewrite orb_false_r. now intros ->.
  - rewrite orb_false_r. intros Hs. apply orb_false_elim in Hs as [-> ->]. reflexivity.
  - intros Hs. apply orb_false_elim in Hs as [-> Hs].
    apply orb_false_elim in Hs as [-> ->]. reflexivity.
Qed.

Lemma TrimSpace_fixed (s : string) :
  starts_with_space s = false -> ends_with_space s = false -> TrimSpace s = s.
Proof.
  intros Hl Hr. unfold TrimSpace, TrimRightSpace.
  rewrite (TrimLeftSpace_fixed _ Hl), (trimLeftSpaceRev_fixed _ Hr).
  apply rev_involutive.
Qed.

Lemma fold_append_app (l1 l2 : list string) :
  fold_right String.append "" (l1 ++ l2)
  = fold_right String.append "" l1 +:+ fold_right String.append "" l2.
Proof.
  induction l1 as [| x l1 IH]; simpl; [reflexivity |].
  rewrite IH. symmetry. apply append_assoc.
Qed.

Lemma kept_node type data attr children :
  kept (mkNode type data attr children)
  = (if NodeType_eqb type TextNode then data
     else if NodeType_eqb type ElementNode && (data =? "br") then "<br>"
     else "").
Proof.
  unfold kept. simpl. destruct type; reflexivity.
Qed.

(** Tags go, text stays, a line break is written [<br>]. *)
Lemma cleanHTMLContent_f_strip_tags (doc : Node) :
  cleanHTMLContent_f doc = strip_tags doc.
Proof.
  induction doc as [type data attr children IH] using Node_ind_children.
  unfold strip_tags. simpl preorder. simpl map. simpl fold_right.
  rewrite kept_node. simpl cleanHTMLContent_f. f_equal.
  induction IH as [| c r Hc _ IHr]; simpl; [reflexivity |].
  rewrite map_app, fold_append_app, Hc, IHr. reflexivity.
Qed.



Lemma collapse_go_normal (s : string) :
  forall in_run,
    ws_normal (collapse_go in_run s) = true
    /\ (in_run = true ->
        match collapse_go in_run s with
        | String d _ => is_s d = false
        | EmptyString => True
        end).
Proof.
  induction s as [| c s IH]; intros in_run; simpl; [now split |].
  destruct (is_s c) eqn:Hc.
  - destruct in_run.
    + apply IH.
    + split; [| discriminate]. simpl.
      destruct (IH true) as [Hn Hhead]. rewrite Hn.
      specialize (Hhead eq_refl).
      destruct (collapse_go true s); [reflexivity |]. now rewrite Hhead.
  - simpl. split; [| intros _; exact Hc].
    rewrite Hc. simpl. apply IH.
Qed.





Lemma collapse_go_fixed (s : string) :
  ws_normal s = true ->
  collapse_go false s = s
  /\ (match s with String d _ => is_s d = false | EmptyString => True end ->
      collapse_go true s = s).
Proof.
  induction s as [| c s IH]; simpl; [now split |].
  intros Hn. apply andb_prop in Hn as [Hc Hs]. destruct (IH Hs) as [IHf IHt].
  destruct (is_s c) eqn:Hws.
  - apply andb_prop in Hc as [Hsp Hnext]. apply Ascii.eqb_eq in Hsp. subst c.
    split; [| discriminate]. f_equal. apply IHt.
    destruct s; [exact I |]. now apply negb_true_iff in Hnext.
  - split; [now rewrite IHf | intros _; now rewrite IHf].
Qed.

Lemma space_after_colon_fixed (s : string) :
  colon_spaced s = true -> space_after_colon s = s.
Proof.
  induction s as [| c s IH]; simpl; [reflexivity |].
  intros Hn. apply andb_prop in Hn as [Hc Hs].
  destruct (Ascii.eqb c ":").
  - destruct s as [| d s]; [reflexivity |]. rewrite Hc. now rewrite (IH Hs).
  - now rewrite (IH Hs).
Qed.

Lemma replace_go_fixed (old new s : string) :
  Contains s old = false -> replace_go old new 0 s = s.
Proof.
  induction s as [| c s IH]; [reflexivity |].
  intros Hc. simpl in Hc. apply orb_false_elim in Hc as [Hp Hc].
  simpl. simpl in Hp. rewrite Hp. now rewrite (IH Hc).
Qed.

Context {L : GoLib}.
Variable profileName : string.


(** C8, as amended: text that is clean already is a fixed point, and the
    normalization is idempotent on the inputs whose output is such a text:
    under a profile other than [teams] and [replies], let [t] be a text that
    the parser gives back as it is, whose white space is single spaces,
    where a white space byte follows every colon inside it and [??] does not
    occur.  If [t] neither starts nor ends with white space, it is returned
    unchanged; and if [t] is the output for some input, a second pass
    returns it unchanged. *)
Theorem cleanHTMLContent_fixed_point (t : string) (doc : Node) :
  isChatProfile profileName = false ->
  html_Parse t = Ok doc ->
  strip_tags doc = t ->
  ws_normal t = true ->
  colon_spaced t = true ->
  Contains t "??" = false ->
  (starts_with_space t = false -> ends_with_space t = false ->
   cleanHTMLContent profileName t = t)
  /\ (forall s, cleanHTMLContent profileName s = t ->
                cleanHTMLContent profileName (cleanHTMLContent profileName s)
                = cleanHTMLContent profileName s).
Proof.
  intros Hchat Hparse Htext Hws Hcolon Hq.
  assert (Hfix : starts_with_space t = false -> ends_with_space t = false ->
                 cleanHTMLContent profileName t = t).
  { intros Hstart Hend. pose proof (TrimSpace_fixed _ Hstart Hend) as Htrim.
    unfold cleanHTMLContent.
    rewrite Hchat, Hparse, cleanHTMLContent_f_strip_tags, Htext.
    unfold replace_spaces. rewrite (proj1 (collapse_go_fixed _ Hws)).
    rewrite (space_after_colon_fixed _ Hcolon).
    unfold ReplaceAll. rewrite (replace_go_fixed _ _ _ Hq). exact Htrim. }
  split; [exact Hfix |].
  intros s Hs. rewrite Hs. apply Hfix.
  - rewrite <- Hs. unfold cleanHTMLContent. rewrite Hchat.
    destruct (html_Parse s) as [d | e] eqn:Hps.
    + apply TrimSpace_trimmed.
    + exfalso. unfold cleanHTMLContent in Hs. rewrite Hchat, Hps in Hs.
      subst s. congruence.
  - rewrite <- Hs. unfold cleanHTMLContent. rewrite Hchat.
    destruct (html_Parse s) as [d | e] eqn:Hps.
    + apply TrimSpace_trimmed.
    + exfalso. unfold cleanHTMLContent in Hs. rewrite Hchat, Hps in Hs.
      subst s. congruence.
Qed.

End Normalization.



(** The two rewritings between the collapse and the trim, on small texts:
    a colon before a character that is not white space, colons in a row,
    and [??]. *)
Lemma cleanHTMLContent_colons :
  cleanHTMLContent (L := RefLib.lib) "default" "at 10:30:45" = "at 10: 30: 45"
  /\ cleanHTMLContent (L := RefLib.lib) "default" "x:::y" = "x: :: y"
  /\ cleanHTMLContent (L := RefLib.lib) "default" "who?? me" = "who:  me".
Proof.
  split_and!; reflexivity.
Qed.

Lemma cleanHTMLContent_fixed_point_witness :
  (starts_with_space "Name: Alice" = false -> ends_with_space "Name: Alice" = false ->
   cleanHTMLContent (L := RefLib.lib) "default" "Name: Alice" = "Name: Alice")
  /\ (forall s, cleanHTMLContent (L := RefLib.lib) "default" s = "Name: Alice" ->
                cleanHTMLContent (L := RefLib.lib) "default"
                  (cleanHTMLContent (L := RefLib.lib) "default" s)
                = cleanHTMLContent (L := RefLib.lib) "default" s).
Proof.
  apply (@cleanHTMLContent_fixed_point RefLib.lib "default" "Name: Alice"
           (RefLib.document [RefLib.text "Name: Alice"]));
    reflexivity.
Defined.

(** C8, as stated, fails: the output for [a::b] is changed by a second
    pass. *)
Lemma cleanHTMLContent_not_idempotent :
  cleanHTMLContent (L := RefLib.lib) "default" "a::b" = "a: :b"
  /\ cleanHTMLContent (L := RefLib.lib) "default"
       (cleanHTMLContent (L := RefLib.lib) "default" "a::b") = "a: : b".
Proof.
  split; reflexivity.
Qed.

(** ** Files (4.F) *)

Section Files.
Import GoStrings GoRegexp.

Context {L : GoLib}.
Variable config : Config.
Variable profileName : string.

Lemma decodeMembers_no_match members :
  Forall (fun kv => fieldMatches (fst kv) "value" = false) members ->
  forall Value, decodeMembers members Value = Ok Value.
Proof.
  induction 1 as [| [k v] rest Hk _ IH]; intros Value; simpl; [reflexivity |].
  simpl in Hk. rewrite Hk. apply IH.
Qed.

(** C10, as amended: a file whose content is a JSON object with no member
    that [encoding/json] takes for the field [value], that is no key equal
    to it with the case of the letters set aside, gives no row and no error,
    nothing on the error channel, as a file does whose [value] is an empty
    array. *)
Theorem file_without_value_gives_nothing fs filePath profile data members :
  decodeFileContent fs filePath = Ok data ->
  json_Parse data = Ok (JObject members) ->
  Forall (fun kv => fieldMatches (fst kv) "value" = false) members ->
  processJSONFile config profileName fs filePath profile = (Ok [], [])
  /\ worker config profileName fs [filePath] profile = ([], [], [])
  /\ decodeMembers members [] = decodeMembers (members ++ [("value", JArray [])]) [].
Proof.
  intros Hfile Hparse Hkeys.
  assert (Hfile' : processJSONFile config profileName fs filePath profile = (Ok [], [])).
  { unfold processJSONFile, json_Unmarshal. rewrite Hfile, Hparse. simpl.
    now rewrite (decodeMembers_no_match _ Hkeys). }
  split; [exact Hfile' | split].
  - simpl. now rewrite Hfile'.
  - rewrite (decodeMembers_no_match _ Hkeys).
    clear Hparse. induction Hkeys as [| [k v] rest Hk _ IH]; simpl; [reflexivity |].
    simpl in Hk. now rewrite Hk.
Qed.

End Files.

Lemma file_without_value_gives_nothing_witness :
  processJSONFile (L := RefLib.lib) Examples.config_empty "default"
    {["in.json" := Examples.file_other]} "in.json" Examples.profile_json = (Ok [], [])
  /\ worker (L := RefLib.lib) Examples.config_empty "default"
       {["in.json" := Examples.file_other]} ["in.json"] Examples.profile_json
     = ([], [], [])
  /\ decodeMembers [("count", JNumber "0")] []
     = decodeMembers ([("count", JNumber "0")] ++ [("value", JArray [])]) [].
Proof.
  apply (@file_without_value_gives_nothing RefLib.lib Examples.config_empty "default"
           {["in.json" := Examples.file_other]} "in.json" Examples.profile_json
           Examples.file_other [("count", JNumber "0")]).
  - reflexivity.
  - reflexivity.
  - repeat constructor.
Defined.

(** C10, as stated, fails: the object of this file has no key [value], its
    key [Value] is decoded into the field all the same, and the file gives a
    row. *)
Lemma file_with_capital_Value_gives_a_row :
  exists members,
    json_Parse (GoLib := RefLib.lib) Examples.file_Value = Ok (JObject members)
    /\ map_lookup "value" members = None
    /\ fst (processJSONFile (L := RefLib.lib) Examples.config_empty "default"
              {["in.json" := Examples.file_Value]} "in.json" Examples.profile_json)
       = Ok [["X1"; ""]].
Proof.
  eexists. split; [reflexivity | split; reflexivity].
Qed.

(** * Further properties of the program

    ** Facts about the [strings] functions the program calls *)

Section StringFacts.
Import GoStrings GoRegexp.

Lemma string_length_app (a b : string) :
  String.length (a +:+ b) = (String.length a + String.length b)%nat.
Proof.
  induction a as [| x a IH]; [reflexivity |].
  rewrite append_cons. simpl. now rewrite IH.
Qed.

Lemma HasPrefix_nil (s : string) : HasPrefix s "" = true.
Proof. destruct s; reflexivity. Qed.

Lemma HasPrefix_app (p t : string) : HasPrefix (p +:+ t) p = true.
Proof.
  induction p as [| x p IH]; [apply HasPrefix_nil |].
  rewrite append_cons. simpl. now rewrite Ascii.eqb_refl.
Qed.

Lemma HasPrefix_split (s p : string) :
  HasPrefix s p = true -> s = p +:+ drop (String.length p) s.
Proof.
  revert s. induction p as [| x p IH]; intros s Hp; [reflexivity |].
  destruct s as [| c s]; [discriminate |]. simpl in Hp.
  destruct (Ascii.eqb_spec c x) as [-> |]; [| discriminate].
  rewrite append_cons. simpl. now rewrite <- (IH s Hp).
Qed.

Lemma HasPrefix_app_l (s p z : string) :
  HasPrefix s p = true -> HasPrefix (s +:+ z) p = true.
Proof.
  intros Hp. rewrite (HasPrefix_split _ _ Hp), append_assoc. apply HasPrefix_app.
Qed.

Lemma string_drop_app (a b : string) : drop (String.length a) (a +:+ b) = b.
Proof.
  induction a as [| x a IH]; [now destruct b |].
  rewrite append_cons. simpl. exact IH.
Qed.

Lemma string_take_app (a b : string) : take (String.length a) (a +:+ b) = a.
Proof.
  induction a as [| x a IH]; [now destruct b |].
  rewrite append_cons. simpl. now rewrite IH.
Qed.

Lemma string_take_drop (n : nat) (s : string) : take n s +:+ drop n s = s.
Proof.
  revert s. induction n as [| n IH]; intros s; [reflexivity |].
  destruct s as [| c s]; [reflexivity |]. simpl. rewrite append_cons. now rewrite IH.
Qed.

Lemma string_drop_drop (n m : nat) (s : string) : drop n (drop m s) = drop (m + n) s.
Proof.
  revert s. induction m as [| m IH]; intros s; [reflexivity |].
  destruct s as [| c s]; simpl; [now destruct n | apply IH].
Qed.

Lemma Contains_here (s t : string) : HasPrefix s t = true -> Contains s t = true.
Proof. intros Hp. destruct s; simpl in *; now rewrite Hp. Qed.

Lemma Contains_cons (c : ascii) (s t : string) :
  Contains s t = true -> Contains (String c s) t = true.
Proof. intros Hc. simpl. rewrite Hc. apply orb_true_r. Qed.

Lemma Contains_app_r (pre x t : string) :
  Contains x t = true -> Contains (pre +:+ x) t = true.
Proof.
  intros Hc. induction pre as [| c pre IH]; [exact Hc |].
  rewrite append_cons. now apply Contains_cons.
Qed.

Lemma Contains_app_l (x post t : string) :
  Contains x t = true -> Contains (x +:+ post) t = true.
Proof.
  induction x as [| c x IH]; intros Hc.
  - simpl in Hc. rewrite orb_false_r in Hc.
    apply Contains_here. now apply (HasPrefix_app_l "" t post).
  - simpl in Hc. apply orb_prop in Hc as [Hp | Hc].
    + apply Contains_here. now apply HasPrefix_app_l.
    + rewrite append_cons. apply Contains_cons. now apply IH.
Qed.

(** A string that has no occurrence of [t] has none in any part of it. *)
Lemma Contains_infix (pre x post t : string) :
  Contains (pre +:+ x +:+ post) t = false -> Contains x t = false.
Proof.
  intros Hn. destruct (Contains x t) eqn:Hc; [| reflexivity].
  rewrite (Contains_app_r pre _ t (Contains_app_l x post t Hc)) in Hn. discriminate.
Qed.

Lemma Index_None (s t : string) : Index s t = None <-> Contains s t = false.
Proof.
  induction s as [| c s IH]; simpl.
  - destruct (HasPrefix "" t); simpl; split; congruence.
  - destruct (HasPrefix (String c s) t); simpl; [split; discriminate |].
    rewrite <- IH. destruct (Index s t); simpl; split; congruence.
Qed.

(** [strings.Index] gives the first occurrence: the string splits there, and
    what is before it has no occurrence, when [t] is not empty. *)
Lemma Index_Some (s t : string) (i : nat) :
  Index s t = Some i ->
  s = take i s +:+ t +:+ drop (i + String.length t) s
  /\ (t <> "" -> Contains (take i s) t = false).
Proof.
  revert i. induction s as [| c s IH]; intros i; simpl.
  - destruct (HasPrefix "" t) eqn:Hp; [| discriminate].
    intros [= <-]. split; [now apply HasPrefix_split in Hp |].
    intros Ht. destruct t; [contradiction | discriminate].
  - destruct (HasPrefix (String c s) t) eqn:Hp.
    + intros [= <-]. split; [now apply HasPrefix_split in Hp |].
      intros Ht. destruct t; [contradiction | reflexivity].
    + destruct (Index s t) as [j |] eqn:Hj; [| discriminate].
      intros [= <-]. destruct (IH j eq_refl) as [Hsplit Hmin]. split.
      * simpl. rewrite append_cons. now rewrite <- Hsplit.
      * intros Ht. specialize (Hmin Ht).
        change (take (S j) (String c s)) with (String c (take j s)).
        simpl. rewrite Hmin, orb_false_r.
        destruct (HasPrefix (String c (take j s)) t) eqn:Hq; [| reflexivity].
        apply (HasPrefix_app_l _ _ (drop j s)) in Hq.
        rewrite append_cons, string_take_drop in Hq. congruence.
Qed.

Lemma split_go_nonempty (sep : string) (s : string) :
  forall skip cur, split_go sep skip cur s <> [].
Proof.
  induction s as [| c s IH]; intros skip cur; simpl; [discriminate |].
  destruct skip; [| apply IH].
  destruct (HasPrefix (String c s) sep); [discriminate | apply IH].
Qed.

Lemma Join_cons (e : string) (rest : list string) (sep : string) :
  rest <> [] -> Join (e :: rest) sep = e +:+ sep +:+ Join rest sep.
Proof. destruct rest; [contradiction | reflexivity]. Qed.

Lemma Join_cons_app (a b : string) (rest : list string) (sep : string) :
  Join ((a +:+ b) :: rest) sep = a +:+ Join (b :: rest) sep.
Proof.
  destruct rest; [reflexivity |].
  rewrite !Join_cons by discriminate. apply append_assoc.
Qed.

(** Replacing the separator is splitting at it and joining the pieces. *)
Lemma Join_split_go (sep new : string) (s : string) :
  forall skip cur,
    Join (split_go sep skip cur s) new = rev cur +:+ replace_go sep new skip s.
Proof.
  induction s as [| c s IH]; intros skip cur; simpl.
  - now rewrite append_nil_r.
  - destruct skip; [| apply IH].
    destruct (HasPrefix (String c s) sep).
    + rewrite Join_cons by apply split_go_nonempty. now rewrite IH.
    + rewrite IH, rev_cons, append_assoc. reflexivity.
Qed.

Lemma Join_Split_replace (s sep new : string) :
  Join (Split s sep) new = ReplaceAll s sep new.
Proof. unfold Split, ReplaceAll. now rewrite Join_split_go. Qed.

Lemma replace_go_same (sep : string) (s : string) :
  sep <> "" -> forall skip, replace_go sep sep skip s = drop skip s.
Proof.
  intros Hsep. induction s as [| c s IH]; intros skip; simpl; [now destruct skip |].
  destruct skip; [| apply IH].
  destruct (HasPrefix (String c s) sep) eqn:Hp.
  - rewrite IH. destruct sep as [| x sep]; [contradiction |].
    simpl in Hp. destruct (Ascii.eqb_spec c x) as [-> |]; [| discriminate].
    simpl. rewrite Nat.sub_0_r, append_cons. f_equal.
    symmetry. now apply HasPrefix_split.
  - now rewrite IH.
Qed.

(** The round trip of [Split] and [Join]. *)
Lemma Join_Split (s sep : string) : sep <> "" -> Join (Split s sep) sep = s.
Proof.
  intros Hsep. rewrite Join_Split_replace. unfold ReplaceAll.
  now rewrite replace_go_same.
Qed.

End StringFacts.

(** ** The newline policy and the line-oriented extraction *)

Section Lines.
Import GoStrings GoRegexp.

Context {L : GoLib}.
Variable config : Config.

(** X1: under the policy [remove] the value is cut at every CR LF and the
    pieces are put together again with nothing between them, under [replace]
    with the configured replacement between them; under [keep] and under any
    other setting the value is returned as it is, and so is, under every
    setting, a value in which CR LF does not occur. *)
Theorem handleNewlines_joins_lines (input : string) :
  handleNewlines config input
  = (if NewlineHandling config =? "remove" then Join (Split input CRLF) ""
     else if NewlineHandling config =? "replace"
          then Join (Split input CRLF) (NewlineReplacement config)
          else input)
  /\ (Contains input CRLF = false -> handleNewlines config input = input).
Proof.
  unfold handleNewlines. rewrite !Join_Split_replace. split.
  - destruct (NewlineHandling config =? "keep") eqn:Hk; [| reflexivity].
    apply String.eqb_eq in Hk. now rewrite Hk.
  - intros Hc. unfold ReplaceAll. rewrite !(replace_go_fixed _ _ _ Hc).
    now repeat destruct (_ =? _).
Qed.

Lemma extractValue_lines_trimmed (re : Regexp) (key : string) (extractToEnd : bool)
    (lines : list string) :
  starts_with_space (extractValue_lines re key extractToEnd lines) = false
  /\ ends_with_space (extractValue_lines re key extractToEnd lines) = false.
Proof.
  induction lines as [| line rest IH]; simpl; [now split |].
  destruct (1 <? length (Regexp_FindStringSubmatch re line))%nat; [| exact IH].
  destruct extractToEnd; [| apply TrimSpace_trimmed].
  destruct (Index line key); [apply TrimSpace_trimmed | exact IH].
Qed.

Lemma extractValue_lines_cut (re : Regexp) (key : string) (lines : list string) :
  Contains (extractValue_lines re key false lines) "<br" = false.
Proof.
  induction lines as [| line rest IH]; simpl; [reflexivity |].
  destruct (1 <? length (Regexp_FindStringSubmatch re line))%nat; [| exact IH].
  set (matched := TrimSpace (nth 1 (Regexp_FindStringSubmatch re line) "")).
  set (value := match Index matched "<br" with
                | Some brIndex => take brIndex matched
                | None => matched
                end).
  assert (Hcut : Contains value "<br" = false).
  { unfold value. destruct (Index matched "<br") as [brIndex |] eqn:Hbr.
    - apply (Index_Some _ _ _ Hbr). discriminate.
    - now apply Index_None. }
  destruct (TrimSpace_infix value) as (pre & post & Hvalue).
  rewrite Hvalue in Hcut. exact (Contains_infix _ _ _ _ Hcut).
Qed.

Lemma extractValue_lines_rest (re : Regexp) (key : string) (lines : list string) :
  extractValue_lines re key true lines <> "" ->
  exists pre rest,
    Join lines CRLF = pre +:+ key +:+ rest
    /\ extractValue_lines re key true lines = TrimSpace rest.
Proof.
  induction lines as [| line others IH]; [simpl; congruence |].
  cbn [extractValue_lines].
  assert (Hlater : extractValue_lines re key true others <> "" ->
                   exists pre rest,
                     Join (line :: others) CRLF = pre +:+ key +:+ rest
                     /\ extractValue_lines re key true others = TrimSpace rest).
  { intros Hv. destruct (IH Hv) as (pre & rest & Hjoin & Hrest).
    exists (line +:+ CRLF +:+ pre), rest. split; [| exact Hrest].
    rewrite Join_cons by (intros ->; now apply Hv).
    now rewrite Hjoin, !append_assoc. }
  destruct (1 <? length (Regexp_FindStringSubmatch re line))%nat; [| exact Hlater].
  destruct (Index line key) as [keywordIndex |] eqn:Hindex; [| exact Hlater].
  intros _. destruct (Index_Some _ _ _ Hindex) as [Hline _].
  exists (take keywordIndex line),
         (Join (drop (keywordIndex + String.length key) line :: others) CRLF).
  split; [| reflexivity].
  rewrite Hline at 1. now rewrite !Join_cons_app.
Qed.

(** X2: the value that the line-oriented extraction returns neither starts
    nor ends with white space, and without [extract_to_end] the text [<br]
    does not occur in it: the value is cut at the first line break tag. *)
Theorem extractValue_trimmed_and_cut (content key : string) (extractToEnd : bool)
    (value : string) :
  extractValue content key extractToEnd = Ok value ->
  starts_with_space value = false
  /\ ends_with_space value = false
  /\ (extractToEnd = false -> Contains value "<br" = false).
Proof.
  unfold extractValue. destruct (regexp_Compile _) as [re | err]; [| discriminate].
  intros [= <-]. split; [| split].
  - apply extractValue_lines_trimmed.
  - apply extractValue_lines_trimmed.
  - intros ->. apply extractValue_lines_cut.
Qed.

(** X3: with [extract_to_end], a value that is not empty is what follows an
    occurrence of the key in the content, up to the end of the content, the
    line breaks included, with the white space at its two ends trimmed. *)
Theorem extractValue_to_end_is_the_rest (content key value : string) :
  extractValue content key true = Ok value ->
  value <> "" ->
  exists pre rest, content = pre +:+ key +:+ rest /\ value = TrimSpace rest.
Proof.
  unfold extractValue. destruct (regexp_Compile _) as [re | err]; [| discriminate].
  intros [= <-] Hvalue.
  destruct (extractValue_lines_rest _ _ _ Hvalue) as (pre & rest & Hjoin & Hrest).
  exists pre, rest. split; [| exact Hrest].
  rewrite <- Hjoin. symmetry. apply Join_Split. discriminate.
Qed.

End Lines.

Lemma extractValue_trimmed_and_cut_witness :
  extractValue (L := RefLib.lib) "Status: open <br>next" "Status:" false = Ok "open"
  /\ starts_with_space "open" = false
  /\ ends_with_space "open" = false
  /\ (false = false -> GoStrings.Contains "open" "<br" = false).
Proof.
  split; [reflexivity |].
  apply (@extractValue_trimmed_and_cut RefLib.lib "Status: open <br>next" "Status:"
           false "open").
  reflexivity.
Defined.

Lemma extractValue_to_end_is_the_rest_witness :
  extractValue (L := RefLib.lib) ("Id: 7" +:+ CRLF +:+ "Note: a" +:+ CRLF +:+ "b ")
               "Note:" true
  = Ok ("a" +:+ CRLF +:+ "b")
  /\ exists pre rest,
       "Id: 7" +:+ CRLF +:+ "Note: a" +:+ CRLF +:+ "b " = pre +:+ "Note:" +:+ rest
       /\ "a" +:+ CRLF +:+ "b" = GoStrings.TrimSpace rest.
Proof.
  split; [reflexivity |].
  apply (@extractValue_to_end_is_the_rest RefLib.lib
           ("Id: 7" +:+ CRLF +:+ "Note: a" +:+ CRLF +:+ "b ") "Note:"
           ("a" +:+ CRLF +:+ "b"));
    [reflexivity | discriminate].
Defined.

(** ** Labels and tags in an HTML body *)

Section Trimming.
Import GoStrings GoRegexp.

Lemma isSpace2_space (a : ascii) : isSpace2 a " " = false.
Proof. unfold isSpace2. simpl. apply andb_false_r. Qed.

Lemma isSpace3_space (a b : ascii) : isSpace3 a b " " = false.
Proof.
  unfold isSpace3. simpl. now rewrite !andb_false_r.
Qed.

Lemma TrimLeftSpace_app_space (x : string) :
  TrimLeftSpace (x +:+ " ") = TrimLeftSpace x +:+ " "
  \/ (TrimLeftSpace (x +:+ " ") = "" /\ TrimLeftSpace x = "").
Proof.
  induction x as [| a IH0 | a b IH0 IH1 | a b c s IHs IHc IHb] using string_ind3.
  - now right.
  - rewrite append_cons, append_nil. simpl.
    destruct (isSpace1 a); [now right |].
    rewrite isSpace2_space. now left.
  - rewrite !append_cons, append_nil.
    rewrite !append_cons, append_nil in IH1. simpl in *.
    destruct (isSpace1 a); [exact IH1 |].
    destruct (isSpace2 a b); [now right |].
    rewrite isSpace3_space. now left.
  - rewrite !append_cons. rewrite !append_cons in IHb. rewrite append_cons in IHc.
    simpl in *.
    destruct (isSpace1 a); [exact IHb |].
    destruct (isSpace2 a b); [exact IHc |].
    destruct (isSpace3 a b c); [exact IHs |].
    now left.
Qed.

Lemma TrimRightSpace_app_space (y : string) :
  TrimRightSpace (y +:+ " ") = TrimRightSpace y.
Proof.
  unfold TrimRightSpace. now rewrite rev_app.
Qed.

(** A space put after a string is trimmed away with the rest. *)
Lemma TrimSpace_app_space (x : string) : TrimSpace (x +:+ " ") = TrimSpace x.
Proof.
  unfold TrimSpace.
  destruct (TrimLeftSpace_app_space x) as [-> | [-> ->]]; [| reflexivity].
  apply TrimRightSpace_app_space.
Qed.

End Trimming.

Section Labels.
Import GoStrings GoRegexp.

Context {L : GoLib}.

Lemma containsExact_spec (slice : list string) (item : string) :
  containsExact slice item = true <-> item ∈ slice.
Proof.
  induction slice as [| s rest IH]; simpl.
  - split; [discriminate | intros H; inversion H].
  - rewrite elem_of_cons. destruct (String.eqb_spec s item) as [-> | Hne].
    + split; [now left | reflexivity].
    + rewrite IH. split; [now right | intros [-> | H]; [contradiction | exact H]].
Qed.

(** X4: with [exact_match], a column matches a label exactly when the label
    is, byte for byte, the text of its [regex] or one of its keywords: the
    text is not read as a regular expression and the case of the letters
    counts. *)
Theorem matchColumn_exact (key : string) (column : Column) :
  ExactMatch column = true ->
  matchColumn key column = true <-> key = Regex column \/ key ∈ Keywords column.
Proof.
  intros Hex. unfold matchColumn. rewrite Hex.
  rewrite orb_true_iff, String.eqb_eq, containsExact_spec. reflexivity.
Qed.

Lemma fold_texts (nodes : list Node) (content : string) :
  fold_left (fun content s => content +:+ getNodeText s +:+ " ") nodes content
  = content +:+ fold_right (fun s rest => getNodeText s +:+ " " +:+ rest) "" nodes.
Proof.
  revert content. induction nodes as [| n nodes IH]; intros content; simpl.
  - now rewrite append_nil_r.
  - now rewrite IH, !append_assoc.
Qed.

Lemma texts_joined (nodes : list Node) :
  nodes <> [] ->
  fold_right (fun s rest => getNodeText s +:+ " " +:+ rest) "" nodes
  = Join (map getNodeText nodes) " " +:+ " ".
Proof.
  induction nodes as [| n nodes IH]; [contradiction |]. intros _.
  destruct nodes as [| n' nodes]; [reflexivity |].
  cbn [fold_right map]. rewrite Join_cons by discriminate.
  cbn [fold_right map] in IH. rewrite IH by discriminate.
  now rewrite !append_assoc.
Qed.

(** X5: the content of a tag is the texts of the elements that the selector
    finds, in document order, with one space between them, trimmed at both
    ends; it is empty when the selector finds nothing. *)
Theorem extractTagContent_joined (doc : Node) (tagName : string) :
  extractTagContent doc tagName
  = TrimSpace (Join (map getNodeText (goquery_Find doc tagName)) " ")
  /\ (goquery_Find doc tagName = [] -> extractTagContent doc tagName = "").
Proof.
  unfold extractTagContent. rewrite fold_texts, append_nil. split.
  - destruct (goquery_Find doc tagName) as [| n nodes] eqn:Hfind; [reflexivity |].
    rewrite texts_joined by discriminate. apply TrimSpace_app_space.
  - now intros ->.
Qed.

End Labels.

Lemma matchColumn_exact_witness :
  matchColumn (L := RefLib.lib) "Name" (Examples.label_column "Name" "N.*" ["Name"] true)
  = true <->
  "Name" = Regex (Examples.label_column "Name" "N.*" ["Name"] true)
  \/ "Name" ∈ Keywords (Examples.label_column "Name" "N.*" ["Name"] true).
Proof.
  apply (@matchColumn_exact RefLib.lib "Name"
           (Examples.label_column "Name" "N.*" ["Name"] true)).
  reflexivity.
Defined.

Section Harvest.
Import GoStrings GoRegexp.

Context {L : GoLib}.

Lemma scanContents_plain (nodes : list Node) :
  Forall (fun n => NodeName n <> "strong") nodes ->
  forall currentKey currentValue keyValuePairs,
    scanContents nodes currentKey currentValue keyValuePairs
    = (currentKey,
       currentValue +:+ fold_right String.append "" (map getNodeText nodes),
       keyValuePairs).
Proof.
  induction 1 as [| n nodes Hn _ IH]; intros currentKey currentValue keyValuePairs.
  - simpl. now rewrite append_nil_r.
  - cbn [scanContents]. apply String.eqb_neq in Hn. rewrite Hn.
    rewrite IH. cbn [map fold_right]. now rewrite append_assoc.
Qed.

Lemma scanContents_app (before after : list Node) :
  Forall (fun n => NodeName n <> "strong") before ->
  forall currentKey currentValue keyValuePairs,
    scanContents (before ++ after) currentKey currentValue keyValuePairs
    = scanContents after currentKey
        (currentValue +:+ fold_right String.append "" (map getNodeText before))
        keyValuePairs.
Proof.
  induction 1 as [| n nodes Hn _ IH]; intros currentKey currentValue keyValuePairs.
  - simpl. now rewrite append_nil_r.
  - cbn [app scanContents]. apply String.eqb_neq in Hn. rewrite Hn.
    rewrite IH. cbn [map fold_right]. now rewrite append_assoc.
Qed.

(** A paragraph without a label leaves the pairs as they are. *)
Lemma scanParagraph_no_label (keyValuePairs : gmap string string) (s : Node) :
  Forall (fun n => NodeName n <> "strong") (Node_Children s) ->
  scanParagraph keyValuePairs s = keyValuePairs.
Proof.
  intros Hplain. unfold scanParagraph. now rewrite (scanContents_plain _ Hplain).
Qed.

(** X6: a paragraph with one label, a [strong] element among its children,
    gives one pair: the key is the text of the label, trimmed and without a
    colon at its end, and the value is the text of all the other children,
    those before the label as well as those after it, trimmed.  A label whose
    key is empty gives no pair. *)
Theorem scanParagraph_one_label (keyValuePairs : gmap string string) (s : Node)
    (before after : list Node) (label : Node) :
  Node_Children s = before ++ label :: after ->
  NodeName label = "strong" ->
  Forall (fun n => NodeName n <> "strong") before ->
  Forall (fun n => NodeName n <> "strong") after ->
  scanParagraph keyValuePairs s
  = let key := TrimSuffix (TrimSpace (getNodeText label)) ":" in
    let value := TrimSpace (fold_right String.append ""
                              (map getNodeText (before ++ after))) in
    if key =? "" then keyValuePairs else <[key := value]> keyValuePairs.
Proof.
  intros Hchildren Hlabel Hbefore Hafter. unfold scanParagraph.
  rewrite Hchildren, (scanContents_app _ _ Hbefore). cbn [scanContents].
  rewrite Hlabel. simpl (_ =? _). cbv iota. simpl (negb _). cbv iota.
  rewrite (scanContents_plain _ Hafter), append_nil.
  rewrite map_app, fold_append_app.
  now destruct (TrimSuffix (TrimSpace (getNodeText label)) ":" =? "").
Qed.

Lemma scanContents_pairs (P : string -> string -> Prop) (nodes : list Node) :
  (forall key value, key <> "" -> P key (TrimSpace value)) ->
  forall currentKey currentValue keyValuePairs,
    map_Forall P keyValuePairs ->
    map_Forall P (scanContents nodes currentKey currentValue keyValuePairs).2.
Proof.
  intros HP. induction nodes as [| n nodes IH];
    intros currentKey currentValue keyValuePairs Hm; [exact Hm |].
  cbn [scanContents]. destruct (NodeName n =? "strong"); [| now apply IH].
  destruct (String.eqb_spec currentKey "") as [-> | Hkey]; simpl; apply IH;
    [exact Hm |].
  apply map_Forall_insert_2; [now apply HP | exact Hm].
Qed.

Lemma scanParagraph_pairs (P : string -> string -> Prop)
    (keyValuePairs : gmap string string) (s : Node) :
  (forall key value, key <> "" -> P key (TrimSpace value)) ->
  map_Forall P keyValuePairs -> map_Forall P (scanParagraph keyValuePairs s).
Proof.
  intros HP Hm. unfold scanParagraph.
  pose proof (scanContents_pairs P (Node_Children s) HP "" "" keyValuePairs Hm) as Hs.
  destruct (scanContents (Node_Children s) "" "" keyValuePairs)
    as [[currentKey currentValue] pairs]. simpl in Hs.
  destruct (String.eqb_spec currentKey "") as [-> | Hkey]; simpl; [exact Hs |].
  apply map_Forall_insert_2; [now apply HP | exact Hs].
Qed.

Lemma harvest_pairs (P : string -> string -> Prop) (doc : Node) :
  (forall key value, key <> "" -> P key (TrimSpace value)) ->
  map_Forall P (harvest doc).
Proof.
  intros HP. unfold harvest.
  assert (Hfold : forall paragraphs m, map_Forall P m ->
                    map_Forall P (fold_left scanParagraph paragraphs m)).
  { induction paragraphs as [| s paragraphs IH]; intros m Hm; [exact Hm |].
    simpl. apply IH. now apply scanParagraph_pairs. }
  apply Hfold, map_Forall_empty.
Qed.

(** X7: no pair that the paragraphs of a document give has the empty
    key, and the value of every pair is trimmed: it neither starts nor ends
    with white space. *)
Theorem harvest_keys_and_values (doc : Node) (key value : string) :
  harvest doc !! key = Some value ->
  key <> "" /\ starts_with_space value = false /\ ends_with_space value = false.
Proof.
  apply (harvest_pairs
           (fun key value => key <> "" /\ starts_with_space value = false
                             /\ ends_with_space value = false)).
  intros k v Hk. split; [exact Hk | apply TrimSpace_trimmed].
Qed.

Lemma find_unique {A : Type} (p : A -> bool) (l : list A) (x : A) :
  x ∈ l -> p x = true -> (forall y, y ∈ l -> p y = true -> y = x) ->
  find p l = Some x.
Proof.
  induction l as [| a l IH]; intros Hin Hx Huniq; [inversion Hin |].
  simpl. destruct (p a) eqn:Ha.
  - f_equal. apply Huniq; [left | exact Ha].
  - apply IH; [| exact Hx | intros y Hy; apply Huniq; now right].
    apply elem_of_cons in Hin as [-> | Hin]; [congruence | exact Hin].
Qed.

Lemma find_nothing {A : Type} (p : A -> bool) (l : list A) :
  (forall y, y ∈ l -> p y = false) -> find p l = None.
Proof.
  induction l as [| a l IH]; intros Hnone; [reflexivity |].
  simpl. rewrite (Hnone a) by left. apply IH. intros y Hy. apply Hnone. now right.
Qed.

Lemma find_elem {A : Type} (p : A -> bool) (l : list A) (x : A) :
  find p l = Some x -> x ∈ l /\ p x = true.
Proof.
  intros Hf. apply find_some in Hf as [Hin Hp]. split; [| exact Hp].
  now apply list_elem_of_In.
Qed.

Lemma range_order_elem (i : nat) (m : gmap string string) (key value : string) :
  (key, value) ∈ range_order i (map_to_list m) <-> m !! key = Some value.
Proof.
  rewrite (range_order_perm i (map_to_list m)). apply elem_of_map_to_list.
Qed.

Lemma assignColumns_other (doc : Node) (keyValuePairs : gmap string string)
    (columns : list Column) (name : string) :
  name ∉ map ColumnName columns ->
  forall i results,
    assignColumns doc keyValuePairs i columns results !! name = results !! name.
Proof.
  induction columns as [| column rest IH]; intros Hname i results; [reflexivity |].
  cbn [map] in Hname. apply not_elem_of_cons in Hname as [Hne Hrest].
  cbn [assignColumns]. rewrite (IH Hrest).
  destruct (negb (Tag column =? "")); [now rewrite lookup_insert_ne |].
  destruct (find _ _); [now rewrite lookup_insert_ne | reflexivity].
Qed.

Lemma assignColumns_column (doc : Node) (keyValuePairs : gmap string string)
    (columns : list Column) (column : Column) :
  NoDup (map ColumnName columns) ->
  column ∈ columns ->
  forall i results,
  exists j,
    assignColumns doc keyValuePairs i columns results !! ColumnName column
    = if negb (Tag column =? "")
      then Some (extractTagContent doc (Tag column))
      else match find (fun kv => matchColumn (fst kv) column)
                      (range_order j (map_to_list keyValuePairs)) with
           | Some kv => Some (snd kv)
           | None => results !! ColumnName column
           end.
Proof.
  induction columns as [| first rest IH]; intros Hnodup Hin i results;
    [inversion Hin |].
  cbn [map] in Hnodup. apply NoDup_cons in Hnodup as [Hfirst Hnodup].
  apply elem_of_cons in Hin as [-> | Hin].
  - exists i. cbn [assignColumns]. rewrite (assignColumns_other _ _ _ _ Hfirst).
    destruct (negb (Tag first =? "")); [now rewrite lookup_insert_eq |].
    destruct (find _ _); [now rewrite lookup_insert_eq | reflexivity].
  - assert (Hne : ColumnName first <> ColumnName column).
    { intros Heq. apply Hfirst. rewrite Heq.
      apply list_elem_of_fmap. now exists column. }
    cbn [assignColumns].
    destruct (IH Hnodup Hin (S i)
                (if negb (Tag first =? "")
                 then <[ColumnName first := extractTagContent doc (Tag first)]> results
                 else match find (fun kv => matchColumn (fst kv) first)
                                 (range_order i (map_to_list keyValuePairs)) with
                      | Some kv => <[ColumnName first := snd kv]> results
                      | None => results
                      end)) as [j Hj].
    exists j. rewrite Hj.
    destruct (negb (Tag column =? "")); [reflexivity |].
    destruct (find (fun kv => matchColumn (fst kv) column) _); [reflexivity |].
    destruct (negb (Tag first =? "")); [now rewrite lookup_insert_ne |].
    destruct (find _ _); [now rewrite lookup_insert_ne | reflexivity].
Qed.

Lemma assignColumns_entries (P : string -> string -> Prop) (doc : Node)
    (keyValuePairs : gmap string string) (columns : list Column) :
  (forall column, column ∈ columns ->
     P (ColumnName column) (extractTagContent doc (Tag column))
     /\ forall key value, keyValuePairs !! key = Some value ->
                          P (ColumnName column) value) ->
  forall i results,
    map_Forall P results ->
    map_Forall P (assignColumns doc keyValuePairs i columns results).
Proof.
  induction columns as [| column rest IH]; intros HP i results Hm; [exact Hm |].
  cbn [assignColumns]. apply IH; [intros c Hc; apply HP; now right |].
  destruct (HP column) as [Htag Hpair]; [left |].
  destruct (negb (Tag column =? "")); [now apply map_Forall_insert_2 |].
  destruct (find _ _) as [[key value] |] eqn:Hfind; [| exact Hm].
  apply find_elem in Hfind as [Hin _]. apply range_order_elem in Hin.
  apply map_Forall_insert_2; [now apply (Hpair key) | exact Hm].
Qed.

(** X8: every entry of the map that [extractHTMLValues] returns is for the
    name of a column of the profile, and its value is trimmed: it neither
    starts nor ends with white space. *)
Theorem extractHTMLValues_entries (content : string) (columns : list Column)
    (results : gmap string string) (name value : string) :
  fst (extractHTMLValues content columns) = Ok results ->
  results !! name = Some value ->
  (exists column, column ∈ columns /\ ColumnName column = name)
  /\ starts_with_space value = false
  /\ ends_with_space value = false.
Proof.
  unfold extractHTMLValues. destruct (html_Parse content) as [doc | err];
    [| discriminate].
  intros [= <-].
  apply (assignColumns_entries
           (fun name value =>
              (exists column, column ∈ columns /\ ColumnName column = name)
              /\ starts_with_space value = false
              /\ ends_with_space value = false));
    [| apply map_Forall_empty].
  intros column Hcolumn. split.
  - split; [now exists column | apply TrimSpace_trimmed].
  - intros key v Hv. split; [now exists column |].
    apply (harvest_pairs
             (fun _ value => starts_with_space value = false
                             /\ ends_with_space value = false) doc
             (fun _ value _ => TrimSpace_trimmed value) key v Hv).
Qed.

(** X9: where the names of the columns differ from one another, the map
    holds, for a column that names a tag, the content of that tag; the
    labels of the paragraphs are not consulted for it. *)
Theorem extractHTMLValues_tag_column (content : string) (doc : Node)
    (columns : list Column) (column : Column) :
  html_Parse content = Ok doc ->
  NoDup (map ColumnName columns) ->
  column ∈ columns ->
  Tag column <> "" ->
  exists results,
    fst (extractHTMLValues content columns) = Ok results
    /\ results !! ColumnName column = Some (extractTagContent doc (Tag column)).
Proof.
  intros Hparse Hnodup Hin Htag. unfold extractHTMLValues. rewrite Hparse.
  eexists. split; [reflexivity |].
  destruct (assignColumns_column doc (harvest doc) _ _ Hnodup Hin 0%nat ∅) as [j ->].
  apply String.eqb_neq in Htag. now rewrite Htag.
Qed.

(** X10: where the names of the columns differ from one another, a column
    without a tag gets the value of the one label that it matches, whatever
    the order in which the pairs are visited; and it gets no entry when it
    matches no label. *)
Theorem extractHTMLValues_label_column (content : string) (doc : Node)
    (columns : list Column) (column : Column) :
  html_Parse content = Ok doc ->
  NoDup (map ColumnName columns) ->
  column ∈ columns ->
  Tag column = "" ->
  exists results,
    fst (extractHTMLValues content columns) = Ok results
    /\ (forall key value,
          harvest doc !! key = Some value ->
          matchColumn key column = true ->
          (forall key', is_Some (harvest doc !! key') ->
                        matchColumn key' column = true -> key' = key) ->
          results !! ColumnName column = Some value)
    /\ ((forall key, is_Some (harvest doc !! key) -> matchColumn key column = false) ->
        results !! ColumnName column = None).
Proof.
  intros Hparse Hnodup Hin Htag. unfold extractHTMLValues. rewrite Hparse.
  eexists. split; [reflexivity |].
  destruct (assignColumns_column doc (harvest doc) _ _ Hnodup Hin 0%nat ∅) as [j ->].
  rewrite Htag. simpl (negb _). cbv iota. split.
  - intros key value Hpair Hmatch Huniq.
    rewrite (find_unique _ _ (key, value)); [reflexivity | | exact Hmatch |].
    + now apply range_order_elem.
    + intros [key' value'] Hin' Hmatch'. apply range_order_elem in Hin'.
      simpl in Hmatch'. assert (key' = key) as -> by (apply Huniq; eauto).
      congruence.
  - intros Hnone. rewrite find_nothing; [apply lookup_empty |].
    intros [key value] Hin'. apply range_order_elem in Hin'. simpl.
    apply Hnone. eauto.
Qed.

End Harvest.

Lemma scanParagraph_one_label_witness :
  scanParagraph ∅
    (RefLib.element "p"
       [RefLib.text "Re "; RefLib.element "strong" [RefLib.text "Name:"];
        RefLib.text " Alice "])
  = {["Name" := "Re  Alice"]}.
Proof.
  rewrite (scanParagraph_one_label ∅ _ [RefLib.text "Re "] [RefLib.text " Alice "]
             (RefLib.element "strong" [RefLib.text "Name:"])).
  - reflexivity.
  - reflexivity.
  - reflexivity.
  - repeat constructor. discriminate.
  - repeat constructor. discriminate.
Defined.

Lemma harvest_keys_and_values_witness :
  harvest (L := RefLib.lib)
    (RefLib.document
       [RefLib.element "p" [RefLib.element "strong" [RefLib.text "Name:"];
                            RefLib.text " Alice"]]) !! "Name" = Some "Alice"
  /\ "Name" <> ""
  /\ starts_with_space "Alice" = false
  /\ ends_with_space "Alice" = false.
Proof.
  split; [reflexivity |].
  apply (@harvest_keys_and_values RefLib.lib
           (RefLib.document
              [RefLib.element "p" [RefLib.element "strong" [RefLib.text "Name:"];
                                   RefLib.text " Alice"]])).
  reflexivity.
Defined.

Lemma extractHTMLValues_entries_witness :
  (exists column,
      column ∈ Columns Examples.profile_html /\ ColumnName column = "Name")
  /\ starts_with_space "Alice" = false
  /\ ends_with_space "Alice" = false.
Proof.
  apply (@extractHTMLValues_entries RefLib.lib
           "<p><strong>Name:</strong> Alice</p>" (Columns Examples.profile_html)
           {["Name" := "Alice"]}).
  - reflexivity.
  - reflexivity.
Defined.

Lemma extractHTMLValues_tag_column_witness :
  exists results,
    fst (extractHTMLValues (L := RefLib.lib) "<h1>Hi</h1>"
           (Columns Examples.profile_tag)) = Ok results
    /\ results !! "Title"
       = Some (extractTagContent (L := RefLib.lib)
                 (RefLib.document [RefLib.element "h1" [RefLib.text "Hi"]]) "h1").
Proof.
  apply (@extractHTMLValues_tag_column RefLib.lib "<h1>Hi</h1>"
           (RefLib.document [RefLib.element "h1" [RefLib.text "Hi"]])
           (Columns Examples.profile_tag) (Examples.tag_column "Title" "h1")).
  - reflexivity.
  - apply NoDup_singleton.
  - left.
  - discriminate.
Defined.

Lemma extractHTMLValues_label_column_witness :
  exists results,
    fst (extractHTMLValues (L := RefLib.lib)
           "<p><strong>Name:</strong> Alice</p><p><strong>Role:</strong> Eng</p>"
           (Columns Examples.profile_html)) = Ok results
    /\ results !! "Role" = Some "Eng".
Proof.
  destruct (@extractHTMLValues_label_column RefLib.lib
              "<p><strong>Name:</strong> Alice</p><p><strong>Role:</strong> Eng</p>"
              (RefLib.document
                 [RefLib.element "p" [RefLib.element "strong" [RefLib.text "Name:"];
                                      RefLib.text " Alice"];
                  RefLib.element "p" [RefLib.element "strong" [RefLib.text "Role:"];
                                      RefLib.text " Eng"]])
              (Columns Examples.profile_html)
              (Examples.label_column "Role" "Role" [] true))
    as (results & Hresults & Hone & _).
  - reflexivity.
  - apply NoDup_cons. split; [| apply NoDup_singleton].
    intros Hin. apply elem_of_cons in Hin as [Hin | Hin];
      [discriminate | inversion Hin].
  - right. left.
  - reflexivity.
  - exists results. split; [exact Hresults |].
    apply (Hone "Role" "Eng").
    + reflexivity.
    + reflexivity.
    + intros key' _ Hmatch. unfold matchColumn in Hmatch. simpl in Hmatch.
      rewrite orb_false_r in Hmatch. now apply String.eqb_eq in Hmatch.
Defined.

(** ** [cleanValue] and [cleanContent] *)

Section Cleaning.
Import GoStrings GoRegexp.

Lemma HasPrefix_NBSP (c : ascii) (s : string) :
  HasPrefix (String c s) NBSP
  = Ascii.eqb c (byte 194)
    && match s with
       | String d _ => Ascii.eqb d (byte 160)
       | EmptyString => false
       end.
Proof.
  change NBSP with (String (byte 194) (String (byte 160) "")). cbn [HasPrefix].
  destruct (Ascii.eqb c (byte 194)); [| reflexivity].
  destruct s as [| d s]; [reflexivity |]. now destruct (Ascii.eqb d (byte 160)).
Qed.

Lemma replace_go_NBSP (c d : ascii) (s : string) :
  replace_go NBSP " " 0 (String c (String d s))
  = if Ascii.eqb c (byte 194) && Ascii.eqb d (byte 160)
    then String " " (replace_go NBSP " " 0 s)
    else String c (replace_go NBSP " " 0 (String d s)).
Proof.
  cbn [replace_go]. rewrite (HasPrefix_NBSP c (String d s)).
  now destruct (Ascii.eqb c (byte 194) && Ascii.eqb d (byte 160)).
Qed.

Lemma replace_go_NBSP_one (c : ascii) :
  replace_go NBSP " " 0 (String c "") = String c "".
Proof.
  cbn [replace_go]. rewrite HasPrefix_NBSP. now rewrite andb_false_r.
Qed.

Lemma replace_go_NBSP_head (s : string) :
  match replace_go NBSP " " 0 s with
  | String d _ => Ascii.eqb d (byte 160)
  | EmptyString => false
  end = true ->
  match s with
  | String d _ => Ascii.eqb d (byte 160)
  | EmptyString => false
  end = true.
Proof.
  destruct s as [| c [| d s]]; [easy | now rewrite replace_go_NBSP_one |].
  rewrite replace_go_NBSP.
  destruct (Ascii.eqb c (byte 194) && Ascii.eqb d (byte 160)); [discriminate | easy].
Qed.

Lemma ReplaceAll_NBSP_gone (s : string) :
  Contains (ReplaceAll s NBSP " ") NBSP = false.
Proof.
  unfold ReplaceAll.
  induction s as [| c | c d s IHs IHd] using string_ind2.
  - reflexivity.
  - rewrite replace_go_NBSP_one. cbn [Contains]. rewrite HasPrefix_NBSP.
    now rewrite andb_false_r.
  - rewrite replace_go_NBSP.
    destruct (Ascii.eqb c (byte 194)) eqn:Hc; [destruct (Ascii.eqb d (byte 160)) eqn:Hd |];
      cbn [andb Contains]; rewrite HasPrefix_NBSP, ?Hc, ?IHs, ?IHd; try reflexivity.
    cbn [andb]. rewrite orb_false_r.
    pose proof (replace_go_NBSP_head (String d s)) as Hhead.
    destruct (replace_go NBSP " " 0 (String d s)) as [| e r]; [reflexivity |].
    destruct (Ascii.eqb e (byte 160)); [| reflexivity].
    specialize (Hhead eq_refl). cbn in Hhead. congruence.
Qed.

Lemma is_s_not_160 (c : ascii) : is_s c = true -> Ascii.eqb c (byte 160) = false.
Proof.
  intros Hs. apply Ascii.eqb_neq. intros ->. discriminate.
Qed.

Lemma collapse_go_head (s : string) :
  match collapse_go false s with
  | String d _ => Ascii.eqb d (byte 160)
  | EmptyString => false
  end = true ->
  match s with
  | String d _ => Ascii.eqb d (byte 160)
  | EmptyString => false
  end = true.
Proof.
  destruct s as [| c s]; [easy |]. cbn [collapse_go].
  destruct (is_s c) eqn:Hc; [discriminate | easy].
Qed.

Lemma collapse_go_NBSP (s : string) :
  Contains s NBSP = false ->
  forall in_run, Contains (collapse_go in_run s) NBSP = false.
Proof.
  induction s as [| c s IH]; intros Hn in_run; [exact Hn |].
  cbn [Contains] in Hn. apply orb_false_elim in Hn as [Hhere Hn].
  rewrite HasPrefix_NBSP in Hhere.
  cbn [collapse_go]. destruct (is_s c) eqn:Hc.
  - destruct in_run; [now apply IH |].
    cbn [Contains]. rewrite HasPrefix_NBSP. now rewrite (IH Hn).
  - cbn [Contains]. rewrite HasPrefix_NBSP, (IH Hn), orb_false_r.
    destruct (Ascii.eqb c (byte 194)); [| reflexivity]. cbn [andb] in *.
    pose proof (collapse_go_head s) as Hhead.
    destruct (collapse_go false s) as [| e r]; [reflexivity |].
    destruct (Ascii.eqb e (byte 160)); [| reflexivity].
    specialize (Hhead eq_refl). congruence.
Qed.

Lemma ws_normal_app_r (pre x : string) :
  ws_normal (pre +:+ x) = true -> ws_normal x = true.
Proof.
  induction pre as [| c pre IH]; [easy |].
  rewrite append_cons. cbn [ws_normal]. intros Hn.
  apply andb_prop in Hn as [_ Hn]. now apply IH.
Qed.

Lemma ws_normal_app_l (x post : string) :
  ws_normal (x +:+ post) = true -> ws_normal x = true.
Proof.
  induction x as [| c x IH]; [easy |].
  rewrite append_cons. cbn [ws_normal]. intros Hn.
  apply andb_prop in Hn as [Hc Hn]. rewrite (IH Hn), andb_true_r.
  destruct (is_s c); [| reflexivity].
  apply andb_prop in Hc as [-> Hnext]. destruct x as [| d x]; [reflexivity |].
  exact Hnext.
Qed.

(** X11: [cleanValue] leaves no no-break space and no white space byte but
    single spaces, none of them at the two ends, and a second pass changes
    nothing. *)
Theorem cleanValue_idempotent (value : string) :
  Contains (cleanValue value) NBSP = false
  /\ ws_normal (cleanValue value) = true
  /\ starts_with_space (cleanValue value) = false
  /\ ends_with_space (cleanValue value) = false
  /\ cleanValue (cleanValue value) = cleanValue value.
Proof.
  assert (Hnbsp : Contains (cleanValue value) NBSP = false).
  { unfold cleanValue.
    destruct (TrimSpace_infix (replace_spaces (ReplaceAll value NBSP " ")))
      as (pre & post & Hinfix).
    apply (Contains_infix pre _ post). rewrite <- Hinfix.
    apply collapse_go_NBSP, ReplaceAll_NBSP_gone. }
  assert (Hws : ws_normal (cleanValue value) = true).
  { unfold cleanValue.
    destruct (TrimSpace_infix (replace_spaces (ReplaceAll value NBSP " ")))
      as (pre & post & Hinfix).
    apply (ws_normal_app_l _ post), (ws_normal_app_r pre).
    rewrite <- Hinfix. apply collapse_go_normal. }
  destruct (TrimSpace_trimmed (replace_spaces (ReplaceAll value NBSP " ")))
    as [Hstart Hend].
  repeat split; try assumption.
  unfold cleanValue at 1. unfold ReplaceAll.
  rewrite (replace_go_fixed _ _ _ Hnbsp). unfold replace_spaces.
  rewrite (proj1 (collapse_go_fixed _ Hws)).
  now apply TrimSpace_fixed.
Qed.

Context {L : GoLib}.

Lemma TrimSuffix_brace (body : string) : TrimSuffix (body +:+ "}") "}" = body.
Proof.
  unfold TrimSuffix, HasSuffix. rewrite rev_app.
  change (rev "}" +:+ rev body) with (String "}" (rev body)).
  change (rev "}") with "}". cbn [HasPrefix]. rewrite Ascii.eqb_refl.
  rewrite string_length_app. cbn [String.length].
  replace (String.length body + 1 - 1)%nat with (String.length body) by lia.
  apply string_take_app.
Qed.

(** X12: [cleanContent] takes the wrapper [@{contentType=html; content=]
    ... [}] off once: what is between the two is trimmed, its runs of two or
    more white space bytes become one space, and it is unescaped.  A body
    that has no such wrapper of its own gives the same with the wrapper as
    without. *)
Theorem cleanContent_unwraps (body : string) :
  cleanContent (contentTypePrefix +:+ body +:+ "}")
  = remove_contentType (html_UnescapeString (replace_spaces2 (TrimSpace body)))
  /\ (body <> "" ->
      HasPrefix body contentTypePrefix = false ->
      HasSuffix body "}" = false ->
      cleanContent (contentTypePrefix +:+ body +:+ "}") = cleanContent body).
Proof.
  assert (Hwrapped : cleanContent (contentTypePrefix +:+ body +:+ "}")
                     = remove_contentType
                         (html_UnescapeString (replace_spaces2 (TrimSpace body)))).
  { unfold cleanContent. cbn [String.eqb contentTypePrefix append].
    unfold TrimPrefix.
    change (String "@" ?s) with (contentTypePrefix +:+ body +:+ "}").
    rewrite HasPrefix_app, string_drop_app, TrimSuffix_brace. reflexivity. }
  split; [exact Hwrapped |].
  intros Hbody Hprefix Hsuffix. rewrite Hwrapped. unfold cleanContent.
  apply String.eqb_neq in Hbody. rewrite Hbody.
  unfold TrimPrefix. rewrite Hprefix. unfold TrimSuffix. now rewrite Hsuffix.
Qed.

End Cleaning.

(** ** Rows, files and the worker *)

Section Rows.
Import GoStrings GoRegexp.

Context {L : GoLib}.
Variable config : Config.
Variable profileName : string.

Lemma handleNullValue_never_nil (value : string) :
  handleNullValue config value <> "<nil>"
  /\ (NullValueHandling config = "null" \/ NullValueHandling config = "nil" ->
      handleNullValue config value <> "").
Proof.
  unfold handleNullValue.
  destruct (String.eqb_spec value "") as [-> | Hempty]; simpl.
  - split.
    + now repeat destruct (_ =? _).
    + intros [-> | ->]; discriminate.
  - destruct (String.eqb_spec value "<nil>") as [-> | Hnil].
    + split.
      * now repeat destruct (_ =? _).
      * intros [-> | ->]; discriminate.
    + now split.
Qed.

Lemma handleNullValue_idempotent (value : string) :
  handleNullValue config (handleNullValue config value) = handleNullValue config value.
Proof.
  destruct (String.eqb_spec value "") as [Hempty | Hempty];
    [| destruct (String.eqb_spec value "<nil>") as [Hnil | Hnil]].
  - rewrite (handleNullValue_empty config value (or_introl Hempty)).
    unfold handleNullValue. simpl.
    destruct (NullValueHandling config =? "null") eqn:H1;
      [simpl; now rewrite ?H1 |].
    destruct (NullValueHandling config =? "nil") eqn:H2;
      [simpl; now rewrite ?H1, ?H2 |].
    destruct (NullValueHandling config =? "empty") eqn:H3; simpl;
      now rewrite ?H1, ?H2, ?H3.
  - rewrite (handleNullValue_empty config value (or_intror Hnil)).
    unfold handleNullValue. simpl.
    destruct (NullValueHandling config =? "null") eqn:H1;
      [simpl; now rewrite ?H1 |].
    destruct (NullValueHandling config =? "nil") eqn:H2;
      [simpl; now rewrite ?H1, ?H2 |].
    destruct (NullValueHandling config =? "empty") eqn:H3; simpl;
      now rewrite ?H1, ?H2, ?H3.
  - now rewrite !(handleNullValue_other config value Hempty Hnil).
Qed.

Lemma buildRow_length item profile parseContent htmlValues columns :
  forall row lg,
    buildRow config profileName item profile parseContent htmlValues columns
    = (Ok row, lg) ->
    length row = length columns.
Proof.
  intros row lg Hrow.
  exact (eq_sym (Forall2_length _ _ _ (buildRow_fields config profileName _ _ _ _ _ _ _ Hrow))).
Qed.

(** What holds of the row of every record holds of the rows of a file and
    of the rows that a worker sends. *)
Lemma processJSONItem_row (P : list string -> Prop) item profile :
  (forall parseContent htmlValues row lg,
      buildRow config profileName item profile parseContent htmlValues
               (Columns profile) = (Ok row, lg) ->
      isEmptyOrAllNull config row = false -> P row) ->
  forall row, fst (processJSONItem config profileName item profile) = Ok (Some row) ->
              P row.
Proof.
  intros HP row. unfold processJSONItem.
  destruct (resolveBody item profile) as [[[parseContent htmlValues] | err] lg];
    [| discriminate].
  destruct (buildRow config profileName item profile parseContent htmlValues
                     (Columns profile)) as [[row' | err] lg'] eqn:Hrow;
    [| discriminate].
  simpl. destruct (isEmptyOrAllNull config row') eqn:Hblank; [discriminate |].
  intros [= <-]. eapply HP; eassumption.
Qed.

Lemma processItems_rows (P : list string -> Prop) profile items :
  (forall item row,
      fst (processJSONItem config profileName item profile) = Ok (Some row) -> P row) ->
  forall rows, fst (processItems config profileName items profile) = Ok rows ->
               Forall P rows.
Proof.
  intros HP. induction items as [| item rest IH]; intros rows; simpl.
  - intros [= <-]. constructor.
  - pose proof (HP item) as Hitem.
    destruct (processJSONItem config profileName item profile) as [[row | err] lg];
      [| discriminate].
    destruct (processItems config profileName rest profile) as [[rows' | err] lg'];
      [| discriminate].
    simpl. intros [= <-].
    destruct row as [[| cell cells] |]; try now apply IH.
    constructor; [now apply Hitem | now apply IH].
Qed.

Lemma worker_rows (P : list string -> Prop) fs profile jobs :
  (forall item row,
      fst (processJSONItem config profileName item profile) = Ok (Some row) -> P row) ->
  Forall P (worker config profileName fs jobs profile).1.1.
Proof.
  intros HP. induction jobs as [| filePath rest IH]; simpl; [constructor |].
  destruct (worker config profileName fs rest profile) as [[results errors] lg'].
  destruct (processJSONFile config profileName fs filePath profile)
    as [[rows | err] lg] eqn:Hfile; simpl; [| exact IH].
  apply Forall_app. split; [| exact IH].
  unfold processJSONFile in Hfile.
  destruct (decodeFileContent fs filePath) as [data | err]; [| discriminate].
  destruct (json_Unmarshal data) as [Value | err]; [| discriminate].
  apply (processItems_rows P profile Value HP). now rewrite Hfile.
Qed.

(** X13: every row that a worker sends has one cell for each header of the
    profile, and one of its cells at least is neither empty nor the null
    sentinel. *)
Theorem rows_fit_the_header fs jobs profile :
  Forall (fun row => length row = length (getHeaders profile)
                     /\ isEmptyOrAllNull config row = false)
         (worker config profileName fs jobs profile).1.1.
Proof.
  apply worker_rows. intros item row.
  apply (processJSONItem_row
           (fun row => length row = length (getHeaders profile)
                       /\ isEmptyOrAllNull config row = false)).
  intros parseContent htmlValues row' lg Hrow Hblank. split; [| exact Hblank].
  unfold getHeaders. rewrite length_map. eapply buildRow_length, Hrow.
Qed.

(** X14: the null policy is idempotent, and no cell of a row that a worker
    sends is the text [<nil>]; under the policies [null] and [nil] no cell
    is empty either. *)
Theorem cells_follow_the_null_policy fs jobs profile :
  (forall value,
      handleNullValue config (handleNullValue config value)
      = handleNullValue config value)
  /\ Forall (Forall (fun cell =>
               cell <> "<nil>"
               /\ (NullValueHandling config = "null"
                   \/ NullValueHandling config = "nil" -> cell <> "")))
            (worker config profileName fs jobs profile).1.1.
Proof.
  split; [apply handleNullValue_idempotent |].
  apply worker_rows. intros item row.
  apply (processJSONItem_row
           (Forall (fun cell =>
              cell <> "<nil>"
              /\ (NullValueHandling config = "null"
                  \/ NullValueHandling config = "nil" -> cell <> "")))).
  intros parseContent htmlValues row' lg Hrow _.
  pose proof (buildRow_fields config profileName _ _ _ _ _ _ _ Hrow) as Hfields.
  clear Hrow.
  induction Hfields as [| column cell columns cells [value ->] _ IH];
    [constructor | constructor; [| exact IH]].
  unfold finishValue. apply handleNullValue_never_nil.
Qed.

Lemma worker_app fs jobs1 jobs2 profile :
  worker config profileName fs (jobs1 ++ jobs2) profile
  = ((worker config profileName fs jobs1 profile).1.1
       ++ (worker config profileName fs jobs2 profile).1.1,
     (worker config profileName fs jobs1 profile).1.2
       ++ (worker config profileName fs jobs2 profile).1.2,
     (worker config profileName fs jobs1 profile).2
       ++ (worker config profileName fs jobs2 profile).2).
Proof.
  induction jobs1 as [| filePath rest IH]; simpl.
  - now destruct (worker config profileName fs jobs2 profile) as [[? ?] ?].
  - rewrite IH.
    destruct (worker config profileName fs rest profile) as [[r1 e1] l1].
    destruct (worker config profileName fs jobs2 profile) as [[r2 e2] l2].
    destruct (processJSONFile config profileName fs filePath profile)
      as [[rows | err] lg]; simpl; now rewrite ?app_assoc.
Qed.

Lemma worker_files fs jobs profile :
  (worker config profileName fs jobs profile).1.1
  = flat_map (fun filePath =>
                match fst (processJSONFile config profileName fs filePath profile) with
                | Ok rows => rows
                | Err _ => []
                end) jobs
  /\ (worker config profileName fs jobs profile).1.2
     = flat_map (fun filePath =>
                   match fst (processJSONFile config profileName fs filePath profile) with
                   | Ok _ => []
                   | Err err => [ErrFile filePath err]
                   end) jobs.
Proof.
  induction jobs as [| filePath rest [IHr IHe]]; simpl; [now split |].
  destruct (worker config profileName fs rest profile) as [[results errors] lg'].
  simpl in IHr, IHe.
  destruct (processJSONFile config profileName fs filePath profile)
    as [[rows | err] lg]; simpl; now rewrite IHr, IHe.
Qed.

(** X15: a worker handles its files one by one, in the order it receives
    them: a file gives all of its rows or one error that names it, never
    both, and the rows and errors of a list of jobs are those of its first
    part followed by those of the rest. *)
Theorem worker_file_by_file fs jobs1 jobs2 profile :
  let rows_of filePath :=
    match fst (processJSONFile config profileName fs filePath profile) with
    | Ok rows => rows
    | Err _ => []
    end in
  let errors_of filePath :=
    match fst (processJSONFile config profileName fs filePath profile) with
    | Ok _ => []
    | Err err => [ErrFile filePath err]
    end in
  (worker config profileName fs (jobs1 ++ jobs2) profile).1.1
  = flat_map rows_of jobs1 ++ flat_map rows_of jobs2
  /\ (worker config profileName fs (jobs1 ++ jobs2) profile).1.2
     = flat_map errors_of jobs1 ++ flat_map errors_of jobs2
  /\ (length (worker config profileName fs (jobs1 ++ jobs2) profile).1.2
      <= length (jobs1 ++ jobs2))%nat
  /\ Forall (fun filePath => rows_of filePath = [] \/ errors_of filePath = [])
            (jobs1 ++ jobs2).
Proof.
  intros rows_of errors_of.
  destruct (worker_files fs (jobs1 ++ jobs2) profile) as [Hrows Herrors].
  rewrite Hrows, Herrors, !flat_map_app. repeat split.
  - rewrite <- flat_map_app. generalize (jobs1 ++ jobs2). intros jobs.
    induction jobs as [| filePath rest IH]; simpl; [lia |].
    rewrite length_app.
    destruct (fst (processJSONFile config profileName fs filePath profile));
      simpl; lia.
  - apply Forall_forall. intros filePath _. unfold rows_of, errors_of.
    destruct (fst (processJSONFile config profileName fs filePath profile));
      [now right | now left].
Qed.

Lemma processItems_failure profile items item :
  item ∈ items ->
  is_ok (fst (processJSONItem config profileName item profile)) = false ->
  exists err, fst (processItems config profileName items profile)
              = Err (ErrJSONItem err).
Proof.
  induction items as [| first rest IH]; intros Hin Hfail; [inversion Hin |].
  simpl.
  destruct (processJSONItem config profileName first profile) as [[row | err] lg]
    eqn:Hfirst; [| now exists err].
  apply elem_of_cons in Hin as [-> | Hin]; [rewrite Hfirst in Hfail; discriminate |].
  destruct (IH Hin Hfail) as [err Herr].
  destruct (processItems config profileName rest profile) as [[rows | err'] lg'];
    [discriminate |].
  simpl in *. now exists err.
Qed.

(** X16: one record in which the path of [parse_body] does not resolve
    makes the whole file fail: the file gives no row, also not those of the
    records before it, and the worker sends one error for it. *)
Theorem missing_body_fails_the_file fs filePath profile data items item err :
  decodeFileContent fs filePath = Ok data ->
  json_Unmarshal data = Ok items ->
  item ∈ items ->
  ParseBody profile <> "" ->
  getNestedValue (JObject item) (Split (ParseBody profile) ".") = Err err ->
  fst (processJSONItem config profileName item profile) = Err (ErrHTMLContent err)
  /\ (exists cause,
        fst (processJSONFile config profileName fs filePath profile)
        = Err (ErrJSONItem cause)
        /\ (worker config profileName fs [filePath] profile).1
           = ([], [ErrFile filePath (ErrJSONItem cause)])).
Proof.
  intros Hfile Hjson Hin Hbody Hpath.
  assert (Hitem : fst (processJSONItem config profileName item profile)
                  = Err (ErrHTMLContent err)).
  { unfold processJSONItem, resolveBody. apply String.eqb_neq in Hbody.
    now rewrite Hbody, Hpath. }
  split; [exact Hitem |].
  destruct (processItems_failure profile items item Hin) as [cause Hcause];
    [now rewrite Hitem |].
  exists cause.
  assert (Hfail : fst (processJSONFile config profileName fs filePath profile)
                  = Err (ErrJSONItem cause)).
  { unfold processJSONFile. now rewrite Hfile, Hjson. }
  split; [exact Hfail |]. simpl.
  destruct (processJSONFile config profileName fs filePath profile) as [[rows | e] lg];
    simpl in Hfail; [discriminate |]. now injection Hfail as ->.
Qed.

End Rows.

Lemma missing_body_fails_the_file_witness :
  fst (processJSONItem (L := RefLib.lib) Examples.config_empty "default"
         [("id", JString "X1")] Examples.profile_html)
  = Err (ErrHTMLContent (ErrKeyNotFound "body"))
  /\ (exists cause,
        fst (processJSONFile (L := RefLib.lib) Examples.config_empty "default"
               {["in.json" := Examples.file_Value]} "in.json" Examples.profile_html)
        = Err (ErrJSONItem cause)
        /\ (worker (L := RefLib.lib) Examples.config_empty "default"
              {["in.json" := Examples.file_Value]} ["in.json"] Examples.profile_html).1
           = ([], [ErrFile "in.json" (ErrJSONItem cause)])).
Proof.
  apply (@missing_body_fails_the_file RefLib.lib Examples.config_empty "default"
           {["in.json" := Examples.file_Value]} "in.json" Examples.profile_html
           Examples.file_Value [[("id", JString "X1")]] [("id", JString "X1")]
           (ErrKeyNotFound "body")).
  - reflexivity.
  - reflexivity.
  - left.
  - discriminate.
  - reflexivity.
Defined.

(** ** Paths and the rows of a profile of JSON paths *)

Section Paths.
Import GoStrings GoRegexp.

Context {L : GoLib}.
Variable config : Config.
Variable profileName : string.

Lemma HasPrefix_dot (c : ascii) (s : string) :
  HasPrefix (String c s) "." = Ascii.eqb c ".".
Proof. cbn [HasPrefix]. now destruct (Ascii.eqb c "."). Qed.

Lemma split_go_dot (a rest : string) :
  Contains a "." = false ->
  forall cur,
    split_go "." 0 cur (a +:+ "." +:+ rest)
    = (rev cur +:+ a) :: split_go "." 0 "" rest.
Proof.
  induction a as [| c a IH]; intros Hdot cur.
  - rewrite append_nil, append_nil_r. reflexivity.
  - cbn [Contains] in Hdot. apply orb_false_elim in Hdot as [Hc Hdot].
    rewrite HasPrefix_dot in Hc. rewrite append_cons. cbn [split_go].
    rewrite HasPrefix_dot, Hc, (IH Hdot), rev_cons, append_assoc. reflexivity.
Qed.

Lemma split_go_plain (a : string) :
  Contains a "." = false ->
  forall cur, split_go "." 0 cur a = [rev cur +:+ a].
Proof.
  induction a as [| c a IH]; intros Hdot cur.
  - now rewrite append_nil_r.
  - cbn [Contains] in Hdot. apply orb_false_elim in Hdot as [Hc Hdot].
    rewrite HasPrefix_dot in Hc. cbn [split_go].
    rewrite HasPrefix_dot, Hc, (IH Hdot), rev_cons, append_assoc. reflexivity.
Qed.

(** X17: a path is read segment by segment at its dots.  On a record, a
    path without a dot names a member, whose value is printed whole, and the
    first segment of a longer path names the member in which the rest of the
    path is resolved; a member whose name has a dot in it is out of reach. *)
Theorem getNestedValue_path (item : list (string * JSON)) (first rest : string) :
  Contains first "." = false ->
  getNestedValue (JObject item) (Split first ".")
  = match map_lookup first item with
    | Some data => Ok (Sprint_v data)
    | None => Err (ErrKeyNotFound first)
    end
  /\ getNestedValue (JObject item) (Split (first +:+ "." +:+ rest) ".")
     = match map_lookup first item with
       | Some data => getNestedValue data (Split rest ".")
       | None => Err (ErrKeyNotFound first)
       end.
Proof.
  intros Hdot. unfold Split.
  rewrite (split_go_plain _ Hdot), (split_go_dot _ rest Hdot).
  change (rev "" +:+ first) with first. cbn [getNestedValue].
  now destruct (map_lookup first item).
Qed.

Lemma buildRow_json_row item profile parseContent htmlValues columns :
  Forall (fun column => from_json_path profile column = true) columns ->
  fst (buildRow config profileName item profile parseContent htmlValues columns)
  = Ok (map (fun column =>
               finishValue config profileName column
                 match getNestedValue (JObject item) (Split (Key column) ".") with
                 | Ok value => value
                 | Err _ => ""
                 end) columns).
Proof.
  induction 1 as [| column rest Hc _ IH]; simpl; [reflexivity |].
  rewrite (columnSource_json_path _ _ _ _ _ Hc).
  destruct (buildRow config profileName item profile parseContent htmlValues rest)
    as [[row | err] lg]; simpl in IH; [| discriminate].
  injection IH as ->.
  now destruct (getNestedValue (JObject item) (Split (Key column) ".")).
Qed.

(** X18: under a profile without [parse_body] whose columns all take the
    JSON path, a record never fails, and its row, when it is not blank, has
    for each column the value that the path of its key resolves to, or the
    empty string when the path does not resolve, after [clean_html], the
    newline policy and the null policy. *)
Theorem json_profile_row (item : list (string * JSON)) (profile : Profile) :
  ParseBody profile = "" ->
  Forall (fun column => from_json_path profile column = true) (Columns profile) ->
  let row :=
    map (fun column =>
           finishValue config profileName column
             match getNestedValue (JObject item) (Split (Key column) ".") with
             | Ok value => value
             | Err _ => ""
             end) (Columns profile) in
  fst (processJSONItem config profileName item profile)
  = Ok (if isEmptyOrAllNull config row then None else Some row).
Proof.
  intros Hbody Hcolumns row. unfold processJSONItem, resolveBody.
  rewrite Hbody. simpl.
  pose proof (buildRow_json_row item profile "" ∅ _ Hcolumns) as Hrow.
  destruct (buildRow config profileName item profile "" ∅ (Columns profile))
    as [[row' | err] lg]; simpl in Hrow; [| discriminate].
  injection Hrow as ->. reflexivity.
Qed.

End Paths.

Lemma getNestedValue_path_witness :
  getNestedValue (L := RefLib.lib) (JObject [("author", JObject [("name", JString "A")])])
    (GoStrings.Split "author" ".")
  = match map_lookup "author" [("author", JObject [("name", JString "A")])] with
    | Some data => Ok (Sprint_v (L := RefLib.lib) data)
    | None => Err (ErrKeyNotFound "author")
    end
  /\ getNestedValue (L := RefLib.lib)
       (JObject [("author", JObject [("name", JString "A")])])
       (GoStrings.Split ("author" +:+ "." +:+ "name") ".")
     = match map_lookup "author" [("author", JObject [("name", JString "A")])] with
       | Some data => getNestedValue (L := RefLib.lib) data (GoStrings.Split "name" ".")
       | None => Err (ErrKeyNotFound "author")
       end.
Proof.
  apply (@getNestedValue_path RefLib.lib
           [("author", JObject [("name", JString "A")])] "author" "name").
  reflexivity.
Defined.

Lemma json_profile_row_witness :
  fst (processJSONItem (L := RefLib.lib) Examples.config_null "default"
         [("id", JString "X1")] Examples.profile_json)
  = Ok (Some ["X1"; "null"]).
Proof.
  rewrite (@json_profile_row RefLib.lib Examples.config_null "default"
             [("id", JString "X1")] Examples.profile_json).
  - reflexivity.
  - reflexivity.
  - repeat constructor.
Defined.

(** ** Profiles that range over no map *)

Section WithoutHTML.
Import GoStrings GoRegexp.

Context {L : GoLib}.
Variable config : Config.
Variable profileName : string.
Variable order : nat -> list (string * string) -> list (string * string).
Hypothesis Hperm : forall i l, Permutation (order i l) l.
Variable profile : Profile.
Hypothesis Hcontent : ContentType profile <> "html".

(** [extractHTMLValues] is called under the content type [html] only, and
    the map it returns is read under that type only: under another type no
    record depends on the order of a [range] over a map. *)
Lemma processJSONItem_without_html (item : list (string * JSON)) :
  processJSONItem (L := with_range_order L order Hperm) config profileName item profile
  = processJSONItem config profileName item profile.
Proof.
  apply String.eqb_neq in Hcontent.
  assert (Hsrc : forall parseContent htmlValues column,
             columnSource (L := with_range_order L order Hperm)
                          item profile parseContent htmlValues column
             = columnSource item profile parseContent htmlValues column).
  { intros. unfold columnSource. rewrite Hcontent. reflexivity. }
  assert (Hrow : forall parseContent htmlValues columns,
             buildRow (L := with_range_order L order Hperm) config profileName
                      item profile parseContent htmlValues columns
             = buildRow config profileName item profile parseContent htmlValues
                        columns).
  { intros parseContent htmlValues columns.
    induction columns as [| column rest IH]; [reflexivity |].
    cbn [buildRow]. rewrite Hsrc, IH. reflexivity. }
  assert (Hbody : resolveBody (L := with_range_order L order Hperm) item profile
                  = resolveBody item profile).
  { unfold resolveBody. rewrite Hcontent. reflexivity. }
  unfold processJSONItem. rewrite Hbody. clear Hbody.
  destruct (resolveBody item profile) as [[[parseContent htmlValues] | err] lg];
    [| reflexivity].
  now rewrite Hrow.
Qed.

Lemma processItems_without_html (items : list (list (string * JSON))) :
  processItems (L := with_range_order L order Hperm) config profileName items profile
  = processItems config profileName items profile.
Proof.
  induction items as [| item rest IH]; [reflexivity |].
  cbn [processItems]. now rewrite processJSONItem_without_html, IH.
Qed.

Lemma processJSONFile_without_html (fs : gmap string string) (filePath : string) :
  processJSONFile (L := with_range_order L order Hperm) config profileName
                  fs filePath profile
  = processJSONFile config profileName fs filePath profile.
Proof.
  unfold processJSONFile.
  change (decodeFileContent (L := with_range_order L order Hperm) fs filePath)
    with (decodeFileContent fs filePath).
  destruct (decodeFileContent fs filePath) as [data | err]; [| reflexivity].
  change (json_Unmarshal (L := with_range_order L order Hperm) data)
    with (json_Unmarshal data).
  destruct (json_Unmarshal data) as [Value | err]; [| reflexivity].
  apply processItems_without_html.
Qed.

Lemma worker_without_html (fs : gmap string string) (jobs : list string) :
  worker (L := with_range_order L order Hperm) config profileName fs jobs profile
  = worker config profileName fs jobs profile.
Proof.
  induction jobs as [| filePath rest IH]; [reflexivity |].
  cbn [worker]. now rewrite IH, processJSONFile_without_html.
Qed.

End WithoutHTML.

(** ** The run of the program *)

Section RunFacts.

Context {L : GoLib}.
Variable config : Config.
Variable profileName : string.
Variable fs : gmap string string.
Variable profile : Profile.
Variable jsonFiles : list string.
Variable workerCount : Z.


Lemma pending_rows_middle (before after : list WorkerState) (w : WorkerState) :
  concat (map pending_rows (before ++ w :: after))
  ≡ₚ pending_rows w ++ concat (map pending_rows (before ++ after)).
Proof.
  rewrite !map_app, !concat_app. cbn [map concat]. solve_Permutation.
Qed.

Lemma pending_errors_middle (before after : list WorkerState) (w : WorkerState) :
  concat (map pending_errors (before ++ w :: after))
  ≡ₚ pending_errors w ++ concat (map pending_errors (before ++ after)).
Proof.
  rewrite !map_app, !concat_app. cbn [map concat]. solve_Permutation.
Qed.

Lemma pending_idle (n : nat) :
  concat (map pending_rows (replicate n Receiving)) = []
  /\ concat (map pending_errors (replicate n Receiving)) = [].
Proof.
  induction n as [| n [IHr IHe]]; [now split |]. simpl. now rewrite IHr, IHe.
Qed.

Lemma consistent_start :
  consistent config profileName fs profile jsonFiles workerCount
    (start profile jsonFiles workerCount).
Proof.
  exists [], []. destruct (pending_idle (Z.to_nat workerCount)) as [Hr He].
  unfold start. cbn [at_main workers closer jobs results errorChan processed
                     written shown logged unsent jobs_closed progress_closed
                     results_closed].
  rewrite Hr, He. split_and!; try done.
  - intros Hin. apply elem_of_replicate in Hin as [? _]. discriminate.
  - right. apply Forall_replicate. now left.
  - unfold totalFiles. lia.
  - apply length_replicate.
Qed.

Lemma not_all_returned (before after : list WorkerState) (w : WorkerState) :
  w <> Returned -> ~ Forall (eq Returned) (before ++ w :: after).
Proof.
  intros Hw Hall. apply Forall_app in Hall as [_ Hall].
  apply Forall_cons in Hall as [Heq _]. now apply Hw.
Qed.

Lemma returned_elsewhere (before after : list WorkerState) (w w' : WorkerState) :
  w' <> Returned ->
  Returned ∈ before ++ w' :: after -> Returned ∈ before ++ w :: after.
Proof.
  intros Hw. rewrite !elem_of_app, !elem_of_cons. intros [? | [? | ?]]; auto.
  congruence.
Qed.

Lemma outcome_sends (file : string) :
  outcome config profileName fs profile file <> Returned
  /\ outcome config profileName fs profile file <> Receiving.
Proof.
  unfold outcome.
  destruct (fst (processJSONFile config profileName fs file profile)); split;
    discriminate.
Qed.

Lemma idle_elsewhere (before after : list WorkerState) (w w' : WorkerState) :
  (w' = Receiving \/ w' = Returned) ->
  Forall (fun w => w = Receiving \/ w = Returned) (before ++ w :: after) ->
  Forall (fun w => w = Receiving \/ w = Returned) (before ++ w' :: after).
Proof.
  intros Hw. rewrite !Forall_app, !Forall_cons. intros (? & _ & ?). auto.
Qed.

Lemma not_all_idle (before after : list WorkerState) (w : WorkerState) :
  w <> Receiving -> w <> Returned ->
  ~ Forall (fun w => w = Receiving \/ w = Returned) (before ++ w :: after).
Proof.
  intros H1 H2 Hall. apply Forall_app in Hall as [_ Hall].
  apply Forall_cons in Hall as [[? | ?] _]; contradiction.
Qed.

Lemma consistent_step (s s' : Run) :
  consistent config profileName fs profile jsonFiles workerCount s ->
  step config profileName fs profile jsonFiles s s' ->
  consistent config profileName fs profile jsonFiles workerCount s'.
Proof.
  intros (taken & rows & Hfiles & Hwritten & Hrows & Herrors & Hcloser & Hclosed
          & Hreturned & Hprogress & Htotal & Hprocessed & Hshown & Hlen & Hnone)
         Hstep.
  unfold consistent.
  destruct Hstep;
    cbn [at_main workers closer jobs results errorChan processed written shown
         logged progressChan unsent jobs_closed progress_closed results_closed] in *.
  - (* main_sends_job *)
    exists taken, rows. split_and!; try done.
    + now rewrite <- app_assoc.
    + intros Hin. now destruct (Hreturned Hin).
  - (* main_closes_jobs *)
    exists taken, rows. split_and!; try done.
    intros Hin. now destruct (Hreturned Hin).
  - (* main_writes_row *)
    exists taken, (rows ++ [row]). split_and!; try done.
    + now rewrite Hwritten.
    + rewrite <- Hrows. solve_Permutation.
  - (* main_reports *)
    exists taken, rows. split_and!; done.
  - (* main_skips_report *)
    exists taken, rows. split_and!; done.
  - (* main_closes_progress *)
    exists taken, rows. split_and!; done.
  - (* main_returns *)
    exists taken, rows. split_and!; done.
  - (* worker_takes_job *)
    destruct (outcome_sends file) as [Hout1 Hout2].
    exists (taken ++ [file]), rows. split_and!; try done.
    + now rewrite <- app_assoc.
    + rewrite pending_rows_middle in Hrows |- *. rewrite flat_map_app.
      cbn [flat_map pending_rows] in *. rewrite <- Hrows.
      unfold rows_of. solve_Permutation.
    + rewrite pending_errors_middle in Herrors |- *. rewrite flat_map_app.
      cbn [flat_map pending_errors] in *. rewrite <- Herrors.
      unfold errors_of. solve_Permutation.
    + intros Hc. destruct (not_all_returned before after Receiving);
        [discriminate | exact (Hclosed Hc)].
    + intros Hin.
      destruct (Hreturned (returned_elsewhere _ _ Receiving _ Hout1 Hin)) as [? _].
      discriminate.
    + left. unfold totalFiles. rewrite Hfiles, !length_app. simpl. lia.
    + rewrite length_app in *. exact Hlen.
    + intros Hws. now destruct (app_cons_not_nil _ _ _ (eq_sym Hws)).
  - (* worker_sends_error *)
    exists taken, rows. split_and!; try done.
    + rewrite pending_rows_middle in Hrows |- *. exact Hrows.
    + rewrite pending_errors_middle in Herrors |- *.
      cbn [pending_errors] in *. rewrite <- Herrors. solve_Permutation.
    + intros Hc. destruct (not_all_returned before after (SendingError err));
        [discriminate | exact (Hclosed Hc)].
    + intros Hin. apply Hreturned.
      apply (returned_elsewhere _ _ _ Receiving); [discriminate | exact Hin].
    + destruct Htotal as [? | Hidle]; [now left |].
      destruct (not_all_idle before after (SendingError err));
        [discriminate | discriminate | exact Hidle].
    + rewrite length_app in *. exact Hlen.
    + intros Hws. now destruct (app_cons_not_nil _ _ _ (eq_sym Hws)).
  - (* worker_sends_row *)
    exists taken, rows. split_and!; try done.
    + rewrite pending_rows_middle in Hrows |- *.
      cbn [pending_rows] in *. rewrite <- Hrows. solve_Permutation.
    + rewrite pending_errors_middle in Herrors |- *. exact Herrors.
    + intros Hc. destruct (not_all_returned before after (SendingRows (row :: rows0)));
        [discriminate | exact (Hclosed Hc)].
    + intros Hin. apply Hreturned.
      apply (returned_elsewhere _ _ _ (SendingRows rows0)); [discriminate | exact Hin].
    + intros Hm. destruct (Hprogress Hm) as [_ Hc].
      destruct (not_all_returned before after (SendingRows (row :: rows0)));
        [discriminate | exact (Hclosed Hc)].
    + destruct Htotal as [? | Hidle]; [now left |].
      destruct (not_all_idle before after (SendingRows (row :: rows0)));
        [discriminate | discriminate | exact Hidle].
    + rewrite length_app in *. exact Hlen.
    + intros Hws. now destruct (app_cons_not_nil _ _ _ (eq_sym Hws)).
  - (* worker_is_through *)
    exists taken, rows. split_and!; try done.
    + rewrite pending_rows_middle in Hrows |- *. exact Hrows.
    + rewrite pending_errors_middle in Herrors |- *. exact Herrors.
    + intros Hc. destruct (not_all_returned before after (SendingRows []));
        [discriminate | exact (Hclosed Hc)].
    + intros Hin. apply Hreturned.
      apply (returned_elsewhere _ _ _ Receiving); [discriminate | exact Hin].
    + destruct Htotal as [? | Hidle]; [now left |].
      destruct (not_all_idle before after (SendingRows []));
        [discriminate | discriminate | exact Hidle].
    + rewrite length_app in *. exact Hlen.
    + intros Hws. now destruct (app_cons_not_nil _ _ _ (eq_sym Hws)).
  - (* worker_returns *)
    exists taken, rows. split_and!; try done.
    + rewrite pending_rows_middle in Hrows |- *. exact Hrows.
    + rewrite pending_errors_middle in Herrors |- *. exact Herrors.
    + intros Hc. destruct (not_all_returned before after Receiving);
        [discriminate | exact (Hclosed Hc)].
    + destruct Htotal as [? | Hidle]; [now left | right].
      apply (idle_elsewhere _ _ Receiving); auto.
    + rewrite length_app in *. exact Hlen.
    + intros Hws. now destruct (app_cons_not_nil _ _ _ (eq_sym Hws)).
  - (* closer_closes_results *)
    exists taken, rows. split_and!; try done.
    + split; [discriminate |]. intros Hm. apply Hcloser in Hm. discriminate.
    + intros Hm. now destruct (Hprogress Hm).
  - (* closer_closes_errors *)
    exists taken, rows. split_and!; try done.
    split; [discriminate |]. intros Hm. apply Hcloser in Hm. discriminate.
  - (* monitor_logs *)
    exists taken, rows. split_and!; try done.
    rewrite <- Herrors. solve_Permutation.
  - (* monitor_returns *)
    exists taken, rows. split_and!; done.
  - (* progress_prints *)
    exists taken, rows. split_and!; try done.
    + unfold next_processed. destruct (Nat.ltb_spec (totalFiles jsonFiles) (pr + 1)); lia.
    + apply Forall_app. split; [exact Hshown |]. constructor; [| constructor].
      unfold next_processed. destruct (Nat.ltb_spec (totalFiles jsonFiles) (pr + 1)); lia.
  - (* progress_returns *)
    exists taken, rows. split_and!; done.
Qed.

Lemma consistent_run (s : Run) :
  rtc (step config profileName fs profile jsonFiles) (start profile jsonFiles workerCount) s ->
  consistent config profileName fs profile jsonFiles workerCount s.
Proof.
  intros Hrun.
  apply rtc_ind_r with
    (x := start profile jsonFiles workerCount)
    (P := fun s => consistent config profileName fs profile jsonFiles workerCount s) in Hrun;
    [exact Hrun | apply consistent_start |].
  intros y z _ Hstep Hy. exact (consistent_step _ _ Hy Hstep).
Qed.

Lemma rows_of_file (file : string) :
  rows_of config profileName fs profile file
  = match fst (processJSONFile config profileName fs file profile) with
    | Ok rows => rows
    | Err _ => []
    end.
Proof.
  unfold rows_of, outcome.
  now destruct (fst (processJSONFile config profileName fs file profile)).
Qed.

Lemma errors_of_file (file : string) :
  errors_of config profileName fs profile file
  = match fst (processJSONFile config profileName fs file profile) with
    | Ok _ => []
    | Err err => [ErrFile file err]
    end.
Proof.
  unfold errors_of, outcome.
  now destruct (fst (processJSONFile config profileName fs file profile)).
Qed.

(** The rows and the errors of the files, as one worker alone gives them. *)
Lemma worker_alone (files : list string) :
  (worker config profileName fs files profile).1.1 = flat_map (rows_of config profileName fs profile) files
  /\ (worker config profileName fs files profile).1.2 = flat_map (errors_of config profileName fs profile) files.
Proof.
  destruct (worker_files config profileName fs files profile) as [-> ->].
  split; apply flat_map_ext; intros file; [now rewrite rows_of_file |].
  now rewrite errors_of_file.
Qed.

Lemma errors_of_length (files : list string) :
  (length (flat_map (errors_of config profileName fs profile) files) <= length files)%nat.
Proof.
  induction files as [| file files IH]; simpl; [lia |].
  rewrite length_app, errors_of_file.
  destruct (fst (processJSONFile config profileName fs file profile)); simpl; lia.
Qed.

Lemma returned_pending (ws : list WorkerState) :
  Forall (eq Returned) ws ->
  concat (map pending_rows ws) = [] /\ concat (map pending_errors ws) = [].
Proof.
  induction 1 as [| w ws <- _ [IHr IHe]]; [now split |]. simpl. now rewrite IHr, IHe.
Qed.

(** X19: in a run, no send blocks for ever on [jobs] or on [errorChan],
    which have room for every file and for one error for each file; no
    goroutine sends on a channel that is closed; and the count of the progress
    line never exceeds the number of files. *)
Theorem run_is_safe (s : Run) :
  rtc (step config profileName fs profile jsonFiles) (start profile jsonFiles workerCount) s ->
  (forall file files,
      at_main s = SendingJobs (file :: files) -> (length (jobs s) < totalFiles jsonFiles)%nat)
  /\ (forall err,
        SendingError err ∈ workers s ->
        (length (errorChan s) < totalFiles jsonFiles)%nat /\ errors_closed (closer s) = false)
  /\ (forall rows,
        SendingRows rows ∈ workers s -> results_closed (closer s) = false)
  /\ (processed s <= totalFiles jsonFiles)%nat
  /\ Forall (fun n => (n <= totalFiles jsonFiles)%nat) (shown s).
Proof.
  intros Hrun.
  destruct (consistent_run s Hrun)
    as (taken & rows & Hfiles & Hwritten & Hrows & Herrors & Hcloser & Hclosed
        & Hreturned & Hprogress & Htotal & Hprocessed & Hshown & Hlen & Hnone).
  split_and!; try done.
  - intros file files Hmain. rewrite Hmain in Hfiles. simpl in Hfiles.
    unfold totalFiles. rewrite Hfiles, !length_app. simpl. lia.
  - intros err Hin. apply list_elem_of_split in Hin as (before & after & Hws).
    rewrite Hws in *. split.
    + rewrite pending_errors_middle in Herrors.
      apply Permutation_length in Herrors. rewrite !length_app in Herrors.
      simpl in Herrors. pose proof (errors_of_length taken) as Hle.
      unfold totalFiles. rewrite Hfiles, !length_app. lia.
    + destruct (closer s); try reflexivity.
      destruct (not_all_returned before after (SendingError err));
        [discriminate | now apply Hclosed].
  - intros rows' Hin. apply list_elem_of_split in Hin as (before & after & Hws).
    rewrite Hws in *. destruct (results_closed (closer s)) eqn:Hc; [| reflexivity].
    destruct (not_all_returned before after (SendingRows rows'));
      [discriminate | now apply Hclosed].
Qed.

(** X20: under a content type other than [html] no record depends on the
    order of a [range] over a map, and the rows of a file are the same in
    every execution, whichever order [order] the library has.  Then the
    first record written is the header, and the records after it are rows
    of the files, none of them more often than one worker alone gives it.
    When [main] has returned and there is a worker, the rows written are
    those that one worker alone gives for the files, in some order, and the
    errors of the files are logged or still in [errorChan]; without a
    worker nothing but the header is written. *)
Theorem run_writes_every_row (s : Run)
    (order : nat -> list (string * string) -> list (string * string))
    (Hperm : forall i l, Permutation (order i l) l) :
  ContentType profile <> "html" ->
  rtc (step config profileName fs profile jsonFiles) (start profile jsonFiles workerCount) s ->
  exists rows,
    written s = getHeaders profile :: rows
    /\ rows ⊆+ (worker (L := with_range_order L order Hperm)
                  config profileName fs jsonFiles profile).1.1
    /\ (at_main s = Exited ->
        (0 < workerCount ->
         rows ≡ₚ (worker (L := with_range_order L order Hperm)
                    config profileName fs jsonFiles profile).1.1
         /\ logged s ++ errorChan s
            ≡ₚ (worker (L := with_range_order L order Hperm)
                  config profileName fs jsonFiles profile).1.2)
        /\ (workerCount <= 0 -> rows = [])).
Proof.
  intros Hcontent Hrun.
  rewrite (worker_without_html config profileName order Hperm profile Hcontent).
  destruct (consistent_run s Hrun)
    as (taken & rows & Hfiles & Hwritten & Hrows & Herrors & Hcloser & Hclosed
        & Hreturned & Hprogress & Htotal & Hprocessed & Hshown & Hlen & Hnone).
  destruct (worker_alone jsonFiles) as [Hall_rows Hall_errors].
  exists rows. split; [exact Hwritten | split].
  - rewrite Hall_rows. rewrite Hfiles at 1. rewrite flat_map_app, <- Hrows.
    apply submseteq_inserts_r, submseteq_inserts_r. reflexivity.
  - intros Hexit. rewrite Hexit in *. simpl in *.
    destruct (Hprogress eq_refl) as [Hresults Hc].
    destruct (returned_pending _ (Hclosed Hc)) as [Hpr Hpe].
    rewrite Hresults, Hpr in Hrows. rewrite Hpe in Herrors.
    rewrite !app_nil_r in *. split.
    + intros Hcount.
      destruct (workers s) as [| w ws] eqn:Hws; [simpl in Hlen; lia |].
      assert (Hw : Returned ∈ w :: ws).
      { pose proof (Hclosed Hc) as Hall. apply Forall_cons in Hall as [<- _]. left. }
      destruct (Hreturned Hw) as [Hjobs _]. rewrite Hjobs in Hfiles.
      rewrite !app_nil_r in Hfiles. subst taken.
      now rewrite Hall_rows, Hall_errors.
    + intros Hcount.
      assert (Hws : workers s = []).
      { apply length_zero_iff_nil. lia. }
      rewrite (Hnone Hws) in Hrows. simpl in Hrows.
      now apply Permutation_nil_r in Hrows.
Qed.

Lemma returned_or_not (ws : list WorkerState) :
  Forall (eq Returned) ws
  \/ exists before w after, ws = before ++ w :: after /\ w <> Returned.
Proof.
  induction ws as [| w ws [IH | (before & w' & after & -> & Hw')]].
  - left. constructor.
  - destruct w; try (left; now constructor); right.
    + exists [], Receiving, ws. now split.
    + exists [], (SendingError err), ws. now split.
    + exists [], (SendingRows rows), ws. now split.
  - right. exists (w :: before), w', after. now split.
Qed.

Lemma some_step (s : Run) :
  rtc (step config profileName fs profile jsonFiles) (start profile jsonFiles workerCount) s ->
  at_main s <> Exited -> exists s', step config profileName fs profile jsonFiles s s'.
Proof.
  intros Hrun Hmain.
  destruct (consistent_run s Hrun)
    as (taken & rows & Hfiles & Hwritten & Hrows & Herrors & Hcloser & Hclosed
        & Hreturned & Hprogress & Htotal & Hprocessed & Hshown & Hlen & Hnone).
  destruct s as [m ws c sh mo j r p e pr w shn lg].
  cbn [at_main workers closer jobs results errorChan processed written shown
       logged progressChan unsent jobs_closed progress_closed results_closed] in *.
  destruct m as [[| file files] | | | |].
  - (* [close(jobs)] *)
    assert (c = NotStarted) as -> by now apply Hcloser.
    eexists. apply main_closes_jobs.
  - (* [jobs <- file] *)
    eexists. apply main_sends_job. unfold totalFiles.
    simpl in Hfiles. rewrite Hfiles, !length_app. simpl. lia.
  - (* [for row := range results] *)
    destruct r as [| row r]; [| eexists; apply main_writes_row].
    destruct (results_closed c) eqn:Hc; [eexists; now apply main_closes_progress |].
    assert (Hwaiting : c = Waiting).
    { destruct c; try discriminate; [| reflexivity].
      destruct Hcloser as [Hcloser _]. now specialize (Hcloser eq_refl). }
    subst c.
    destruct (returned_or_not ws) as [Hall | (before & w' & after & -> & Hw')];
      [eexists; now apply closer_closes_results |].
    destruct w' as [| err | [| row rows'] |]; [| | | | contradiction].
    + destruct j as [| file j].
      * eexists. now apply worker_returns.
      * eexists. now apply worker_takes_job.
    + eexists. apply worker_sends_error; [done |].
      rewrite pending_errors_middle in Herrors.
      apply Permutation_length in Herrors. rewrite !length_app in Herrors.
      simpl in Herrors. pose proof (errors_of_length taken) as Hle.
      unfold totalFiles. rewrite Hfiles, !length_app. lia.
    + eexists. now apply worker_is_through.
    + eexists. apply worker_sends_row; [done |]. simpl.
      destruct Htotal as [Htotal | Hidle]; [exact Htotal |].
      destruct (not_all_idle before after (SendingRows (row :: rows')));
        [discriminate | discriminate | exact Hidle].
  - (* the [select] *)
    destruct (Nat.lt_ge_cases p (totalFiles jsonFiles)).
    + eexists. now apply main_reports.
    + eexists. now apply main_skips_report.
  - (* the sleep *)
    eexists. apply main_returns.
  - contradiction.
Qed.

Lemma list_sum_middle (f : WorkerState -> nat) (before after : list WorkerState)
    (w : WorkerState) :
  list_sum (map f (before ++ w :: after))
  = (f w + list_sum (map f (before ++ after)))%nat.
Proof.
  rewrite !map_app, !list_sum_app. simpl. lia.
Qed.

Lemma list_sum_cons (n : nat) (l : list nat) :
  list_sum (n :: l) = (n + list_sum l)%nat.
Proof. reflexivity. Qed.

Lemma step_steps_left (s s' : Run) :
  step config profileName fs profile jsonFiles s s' -> (steps_left config profileName fs profile s'
                < steps_left config profileName fs profile s)%nat.
Proof.
  intros Hstep. unfold steps_left.
  destruct Hstep;
    cbn [at_main workers closer jobs results errorChan processed written shown
         logged progressChan showing monitoring main_steps closer_steps];
    rewrite ?list_sum_middle, ?map_app, ?list_sum_app, ?length_app;
    cbn [map worker_steps length]; rewrite ?list_sum_cons;
    change (list_sum []) with 0%nat; lia.
Qed.

(** X22: a run comes to an end: every step leaves fewer steps to take, so a
    run from the start has no more steps than the start allows, which the
    files and their rows determine. *)
Theorem run_terminates (n : nat) (s : Run) :
  nsteps (step config profileName fs profile jsonFiles) n (start profile jsonFiles workerCount) s ->
  (n + steps_left config profileName fs profile s
   <= steps_left config profileName fs profile (start profile jsonFiles workerCount))%nat.
Proof.
  generalize (start profile jsonFiles workerCount). intros x Hrun.
  induction Hrun as [x | n x y z Hstep _ IH]; [lia |].
  pose proof (step_steps_left _ _ Hstep). lia.
Qed.

Lemma run_can_finish (k : nat) :
  forall s, (steps_left config profileName fs profile s <= k)%nat ->
            rtc (step config profileName fs profile jsonFiles) (start profile jsonFiles workerCount) s ->
            exists s', rtc (step config profileName fs profile jsonFiles) s s' /\ at_main s' = Exited.
Proof.
  induction k as [| k IH]; intros s Hk Hrun.
  - destruct (at_main s) eqn:Hmain; try (now exists s);
      destruct (some_step s Hrun) as [s1 Hstep]; try (rewrite Hmain; discriminate);
      pose proof (step_steps_left _ _ Hstep); lia.
  - destruct (at_main s) eqn:Hmain; try (now exists s);
      destruct (some_step s Hrun) as [s1 Hstep]; try (rewrite Hmain; discriminate);
      pose proof (step_steps_left _ _ Hstep) as Hless;
      (destruct (IH s1) as (s' & Hrun' & Hexit);
       [lia | eapply rtc_r; eassumption |]);
      exists s'; (split; [eapply rtc_l; eassumption | exact Hexit]).
Qed.

(** X21: a run never comes to a halt before [main] has returned: in every
    state of a run in which [main] has not returned, one of the goroutines
    can take a step, and the run can go on from there until [main] returns. *)
Theorem run_never_deadlocks (s : Run) :
  rtc (step config profileName fs profile jsonFiles) (start profile jsonFiles workerCount) s ->
  (at_main s <> Exited -> exists s', step config profileName fs profile jsonFiles s s')
  /\ exists s', rtc (step config profileName fs profile jsonFiles) s s' /\ at_main s' = Exited.
Proof.
  intros Hrun. split; [now apply some_step |].
  now apply (run_can_finish (steps_left config profileName fs profile s)).
Qed.

Lemma one_worker (before after : list WorkerState) (w w' : WorkerState) :
  before ++ w' :: after = [w] -> before = [] /\ after = [] /\ w' = w.
Proof.
  destruct before as [| b before]; simpl.
  - intros [= -> <-]. auto.
  - intros [= _ Hrest]. now destruct (app_cons_not_nil _ _ _ (eq_sym Hrest)).
Qed.

Lemma in_order_step (s s' : Run) :
  in_order config profileName fs profile jsonFiles s -> step config profileName fs profile jsonFiles s s' ->
  in_order config profileName fs profile jsonFiles s'.
Proof.
  intros (taken & rows & w0 & Hws & Hfiles & Hwritten & Hrows) Hstep.
  unfold in_order.
  destruct Hstep;
    cbn [at_main workers closer jobs results errorChan processed written shown
         logged progressChan unsent] in *;
    try (apply one_worker in Hws as (-> & -> & <-); cbn [app pending_rows] in *).
  - exists taken, rows, w0. split_and!; try done. now rewrite <- app_assoc.
  - exists taken, rows, w0. split_and!; done.
  - exists taken, (rows ++ [row]), w0. split_and!; try done.
    + now rewrite Hwritten.
    + rewrite <- Hrows, <- !app_assoc. reflexivity.
  - exists taken, rows, w0. split_and!; done.
  - exists taken, rows, w0. split_and!; done.
  - exists taken, rows, w0. split_and!; done.
  - exists taken, rows, w0. split_and!; done.
  - exists (taken ++ [file]), rows, (outcome config profileName fs profile file). split_and!; try done.
    + now rewrite <- app_assoc.
    + rewrite flat_map_app. cbn [flat_map]. rewrite <- Hrows, !app_nil_r.
      unfold rows_of. now rewrite <- !app_assoc.
  - exists taken, rows, Receiving. split_and!; done.
  - exists taken, rows, (SendingRows rows0). split_and!; try done.
    cbn [pending_rows]. rewrite <- Hrows, <- !app_assoc. reflexivity.
  - exists taken, rows, Receiving. split_and!; done.
  - exists taken, rows, Returned. split_and!; done.
  - exists taken, rows, w0. split_and!; done.
  - exists taken, rows, w0. split_and!; done.
  - exists taken, rows, w0. split_and!; done.
  - exists taken, rows, w0. split_and!; done.
  - exists taken, rows, w0. split_and!; done.
  - exists taken, rows, w0. split_and!; done.
Qed.

(** X23: with one worker and a content type other than [html], under which
    no record depends on the order of a [range] over a map, the output is
    determined: the rows are written in the order of the files and, within
    a file, of its records; what is written is at every moment the header
    and the first rows of what the worker alone gives, whichever order
    [order] the library has, and all of it when [main] has returned. *)
Theorem one_worker_keeps_the_order (s : Run)
    (order : nat -> list (string * string) -> list (string * string))
    (Hperm : forall i l, Permutation (order i l) l) :
  ContentType profile <> "html" ->
  workerCount = 1 ->
  rtc (step config profileName fs profile jsonFiles) (start profile jsonFiles workerCount) s ->
  exists rows,
    written s = getHeaders profile :: rows
    /\ rows `prefix_of` (worker (L := with_range_order L order Hperm)
                           config profileName fs jsonFiles profile).1.1
    /\ (at_main s = Exited ->
        rows = (worker (L := with_range_order L order Hperm)
                  config profileName fs jsonFiles profile).1.1).
Proof.
  intros Hcontent Hone Hrun.
  rewrite (worker_without_html config profileName order Hperm profile Hcontent).
  assert (Horder : in_order config profileName fs profile jsonFiles s).
  { apply rtc_ind_r with (x := (start profile jsonFiles workerCount))
      (P := fun s => in_order config profileName fs profile jsonFiles s) in Hrun;
      [exact Hrun | | intros y z _ Hstep Hy; exact (in_order_step _ _ Hy Hstep)].
    exists [], [], Receiving. unfold start. rewrite Hone. now split_and!. }
  destruct Horder as (taken & rows & w0 & Hws & Hfiles & Hwritten & Hrows).
  destruct (worker_alone jsonFiles) as [Hall _].
  exists rows. split; [exact Hwritten | split].
  - rewrite Hall. rewrite Hfiles at 1. rewrite flat_map_app, <- Hrows.
    eexists. rewrite <- !app_assoc. reflexivity.
  - intros Hexit.
    destruct (consistent_run s Hrun)
      as (_ & _ & _ & _ & _ & _ & _ & Hclosed & Hreturned & Hprogress & _).
    rewrite Hexit in *. simpl in *.
    destruct (Hprogress eq_refl) as [Hresults Hc].
    pose proof (Hclosed Hc) as Hreturn. rewrite Hws in Hreturn, Hreturned.
    apply Forall_cons in Hreturn as [<- _].
    destruct Hreturned as [Hjobs _]; [left |].
    rewrite Hjobs, !app_nil_r in Hfiles. subst taken.
    rewrite Hresults in Hrows. simpl in Hrows. rewrite app_nil_r in Hrows.
    now rewrite Hall.
Qed.

End RunFacts.

Lemma example_run :
  nsteps (step (L := RefLib.lib) Examples.config_empty "default" RunExample.files
               Examples.profile_json ["in.json"])
         11 (start Examples.profile_json ["in.json"] 1) RunExample.finished.
Proof.
  eapply nsteps_l; [apply main_sends_job; simpl; lia |].
  eapply nsteps_l; [apply main_closes_jobs |].
  eapply nsteps_l;
    [apply worker_takes_job with (before := []) (after := []); discriminate |].
  eapply nsteps_l;
    [apply worker_sends_row with (before := []) (after := [])
                                 (row := ["X1"; ""]) (rows := []);
     [discriminate | simpl; lia] |].
  eapply nsteps_l;
    [apply worker_is_through with (before := []) (after := []); discriminate |].
  eapply nsteps_l;
    [apply worker_returns with (before := []) (after := []);
     [discriminate | reflexivity] |].
  eapply nsteps_l; [apply closer_closes_results; [discriminate | now constructor] |].
  eapply nsteps_l; [apply main_writes_row |].
  eapply nsteps_l; [apply main_reports; simpl; lia |].
  eapply nsteps_l; [apply main_closes_progress; reflexivity |].
  eapply nsteps_l; [apply main_returns |].
  apply nsteps_O.
Qed.

Lemma run_is_safe_witness :
  (forall file files,
      at_main RunExample.finished = SendingJobs (file :: files) ->
      (length (jobs RunExample.finished) < totalFiles ["in.json"])%nat)
  /\ (forall err,
        SendingError err ∈ workers RunExample.finished ->
        (length (errorChan RunExample.finished) < totalFiles ["in.json"])%nat
        /\ errors_closed (closer RunExample.finished) = false)
  /\ (forall rows,
        SendingRows rows ∈ workers RunExample.finished ->
        results_closed (closer RunExample.finished) = false)
  /\ (processed RunExample.finished <= totalFiles ["in.json"])%nat
  /\ Forall (fun n => (n <= totalFiles ["in.json"])%nat) (shown RunExample.finished).
Proof.
  apply (@run_is_safe RefLib.lib Examples.config_empty "default" RunExample.files
           Examples.profile_json ["in.json"] 1 RunExample.finished).
  exact (rtc_nsteps_2 _ _ _ example_run).
Defined.

Lemma run_writes_every_row_witness :
  exists rows,
    written RunExample.finished = getHeaders Examples.profile_json :: rows
    /\ rows ⊆+ (worker (L := with_range_order RefLib.lib (fun _ l => rev l)
                               (fun _ l => Permutation_sym (Permutation_rev l)))
                  Examples.config_empty "default"
                  RunExample.files ["in.json"] Examples.profile_json).1.1
    /\ (at_main RunExample.finished = Exited ->
        (0 < 1 ->
         rows ≡ₚ (worker (L := with_range_order RefLib.lib (fun _ l => rev l)
                                 (fun _ l => Permutation_sym (Permutation_rev l)))
                    Examples.config_empty "default"
                    RunExample.files ["in.json"] Examples.profile_json).1.1
         /\ logged RunExample.finished ++ errorChan RunExample.finished
            ≡ₚ (worker (L := with_range_order RefLib.lib (fun _ l => rev l)
                                 (fun _ l => Permutation_sym (Permutation_rev l)))
                  Examples.config_empty "default"
                  RunExample.files ["in.json"] Examples.profile_json).1.2)
        /\ (1 <= 0 -> rows = [])).
Proof.
  apply (@run_writes_every_row RefLib.lib Examples.config_empty "default"
           RunExample.files Examples.profile_json ["in.json"] 1 RunExample.finished
           (fun _ l => rev l) (fun _ l => Permutation_sym (Permutation_rev l))).
  - discriminate.
  - exact (rtc_nsteps_2 _ _ _ example_run).
Defined.

Lemma run_never_deadlocks_witness :
  (at_main (start Examples.profile_json ["in.json"] 1) <> Exited ->
   exists s',
     step (L := RefLib.lib) Examples.config_empty "default" RunExample.files
          Examples.profile_json ["in.json"]
          (start Examples.profile_json ["in.json"] 1) s')
  /\ exists s',
       rtc (step (L := RefLib.lib) Examples.config_empty "default" RunExample.files
                 Examples.profile_json ["in.json"])
           (start Examples.profile_json ["in.json"] 1) s'
       /\ at_main s' = Exited.
Proof.
  apply (@run_never_deadlocks RefLib.lib Examples.config_empty "default"
           RunExample.files Examples.profile_json ["in.json"] 1).
  apply rtc_refl.
Defined.

Lemma run_terminates_witness :
  (11 + steps_left (L := RefLib.lib) Examples.config_empty "default" RunExample.files
          Examples.profile_json RunExample.finished
   <= steps_left (L := RefLib.lib) Examples.config_empty "default" RunExample.files
        Examples.profile_json (start Examples.profile_json ["in.json"] 1))%nat.
Proof.
  apply (@run_terminates RefLib.lib Examples.config_empty "default" RunExample.files
           Examples.profile_json ["in.json"] 1 11 RunExample.finished).
  exact example_run.
Defined.

Lemma one_worker_keeps_the_order_witness :
  exists rows,
    written RunExample.finished = getHeaders Examples.profile_json :: rows
    /\ rows `prefix_of`
         (worker (L := with_range_order RefLib.lib (fun _ l => rev l)
                          (fun _ l => Permutation_sym (Permutation_rev l)))
                 Examples.config_empty "default"
                 RunExample.files ["in.json"] Examples.profile_json).1.1
    /\ (at_main RunExample.finished = Exited ->
        rows = (worker (L := with_range_order RefLib.lib (fun _ l => rev l)
                                (fun _ l => Permutation_sym (Permutation_rev l)))
                  Examples.config_empty "default"
                  RunExample.files ["in.json"] Examples.profile_json).1.1).
Proof.
  apply (@one_worker_keeps_the_order RefLib.lib Examples.config_empty "default"
           RunExample.files Examples.profile_json ["in.json"] 1 RunExample.finished
           (fun _ l => rev l) (fun _ l => Permutation_sym (Permutation_rev l))).
  - discriminate.
  - reflexivity.
  - exact (rtc_nsteps_2 _ _ _ example_run).
Defined.

(** ** The progress line *)

Section Progress.

Context {L : GoLib}.
Variable config : Config.
Variable profileName : string.
Variable fs : gmap string string.
Variable profile : Profile.
Variable jsonFiles : list string.
Variable workerCount : Z.


Lemma next_processed_min (k : nat) :
  next_processed jsonFiles (Nat.min k (totalFiles jsonFiles)) = Nat.min (S k) (totalFiles jsonFiles).
Proof.
  unfold next_processed. destruct (Nat.ltb_spec (totalFiles jsonFiles) (Nat.min k (totalFiles jsonFiles) + 1)); lia.
Qed.

(** X24: the progress line counts rows, not files: a line is printed for a
    row that has been written, the count in the line of rank [i] is [i] as
    long as it is below the number of files and the number of files from
    there on, and [processed] is the count of the last line. *)
Theorem progress_counts_rows (s : Run) :
  rtc (step config profileName fs profile jsonFiles) (start profile jsonFiles workerCount) s ->
  processed s = Nat.min (length (shown s)) (totalFiles jsonFiles)
  /\ (forall i n, shown s !! i = Some n -> n = Nat.min (S i) (totalFiles jsonFiles))
  /\ (length (shown s) + progressChan s < length (written s))%nat.
Proof.
  intros Hrun.
  assert (Hinv : processed s = Nat.min (length (shown s)) (totalFiles jsonFiles)
                 /\ (forall i n, shown s !! i = Some n -> n = Nat.min (S i) (totalFiles jsonFiles))
                 /\ (length (shown s) + progressChan s
                     + (match at_main s with Selecting => 1 | _ => 0 end)
                     < length (written s))%nat).
  { apply rtc_ind_r with (x := (start profile jsonFiles workerCount))
      (P := fun s =>
              processed s = Nat.min (length (shown s)) (totalFiles jsonFiles)
              /\ (forall i n, shown s !! i = Some n -> n = Nat.min (S i) (totalFiles jsonFiles))
              /\ (length (shown s) + progressChan s
                  + (match at_main s with Selecting => 1 | _ => 0 end)
                  < length (written s))%nat) in Hrun; [exact Hrun | |].
    - simpl. split_and!; [lia | intros i n Hi; inversion Hi | lia].
    - clear s Hrun. intros s s' _ Hstep (Hprocessed & Hshown & Hcount).
      destruct Hstep;
        cbn [at_main processed shown written progressChan] in *;
        rewrite ?length_app in *; cbn [length] in *;
        (split_and!; [try assumption | try assumption | try lia; try (destruct m; lia)]).
      + rewrite Hprocessed, next_processed_min. f_equal. lia.
      + intros i n Hi. apply lookup_app_Some in Hi as [Hi | [Hle Hi]];
          [now apply Hshown |].
        apply list_lookup_singleton_Some in Hi as [Hi <-].
        rewrite Hprocessed, next_processed_min. f_equal. lia. }
  destruct Hinv as (Hprocessed & Hshown & Hcount). split_and!; try done. lia.
Qed.

End Progress.

Lemma progress_counts_rows_witness :
  processed RunExample.finished
  = Nat.min (length (shown RunExample.finished)) (totalFiles ["in.json"])
  /\ (forall i n, shown RunExample.finished !! i = Some n ->
                  n = Nat.min (S i) (totalFiles ["in.json"]))
  /\ (length (shown RunExample.finished) + progressChan RunExample.finished
      < length (written RunExample.finished))%nat.
Proof.
  apply (@progress_counts_rows RefLib.lib Examples.config_empty "default"
           RunExample.files Examples.profile_json ["in.json"] 1 RunExample.finished).
  exact (rtc_nsteps_2 _ _ _ example_run).
Defined.

(** ** The rows of a file and the cells of an HTML profile *)

Section Cells.
Import GoStrings GoRegexp.

Context {L : GoLib}.
Variable config : Config.
Variable profileName : string.

Lemma processItems_in_order profile items :
  Forall (fun item =>
            is_ok (fst (processJSONItem config profileName item profile)) = true)
         items ->
  fst (processItems config profileName items profile)
  = Ok (omap (fun item =>
                match fst (processJSONItem config profileName item profile) with
                | Ok (Some (cell :: cells)) => Some (cell :: cells)
                | _ => None
                end) items).
Proof.
  induction 1 as [| item rest Hitem _ IH]; [reflexivity |].
  cbn [processItems omap list_omap].
  destruct (processJSONItem config profileName item profile) as [[row | err] lg];
    [| discriminate].
  destruct (processItems config profileName rest profile) as [[rows | err'] lg'];
    [| discriminate].
  simpl in *. injection IH as ->. now destruct row as [[| cell cells] |].
Qed.

(** X25: a file all of whose records are processed without an error gives
    the rows of its records in the order of the records, those records left
    out whose row is blank (or empty, under a profile without columns). *)
Theorem processJSONFile_keeps_the_order fs filePath profile data items :
  decodeFileContent fs filePath = Ok data ->
  json_Unmarshal data = Ok items ->
  Forall (fun item =>
            is_ok (fst (processJSONItem config profileName item profile)) = true)
         items ->
  fst (processJSONFile config profileName fs filePath profile)
  = Ok (omap (fun item =>
                match fst (processJSONItem config profileName item profile) with
                | Ok (Some (cell :: cells)) => Some (cell :: cells)
                | _ => None
                end) items).
Proof.
  intros Hfile Hjson Hitems. unfold processJSONFile. rewrite Hfile, Hjson.
  now apply processItems_in_order.
Qed.

Lemma buildRow_cell item profile parseContent htmlValues columns :
  forall row lg i column,
    buildRow config profileName item profile parseContent htmlValues columns
    = (Ok row, lg) ->
    columns !! i = Some column ->
    exists value lg',
      columnSource item profile parseContent htmlValues column = (Ok value, lg')
      /\ row !! i = Some (finishValue config profileName column value).
Proof.
  induction columns as [| first rest IH]; intros row lg i column Hrow Hi;
    [inversion Hi |].
  cbn [buildRow] in Hrow.
  destruct (columnSource item profile parseContent htmlValues first)
    as [[value | err] lg1] eqn:Hsource; [| discriminate].
  destruct (buildRow config profileName item profile parseContent htmlValues rest)
    as [[row' | err] lg2] eqn:Hrest; [| discriminate].
  injection Hrow as <- _. destruct i as [| i].
  - injection Hi as <-. now exists value, lg1.
  - now apply (IH row' lg2 i column).
Qed.

(** X26: under an HTML profile with [parse_body], where the names of the
    columns differ from one another, the cell of a column with a regex or
    keywords and no tag that matches one label of the body, and no other, is
    the value of that label, after [clean_html], the newline policy and the
    null policy. *)
Theorem html_label_cell item profile content doc i column key value row :
  ParseBody profile <> "" ->
  ContentType profile = "html" ->
  getNestedValue (JObject item) (Split (ParseBody profile) ".") = Ok content ->
  html_Parse content = Ok doc ->
  NoDup (map ColumnName (Columns profile)) ->
  Columns profile !! i = Some column ->
  Tag column = "" ->
  Regex column <> "" \/ Keywords column <> [] ->
  harvest doc !! key = Some value ->
  matchColumn key column = true ->
  (forall key', is_Some (harvest doc !! key') ->
                matchColumn key' column = true -> key' = key) ->
  fst (processJSONItem config profileName item profile) = Ok (Some row) ->
  row !! i = Some (finishValue config profileName column value).
Proof.
  intros Hbody Hhtml Hcontent Hparse Hnodup Hi Htag Hrule Hpair Hmatch Huniq.
  unfold processJSONItem, resolveBody, extractHTMLValues.
  apply String.eqb_neq in Hbody. rewrite Hbody, Hcontent, Hhtml, Hparse.
  cbn [negb String.eqb Ascii.eqb Bool.eqb].
  destruct (buildRow _ _ _ _ _ _ _) as [[row' | err] lg] eqn:Hrow; [| discriminate].
  cbn [fst]. destruct (isEmptyOrAllNull config row'); [discriminate |].
  intros [= <-].
  destruct (buildRow_cell _ _ _ _ _ _ _ _ _ Hrow Hi) as (v & lg' & Hsource & Hcell).
  rewrite Hcell. do 2 f_equal.
  unfold columnSource in Hsource. rewrite Hhtml in Hsource.
  assert (Hguard : negb (Regex column =? "") || (0 <? length (Keywords column))%nat
                   = true).
  { destruct Hrule as [Hre | Hkw].
    - apply String.eqb_neq in Hre. now rewrite Hre.
    - destruct (Keywords column); [contradiction | apply orb_true_r]. }
  cbn [String.eqb Ascii.eqb Bool.eqb andb] in Hsource. rewrite Hguard in Hsource.
  injection Hsource as <- _.
  assert (Hin : column ∈ Columns profile) by (eapply list_elem_of_lookup_2; eassumption).
  destruct (assignColumns_column doc (harvest doc) _ _ Hnodup Hin 0%nat ∅) as [j ->].
  rewrite Htag. cbn [negb String.eqb].
  rewrite (find_unique _ _ (key, value)); [reflexivity | | exact Hmatch |].
  - now apply range_order_elem.
  - intros [key' value'] Hin' Hmatch'. apply range_order_elem in Hin'.
    simpl in Hmatch'. assert (key' = key) as -> by (apply Huniq; eauto).
    congruence.
Qed.

End Cells.

Lemma processJSONFile_keeps_the_order_witness :
  fst (processJSONFile (L := RefLib.lib) Examples.config_empty "default"
         RunExample.files "in.json" Examples.profile_json)
  = Ok (omap (fun item =>
                match fst (processJSONItem (L := RefLib.lib) Examples.config_empty
                             "default" item Examples.profile_json) with
                | Ok (Some (cell :: cells)) => Some (cell :: cells)
                | _ => None
                end) [[("id", JString "X1")]]).
Proof.
  apply (@processJSONFile_keeps_the_order RefLib.lib Examples.config_empty "default"
           RunExample.files "in.json" Examples.profile_json Examples.file_Value
           [[("id", JString "X1")]]).
  - reflexivity.
  - reflexivity.
  - repeat constructor.
Defined.

Lemma html_label_cell_witness :
  ["Alice"; "Eng"] !! 1%nat
  = Some (finishValue (L := RefLib.lib) Examples.config_empty "default"
            (Examples.label_column "Role" "Role" [] true) "Eng").
Proof.
  apply (@html_label_cell RefLib.lib Examples.config_empty "default"
           Examples.record_html Examples.profile_html
           "<p><strong>Name:</strong> Alice</p><p><strong>Role:</strong> Eng</p>"
           (RefLib.document
              [RefLib.element "p" [RefLib.element "strong" [RefLib.text "Name:"];
                                   RefLib.text " Alice"];
               RefLib.element "p" [RefLib.element "strong" [RefLib.text "Role:"];
                                   RefLib.text " Eng"]])
           1%nat (Examples.label_column "Role" "Role" [] true) "Role" "Eng"
           ["Alice"; "Eng"]).
  - discriminate.
  - reflexivity.
  - reflexivity.
  - reflexivity.
  - apply NoDup_cons. split; [| apply NoDup_singleton].
    intros Hin. apply elem_of_cons in Hin as [Hin | Hin];
      [discriminate | inversion Hin].
  - reflexivity.
  - reflexivity.
  - left. discriminate.
  - reflexivity.
  - reflexivity.
  - intros key' _ Hmatch. unfold matchColumn in Hmatch. simpl in Hmatch.
    rewrite orb_false_r in Hmatch. now apply String.eqb_eq in Hmatch.
  - reflexivity.
Defined.

(** ** The earlier drafts and the last one *)

Section Drafts.
Import GoStrings GoRegexp.

Context {L : GoLib}.
Variable config : Config.
Variable profileName : string.

Lemma earlier_null_sentinel :
  Draft1.handleNullValue config "" = handleNullValue config "".
Proof. reflexivity. Qed.

(** X27: the null policy of the earlier drafts knows the empty string only:
    it leaves [<nil>], the print of a JSON null, as it is, and gives what the
    last draft gives for every other value; the test for a blank row is the
    same in the first draft and in the last. *)
Theorem earlier_null_policy (value : string) (row : list string) :
  Draft1.handleNullValue config "<nil>" = "<nil>"
  /\ (value <> "<nil>" ->
      Draft1.handleNullValue config value = handleNullValue config value)
  /\ Draft2.handleNullValue config value = Draft1.handleNullValue config value
  /\ Draft1.isEmptyOrAllNull config row = isEmptyOrAllNull config row.
Proof.
  split_and!.
  - reflexivity.
  - intros Hnil. unfold Draft1.handleNullValue, handleNullValue.
    apply String.eqb_neq in Hnil. now rewrite Hnil, orb_false_r.
  - reflexivity.
  - unfold Draft1.isEmptyOrAllNull. rewrite earlier_null_sentinel.
    induction row as [| cell row IH]; [reflexivity |].
    cbn [isEmptyOrAllNull]. now rewrite IH.
Qed.

Lemma TrimSpace_idempotent (s : string) : TrimSpace (TrimSpace s) = TrimSpace s.
Proof.
  destruct (TrimSpace_trimmed s) as [Hstart Hend]. now apply TrimSpace_fixed.
Qed.

Lemma earlier_extractValue_lines_to_end (re : Regexp) (key : string)
    (lines : list string) :
  Draft1.extractValue_lines re key true lines = extractValue_lines re key true lines.
Proof.
  induction lines as [| line rest IH]; [reflexivity |].
  cbn [Draft1.extractValue_lines extractValue_lines]. rewrite IH. reflexivity.
Qed.

Lemma earlier_extractValue_lines (re : Regexp) (key : string) (lines : list string) :
  Draft1.extractValue_lines re key false lines <> "" ->
  Contains (Draft1.extractValue_lines re key false lines) "<br" = false ->
  extractValue_lines re key false lines
  = Draft1.extractValue_lines re key false lines.
Proof.
  induction lines as [| line rest IH]; [reflexivity |].
  cbn [Draft1.extractValue_lines extractValue_lines].
  destruct (1 <? length (Regexp_FindStringSubmatch re line))%nat; [| exact IH].
  set (value := TrimSpace (nth 1 (Regexp_FindStringSubmatch re line) "")).
  assert (Hkept : value <> "" -> Contains value "<br" = false ->
                  TrimSpace match Index value "<br" with
                            | Some brIndex => take brIndex value
                            | None => value
                            end = value).
  { intros _ Hbr. apply Index_None in Hbr. rewrite Hbr. apply TrimSpace_idempotent. }
  destruct rest as [| next rest]; [exact Hkept |].
  destruct (Contains next ":"); [congruence | exact Hkept].
Qed.

(** X28: the line-oriented extraction of the first draft and of the last
    give the same with [extract_to_end]; without it, a value that the first
    draft returns, when it is not empty and has no [<br] in it, is what the
    last draft returns: the last draft no longer gives a value up for a colon
    in the line that follows, and cuts it at a line break tag. *)
Theorem earlier_extractValue (content key value : string) :
  Draft1.extractValue content key true = extractValue content key true
  /\ (Draft1.extractValue content key false = Ok value ->
      value <> "" ->
      Contains value "<br" = false ->
      extractValue content key false = Ok value).
Proof.
  unfold Draft1.extractValue, extractValue.
  destruct (regexp_Compile (QuoteMeta key +:+ "(.+)")) as [re | err];
    [| split; [reflexivity | discriminate]].
  split; [now rewrite earlier_extractValue_lines_to_end |].
  intros [= <-] Hvalue Hbr. now rewrite earlier_extractValue_lines.
Qed.

(** X29: the normalization of the second draft keeps the text of the
    document without its tags, with every run of white space as one space,
    trimmed; the last draft gives the same under a profile other than
    [teams] and [replies] where that text has a white space byte after every
    colon inside it and no [??]. *)
Theorem earlier_cleanHTMLContent (content : string) (doc : Node) :
  html_Parse content = Ok doc ->
  Draft2.cleanHTMLContent content = TrimSpace (replace_spaces (strip_tags doc))
  /\ ws_normal (Draft2.cleanHTMLContent content) = true
  /\ (isChatProfile profileName = false ->
      colon_spaced (replace_spaces (strip_tags doc)) = true ->
      Contains (replace_spaces (strip_tags doc)) "??" = false ->
      cleanHTMLContent profileName content = Draft2.cleanHTMLContent content).
Proof.
  intros Hparse.
  assert (Hdraft : Draft2.cleanHTMLContent content
                   = TrimSpace (replace_spaces (strip_tags doc))).
  { unfold Draft2.cleanHTMLContent. now rewrite Hparse, cleanHTMLContent_f_strip_tags. }
  split_and!; [exact Hdraft | |].
  - rewrite Hdraft.
    destruct (TrimSpace_infix (replace_spaces (strip_tags doc)))
      as (pre & post & Hinfix).
    apply (ws_normal_app_l _ post), (ws_normal_app_r pre).
    rewrite <- Hinfix. apply collapse_go_normal.
  - intros Hchat Hcolon Hq. rewrite Hdraft. unfold cleanHTMLContent.
    rewrite Hchat, Hparse, cleanHTMLContent_f_strip_tags.
    rewrite (space_after_colon_fixed _ Hcolon). unfold ReplaceAll.
    now rewrite (replace_go_fixed _ _ _ Hq).
Qed.

Lemma earlier_buildRow_length item htmlValues columns :
  length (fst (Draft2.buildRow config item htmlValues columns)) = length columns.
Proof.
  induction columns as [| column rest IH]; [reflexivity |].
  cbn [Draft2.buildRow].
  destruct (Draft2.columnSource item htmlValues column) as [value lg].
  destruct (Draft2.buildRow config item htmlValues rest) as [row lg'].
  simpl in *. now rewrite IH.
Qed.

Lemma earlier_row_length item profile row :
  fst (Draft2.processJSONItem config item profile) = Ok row ->
  length row = length (Columns profile).
Proof.
  unfold Draft2.processJSONItem.
  destruct (if negb (ParseBody profile =? "") then _ else _) as [htmlContent | err];
    [| discriminate].
  destruct (Draft2.extractHTMLValues htmlContent (Columns profile))
    as [[htmlValues | err] lg]; [| discriminate].
  pose proof (earlier_buildRow_length item htmlValues (Columns profile)) as Hlen.
  destruct (Draft2.buildRow config item htmlValues (Columns profile)) as [row' lg'].
  simpl in *. now intros [= <-].
Qed.

(** X30: the second draft drops no row: under a profile with a column, a
    file that it reads without an error gives one row for each of its
    records, blank or not, in their order, and every row has one cell for
    each header. *)
Theorem earlier_rows_are_never_dropped fs filePath profile data items rows :
  decodeFileContent fs filePath = Ok data ->
  json_Unmarshal data = Ok items ->
  Columns profile <> [] ->
  fst (Draft2.processJSONFile config fs filePath profile) = Ok rows ->
  Forall2 (fun item row =>
             fst (Draft2.processJSONItem config item profile) = Ok row
             /\ length row = length (getHeaders profile))
          items rows.
Proof.
  intros Hfile Hjson Hcolumns. unfold Draft2.processJSONFile.
  rewrite Hfile, Hjson. clear Hfile Hjson. revert rows.
  induction items as [| item rest IH]; intros rows; cbn [Draft2.processItems].
  - intros [= <-]. constructor.
  - pose proof (earlier_row_length item profile) as Hlen.
    destruct (Draft2.processJSONItem config item profile) as [[row | err] lg]
      eqn:Hitem; [| discriminate].
    destruct (Draft2.processItems config rest profile) as [[rows' | err] lg'];
      [| discriminate].
    simpl in *. specialize (Hlen row eq_refl).
    destruct row as [| cell cells].
    + destruct (Columns profile); [contradiction | discriminate].
    + intros [= <-]. constructor; [| now apply IH].
      rewrite Hitem. split; [reflexivity |]. unfold getHeaders. now rewrite length_map.
Qed.

End Drafts.

Lemma earlier_cleanHTMLContent_witness :
  Draft2.cleanHTMLContent (L := RefLib.lib) "<p>Name: Alice   <br>x</p>"
  = GoStrings.TrimSpace
      (GoRegexp.replace_spaces
         (strip_tags
            (RefLib.document
               [RefLib.element "p" [RefLib.text "Name: Alice   ";
                                    RefLib.element "br" [];
                                    RefLib.text "x"]])))
  /\ ws_normal (Draft2.cleanHTMLContent (L := RefLib.lib) "<p>Name: Alice   <br>x</p>")
     = true
  /\ (isChatProfile "default" = false ->
      colon_spaced
        (GoRegexp.replace_spaces
           (strip_tags
              (RefLib.document
                 [RefLib.element "p" [RefLib.text "Name: Alice   ";
                                      RefLib.element "br" [];
                                      RefLib.text "x"]]))) = true ->
      GoStrings.Contains
        (GoRegexp.replace_spaces
           (strip_tags
              (RefLib.document
                 [RefLib.element "p" [RefLib.text "Name: Alice   ";
                                      RefLib.element "br" [];
                                      RefLib.text "x"]]))) "??" = false ->
      cleanHTMLContent (L := RefLib.lib) "default" "<p>Name: Alice   <br>x</p>"
      = Draft2.cleanHTMLContent (L := RefLib.lib) "<p>Name: Alice   <br>x</p>").
Proof.
  apply (@earlier_cleanHTMLContent RefLib.lib "default" "<p>Name: Alice   <br>x</p>").
  reflexivity.
Defined.

Lemma earlier_rows_are_never_dropped_witness :
  Forall2 (fun item row =>
             fst (Draft2.processJSONItem (L := RefLib.lib) Examples.config_null
                    item Examples.profile_json) = Ok row
             /\ length row = length (getHeaders Examples.profile_json))
          [[("name", JString "X1")]] [["null"; "null"]].
Proof.
  apply (@earlier_rows_are_never_dropped RefLib.lib Examples.config_null
           {["in.json" := "{" +:+ Examples.quoted "value" +:+ ":[{"
                          +:+ Examples.quoted "name" +:+ ":"
                          +:+ Examples.quoted "X1" +:+ "}]}"]}
           "in.json" Examples.profile_json
           ("{" +:+ Examples.quoted "value" +:+ ":[{" +:+ Examples.quoted "name"
            +:+ ":" +:+ Examples.quoted "X1" +:+ "}]}")).
  - reflexivity.
  - reflexivity.
  - discriminate.
  - reflexivity.
Defined.
